(** * scan_error: the capture-and-report engine of [src/scan_error.py]

    A shallow embedding of the [ScanError] class: the interception wrapper,
    the ignore/propagate classification, context extraction with redaction,
    the source window, the stack walk, the exception-chain walk, the report
    assembly and the handler dispatch.

    Conventions of the embedding.
    - A Python [dict] with string keys is a [gmap string _]; [d.update(o)] is
      the union [o ∪ d] (stdpp's union keeps the left operand on a clash).
    - A Python [str] is a [string] whose characters stand for code points, so
      [len] is [String.length].
    - A Python [int] is a [Z].
    - Code that may raise and has no other effect returns a [result].  The
      process-wide handler and the console are an explicit [world] that is
      threaded through the calls; a call that acts on the world returns the
      exception that leaves it, if any, next to the world it leaves behind.
    - Exception classes are identified by their [__name__]. *)

From Stdlib Require Import ZArith String Ascii List Bool Lia.
From stdpp Require Import base option list list_numbers gmap fin_maps strings pretty.

Local Open Scope string_scope.

(** ** Strings *)

Module PyString.

(** [s.startswith('_')] *)
Definition startswith_underscore (s : string) : bool :=
  match s with
  | String c _ => Ascii.eqb c "_"%char
  | EmptyString => false
  end.

(** [s[:n]] for [0 <= n] *)
Definition prefix (n : nat) (s : string) : string := String.substring 0 n s.

(** [if len(s) > limit: s = s[:limit] + '...'] *)
Definition truncate (limit : nat) (s : string) : string :=
  if Nat.ltb limit (String.length s) then prefix limit s ++ "..." else s.

(** The characters [str.isspace] accepts among the first 256 code points. *)
Definition is_space (c : ascii) : bool :=
  let n := nat_of_ascii c in
  (Nat.leb 9 n && Nat.leb n 13) || (Nat.leb 28 n && Nat.leb n 32)
  || Nat.eqb n 133 || Nat.eqb n 160.

Fixpoint lstrip (s : string) : string :=
  match s with
  | String c s' => if is_space c then lstrip s' else s
  | EmptyString => EmptyString
  end.

Fixpoint rstrip (s : string) : string :=
  match s with
  | String c s' =>
      match rstrip s' with
      | EmptyString => if is_space c then EmptyString else String c EmptyString
      | r => String c r
      end
  | EmptyString => EmptyString
  end.

(** [c in s] for a one-character [c] *)
Fixpoint contains (c : ascii) (s : string) : bool :=
  match s with
  | String a s' => Ascii.eqb a c || contains c s'
  | EmptyString => false
  end.

(** [s.split(c)] for a one-character separator *)
Fixpoint split (c : ascii) (s : string) : list string :=
  match s with
  | EmptyString => [EmptyString]
  | String a s' =>
      if Ascii.eqb a c then EmptyString :: split c s'
      else match split c s' with
           | h :: t => String a h :: t
           | [] => [String a EmptyString]
           end
  end.

Definition backslash : ascii := ascii_of_nat 92.

(** [f.split('\\')[-1] if '\\' in f else f] *)
Definition module_of (filename : string) : string :=
  if contains backslash filename
  then List.last (split backslash filename) filename
  else filename.

End PyString.

(** ** Python values

    The engine only ever applies [str] to the values that flow through it, or
    stores them as they are.  [PyOpaque] is any other object: [str] returns
    its [str_result], or raises an [Exception] when that is [None]. *)

Inductive pyobj : Type :=
  | PyNone
  | PyBool (b : bool)
  | PyInt (n : Z)
  | PyStr (s : string)
  | PyOpaque (ident : nat) (str_result : option string).

Definition py_str (o : pyobj) : option string :=
  match o with
  | PyNone => Some "None"
  | PyBool true => Some "True"
  | PyBool false => Some "False"
  | PyInt n => Some (pretty n)
  | PyStr s => Some s
  | PyOpaque _ r => r
  end.

(** ** Results of fallible code *)

(** Exception objects live in a store and refer to one another by reference,
    so a [__cause__]/[__context__] chain may be of any length and may loop. *)
Definition exc_ref := nat.

(** The exceptions that the engine's own code, or the handler it calls, can
    raise. *)
Inductive failure : Type :=
  | UnicodeDecodeError               (* [f.readlines()] on bytes that are not UTF-8 *)
  | StrRaised (raised : exc_ref)     (* [str(x)] raised this object inside [__str__] *)
  | HandlerRaised (raised : exc_ref) (* the handler raised this object *)
  | NoRunningLoop                    (* the [RuntimeError] of [asyncio.create_task] *)
  | PrintFailed.                     (* [print] could not write to [sys.stdout] *)

Inductive result (A : Type) : Type :=
  | Ok (a : A)
  | Raise (f : failure).
Arguments Ok {A} a.
Arguments Raise {A} f.

Global Instance result_ret : MRet result := fun A a => Ok a.

Global Instance result_bind : MBind result := fun A B k r =>
  match r with
  | Ok a => k a
  | Raise f => Raise f
  end.

(** ** Exceptions, frames and tracebacks *)

Record exc : Type := {
  exc_type : string;               (* [type(e).__name__] *)
  exc_bases : list string;         (* the names of the proper ancestors of [type(e)] *)
  exc_str : option string;         (* [str(e)], [None] when [__str__] raises *)
  exc_str_error : exc_ref;         (* what [__str__] raises when it does *)
  exc_cause : option exc_ref;      (* [e.__cause__] *)
  exc_context : option exc_ref;    (* [e.__context__] *)
  exc_suppress_context : bool;     (* [e.__suppress_context__] *)
  exc_has_traceback : bool;        (* [e.__traceback__] is set *)
  exc_format : list string         (* [traceback.format_exception(type(e), e, e.__traceback__)] *)
}.

(** [isinstance(e, cls)]: the class of [e] or one of its ancestors is [cls]. *)
Definition isinstance (e : exc) (cls : string) : bool :=
  bool_decide (cls = exc_type e) || bool_decide (cls ∈ exc_bases e).

Local Unset Elimination Schemes.

Inductive frame_obj : Type :=
  Frame {
    f_co_filename : string;        (* [frame.f_code.co_filename] *)
    f_co_name : string;            (* [frame.f_code.co_name] *)
    f_lineno : Z;
    f_locals : gmap string pyobj;
    f_back : option frame_obj
  }.

Inductive traceback_obj : Type :=
  Traceback {
    tb_frame : frame_obj;
    tb_lineno : Z;
    tb_next : option traceback_obj
  }.

Local Set Elimination Schemes.

(** What [open(filename, 'r', encoding='utf-8')] followed by [f.readlines()]
    does: the lines, an [OSError] ([IOError] is the same class), or a
    [UnicodeDecodeError]. *)
Inductive file_read : Type :=
  | FileLines (lines : list string)
  | FileOSError
  | FileDecodeError.

(** The part of the interpreter state the engine reads. *)
Record interp : Type := {
  heap : exc_ref -> exc;                 (* the exception objects *)
  read_file : string -> file_read;       (* the file system *)
  linecache_line : string -> Z -> string; (* the stripped source line [linecache] knows *)
  now : string;                          (* [datetime.now().strftime(...)] *)
  this_file : string                     (* [co_filename] of scan_error.py itself *)
}.

(** An entry of [traceback.extract_tb]: [(filename, lineno, name, line)]. *)
Record FrameSummary : Type := {
  fs_filename : string;
  fs_lineno : Z;
  fs_name : string;
  fs_line : string
}.

(** ** The report *)

Inductive relation_kind : Type := caused_by | context_for.

Record ChainLink : Type := {
  cl_type : string;
  cl_message : string;
  cl_index : Z;
  cl_is_original : option bool;          (* the key is only set on index 0 *)
  cl_traceback : option (list string);
  cl_relation : option relation_kind
}.

Record ErrorRecord : Type := {
  er_type : string;
  er_message : string;
  er_timestamp : string;
  er_exception_chain : list ChainLink;
  er_level : string
}.

Record Location : Type := {
  loc_filename : string;
  loc_line_number : Z;
  loc_function_name : string;
  loc_source_code : string;
  loc_module : string
}.

Record CodeLine : Type := {
  line_no : Z;
  code : string;
  is_error_line : bool
}.

Record CodeContext : Type := {
  cc_lines : list CodeLine;
  cc_error_line : Z
}.

Record ContextLine : Type := {
  sc_line_no : Z;
  sc_code : string;
  sc_is_current_line : bool
}.

Record FrameRecord : Type := {
  fr_filename : string;
  fr_line_number : Z;
  fr_function_name : string;
  fr_code : string;
  fr_module : string;
  fr_local_variables : option (gmap string string);
  fr_source_context : option (list ContextLine)
}.

Inductive line_type : Type := lt_error | lt_before | lt_after.

Record HighlightedLine : Type := {
  hl_line_no : Z;
  hl_code : string;
  hl_type : line_type;
  hl_indent_level : Z
}.

Record Highlighted : Type := {
  hl_lines : list HighlightedLine;
  hl_error_line : Z;
  hl_error_line_index : Z
}.

Record Configuration : Type := {
  conf_capture_code_context : bool;
  conf_capture_locals : bool;
  conf_max_stack_depth : Z;
  conf_error_level : string
}.

(** A value stored under a top-level key of the report dictionary: one of the
    seven structured fields, or what the context mapping contributes (a string
    summary, the caller's line number, or a custom-context object as given;
    see [stored]). *)
Inductive report_value : Type :=
  | RError (e : ErrorRecord)
  | RLocation (l : option Location)
  | RCodeContext (c : option CodeContext)
  | RStackTrace (frames : list FrameRecord)
  | RRawTraceback (text : list string)
  | RHighlighted (h : option Highlighted)
  | RConfiguration (c : Configuration)
  | RStr (s : string)
  | RInt (n : Z)
  | RObj (o : pyobj).

Abbreviation report := (gmap string report_value).

(** A Python object put into the report as it is. *)
Definition stored (o : pyobj) : report_value :=
  match o with
  | PyStr s => RStr s
  | PyInt n => RInt n
  | _ => RObj o
  end.

(** ** Redaction and context extraction *)

Definition filtered : string := "<filtered>".
Definition unable_to_represent : string := "<unable to represent>".

(** The sensitive names of [_extract_context_info]. *)
Definition sensitive_keys : list string :=
  ["password"; "token"; "secret"; "key"; "api_key"; "auth_token"].

(** The sensitive names of the per-frame locals capture. *)
Definition sensitive_locals : list string :=
  ["password"; "token"; "secret"; "key"; "api_key"; "auth_token"; "credentials"].

Definition is_sensitive_key (key : string) : bool :=
  PyString.startswith_underscore key || bool_decide (key ∈ sensitive_keys).

Definition is_sensitive_local (var_name : string) : bool :=
  PyString.startswith_underscore var_name || bool_decide (var_name ∈ sensitive_locals).

(** [try: s = str(v); if len(s) > limit: s = s[:limit] + '...' except Exception: '<unable to represent>'] *)
Definition summarize (limit : nat) (v : pyobj) : string :=
  match py_str v with
  | Some s => PyString.truncate limit s
  | None => unable_to_represent
  end.

(** [for i, arg in enumerate(args): context_info[f'arg_{i}'] = ...] *)
Fixpoint extract_args (i : nat) (args : list pyobj) (context_info : report) : report :=
  match args with
  | [] => context_info
  | arg :: rest =>
      extract_args (S i) rest (<["arg_" ++ pretty i := RStr (summarize 50 arg)]> context_info)
  end.

Definition keyword_summary (key : string) (value : pyobj) : string :=
  if is_sensitive_key key then filtered else summarize 100 value.

(** [for key, value in kwargs.items(): context_info[key] = ...] *)
Definition extract_kwargs (kwargs : gmap string pyobj) (context_info : report) : report :=
  map_fold (fun key value acc => <[key := RStr (keyword_summary key value)]> acc)
           context_info kwargs.

(** The frame that called [_extract_context_info], as
    [(co_name, co_filename, f_lineno)]; [None] when the interpreter gives no
    frame. *)
Definition caller_site : Type := (string * string * Z)%type.

Definition add_caller (caller : option caller_site) (context_info : report) : report :=
  match caller with
  | Some (name, filename, lineno) =>
      <["caller_line_number" := RInt lineno]>
        (<["caller_filename" := RStr filename]>
          (<["caller_function" := RStr name]> context_info))
  | None => context_info
  end.

Definition _extract_context_info (caller : option caller_site)
    (args : list pyobj) (kwargs : gmap string pyobj) : report :=
  add_caller caller (extract_kwargs kwargs (extract_args 0 args ∅)).

(** ** Collecting the error information *)

(** [range(a, b)] *)
Definition py_range (a b : Z) : list Z := seqZ a (b - a).

(** [lines[i]] for an index the loops below keep inside the file *)
Definition line_at (lines : list string) (i : Z) : string :=
  default EmptyString (lines !! Z.to_nat i).

(** The indices [range(max(0, lineno - back), min(len(lines), lineno + fwd))]. *)
Definition window_range (lines : list string) (lineno back fwd : Z) : list Z :=
  py_range (Z.max 0 (lineno - back)) (Z.min (Z.of_nat (length lines)) (lineno + fwd)).

Section Collect.

Variable env : interp.

Fixpoint extract_tb_from (tb : traceback_obj) : list FrameSummary :=
  match tb with
  | Traceback fr lineno next =>
      {| fs_filename := f_co_filename fr;
         fs_lineno := lineno;
         fs_name := f_co_name fr;
         fs_line := linecache_line env (f_co_filename fr) lineno |}
      :: match next with
         | Some tb' => extract_tb_from tb'
         | None => []
         end
  end.

(** [traceback.extract_tb(exc_info[2]) if exc_info[2] is not None else []] *)
Definition extract_tb (exc_tb : option traceback_obj) : list FrameSummary :=
  match exc_tb with
  | Some tb => extract_tb_from tb
  | None => []
  end.

(** The window around the error line (lines 357-382): ten lines on either
    side; a single entry when the file cannot be opened; a decode failure is
    not among the caught exceptions. *)
Definition error_window (filename : string) (lineno : Z) (known : string)
    : result (list CodeLine) :=
  match read_file env filename with
  | FileLines lines =>
      Ok (map (fun i => {| line_no := i + 1;
                           code := PyString.rstrip (line_at lines i);
                           is_error_line := Z.eqb (i + 1) lineno |})
              (window_range lines lineno 11 10))
  | FileOSError =>
      Ok [ {| line_no := lineno; code := known; is_error_line := true |} ]
  | FileDecodeError => Raise UnicodeDecodeError
  end.

Definition collect_code_context (capture_code_context : bool)
    (tb : list FrameSummary) : result (list CodeLine) :=
  match capture_code_context, last tb with
  | true, Some s => error_window (fs_filename s) (fs_lineno s) (fs_line s)
  | _, _ => Ok []
  end.

(** The per-frame window (lines 421-436): five lines on either side, left
    out when the file cannot be read or decoded. *)
Definition frame_source_context (filename : string) (lineno : Z)
    : option (list ContextLine) :=
  match read_file env filename with
  | FileLines lines =>
      Some (map (fun i => {| sc_line_no := i + 1;
                             sc_code := PyString.rstrip (line_at lines i);
                             sc_is_current_line := Z.eqb (i + 1) lineno |})
                (window_range lines lineno 6 5))
  | FileOSError | FileDecodeError => None
  end.

Definition local_summary (var_name : string) (var_value : pyobj) : string :=
  if is_sensitive_local var_name then filtered else summarize 150 var_value.

(** [for var_name, var_value in frame.f_locals.items(): local_vars[var_name] = ...] *)
Definition capture_local_vars (locals : gmap string pyobj) : gmap string string :=
  map_fold (fun var_name var_value acc => <[var_name := local_summary var_name var_value]> acc)
           ∅ locals.

(** The body of the stack loop for a frame object (lines 392-438). *)
Definition frame_info (capture_code_context capture_locals : bool)
    (frame : frame_obj) : FrameRecord :=
  {| fr_filename := f_co_filename frame;
     fr_line_number := f_lineno frame;
     fr_function_name := f_co_name frame;
     fr_code := linecache_line env (f_co_filename frame) (f_lineno frame);
     fr_module := PyString.module_of (f_co_filename frame);
     fr_local_variables :=
       if capture_code_context && capture_locals then
         let local_vars := capture_local_vars (f_locals frame) in
         if bool_decide (local_vars = ∅) then None else Some local_vars
       else None;
     fr_source_context :=
       if capture_code_context
       then frame_source_context (f_co_filename frame) (f_lineno frame)
       else None |}.

End Collect.

(** What the loop variable [frame] of the stack loop is bound to.  It starts
    as [exc_info[2]], which is a traceback object, and [frame.f_back] of a
    frame object is a frame object. *)
Inductive stack_cursor : Type :=
  | AtTraceback (tb : traceback_obj)
  | AtFrame (frame : frame_obj).

(** Reading [f_code], [f_lineno], [f_locals] or [f_back]: a frame object has
    them, a traceback object (whose attributes are [tb_frame], [tb_lineno],
    [tb_next], [tb_lasti]) raises [AttributeError]. *)
Definition frame_attributes (c : stack_cursor) : option frame_obj :=
  match c with
  | AtFrame frame => Some frame
  | AtTraceback _ => None
  end.

Section Walks.

Variable env : interp.

(** The stack loop (lines 385-442).  [budget] counts the iterations that
    [frame_index < max_stack_depth] still allows; an exception in the body
    leaves the loop ([except Exception: break]). *)
Fixpoint walk_stack (capture_code_context capture_locals : bool)
    (budget : nat) (frame : option stack_cursor) : list FrameRecord :=
  match budget, frame with
  | S budget', Some cursor =>
      match frame_attributes cursor with
      | Some fr =>
          frame_info env capture_code_context capture_locals fr
          :: walk_stack capture_code_context capture_locals budget'
               (AtFrame <$> f_back fr)
      | None => []
      end
  | _, _ => []
  end.

Definition collect_stack_trace (capture_code_context capture_locals : bool)
    (max_stack_depth : Z) (exc_tb : option traceback_obj) : list FrameRecord :=
  walk_stack capture_code_context capture_locals
    (Z.to_nat max_stack_depth) (AtTraceback <$> exc_tb).

(** [str(current_error)], which is not guarded in the chain loop *)
Definition str_exc (e : exc) : result string :=
  match exc_str e with
  | Some s => Ok s
  | None => Raise (StrRaised (exc_str_error e))
  end.

(** The link the chain loop moves to: [__cause__] first, then
    [__context__] unless [__suppress_context__]. *)
Definition chain_next (e : exc) : option (relation_kind * exc_ref) :=
  match exc_cause e with
  | Some c => Some (caused_by, c)
  | None =>
      match exc_context e with
      | Some c => if exc_suppress_context e then None else Some (context_for, c)
      | None => None
      end
  end.

(** The chain loop (lines 445-482).  [budget] counts the iterations that
    [chain_index < 10] still allows. *)
Fixpoint walk_chain (budget : nat) (current_error : exc_ref) (chain_index : Z)
    : result (list ChainLink) :=
  match budget with
  | O => Ok []
  | S budget' =>
      let e := heap env current_error in
      message ← str_exc e;
      let chain_info (relation : option relation_kind) :=
        {| cl_type := exc_type e;
           cl_message := message;
           cl_index := chain_index;
           cl_is_original := if Z.eqb chain_index 0 then Some true else None;
           cl_traceback := if exc_has_traceback e then Some (exc_format e) else None;
           cl_relation := relation |} in
      match chain_next e with
      | Some (relation, next) =>
          rest ← walk_chain budget' next (chain_index + 1);
          Ok (chain_info (Some relation) :: rest)
      | None => Ok [chain_info None]
      end
  end.

Definition collect_exception_chain (error : exc_ref) : result (list ChainLink) :=
  walk_chain 10 error 0.

End Walks.

(** ** Report assembly *)

Definition indent_level (code : string) : Z :=
  Z.of_nat (String.length code) - Z.of_nat (String.length (PyString.lstrip code)).

Definition highlight_type (error_line : Z) (line_info : CodeLine) : line_type :=
  if is_error_line line_info then lt_error
  else if Z.ltb (line_no line_info) error_line then lt_before
  else lt_after.

(** The last index [i] with [is_error_line], or [-1]. *)
Fixpoint error_line_index (i : Z) (code_context : list CodeLine) (found : Z) : Z :=
  match code_context with
  | [] => found
  | line_info :: rest =>
      error_line_index (i + 1) rest (if is_error_line line_info then i else found)
  end.

Definition _generate_highlighted_code (code_context : list CodeLine) (error_line : Z)
    : option Highlighted :=
  match code_context with
  | [] => None
  | _ =>
      Some {| hl_lines :=
                map (fun line_info =>
                       {| hl_line_no := line_no line_info;
                          hl_code := code line_info;
                          hl_type := highlight_type error_line line_info;
                          hl_indent_level := indent_level (code line_info) |})
                    code_context;
              hl_error_line := error_line;
              hl_error_line_index := error_line_index 0 code_context (-1) |}
  end.

Definition location_of (s : FrameSummary) : Location :=
  {| loc_filename := fs_filename s;
     loc_line_number := fs_lineno s;
     loc_function_name := fs_name s;
     loc_source_code := fs_line s;
     loc_module := PyString.module_of (fs_filename s) |}.

(** The dictionary literal of lines 488-529. *)
Definition build_error_info (error : ErrorRecord) (location : option Location)
    (code_context : option CodeContext) (stack_trace : list FrameRecord)
    (raw_traceback : list string) (highlighted_code : option Highlighted)
    (configuration : Configuration) : report :=
  <["configuration" := RConfiguration configuration]>
    (<["highlighted_code" := RHighlighted highlighted_code]>
      (<["raw_traceback" := RRawTraceback raw_traceback]>
        (<["stack_trace" := RStackTrace stack_trace]>
          (<["code_context" := RCodeContext code_context]>
            (<["location" := RLocation location]>
              (<["error" := RError error]> ∅)))))).

(** [_collect_error_info(error, ...)] run while [sys.exc_info()[2]] is
    [exc_tb]. *)
Definition _collect_error_info (env : interp) (exc_tb : option traceback_obj)
    (error : exc_ref) (capture_code_context : bool) (error_level : string)
    (capture_locals : bool) (max_stack_depth : Z) : result report :=
  let tb := extract_tb env exc_tb in
  code_context ← collect_code_context env capture_code_context tb;
  let stack_trace :=
    collect_stack_trace env capture_code_context capture_locals max_stack_depth exc_tb in
  exception_chain ← collect_exception_chain env error;
  let full_traceback := exc_format (heap env error) in
  message ← str_exc (heap env error);
  Ok (build_error_info
        {| er_type := exc_type (heap env error);
           er_message := message;
           er_timestamp := now env;
           er_exception_chain := exception_chain;
           er_level := error_level |}
        (location_of <$> last tb)
        (match capture_code_context, last tb with
         | true, Some s => Some {| cc_lines := code_context; cc_error_line := fs_lineno s |}
         | _, _ => None
         end)
        stack_trace
        full_traceback
        (match capture_code_context, last tb with
         | true, Some s => _generate_highlighted_code code_context (fs_lineno s)
         | _, _ => None
         end)
        {| conf_capture_code_context := capture_code_context;
           conf_capture_locals := capture_locals;
           conf_max_stack_depth := max_stack_depth;
           conf_error_level := error_level |}).

(** ** The handler and the console *)

(** What a call of a blocking handler does: it returns, or it raises the
    exception object [e], which may be of any class, [SystemExit] and
    [KeyboardInterrupt] included. *)
Inductive handler_result : Type :=
  | HandlerReturns
  | HandlerRaises (e : exc_ref).

Local Unset Elimination Schemes.

(** A registered handler.  Of the state the engine reads, a blocking handler
    can change the registration itself, by a call of [set_error_handler]
    while it runs: [h_registers] is then [Some h'], with [h'] what it leaves
    registered.  Calling a coroutine function only builds the coroutine
    object; its body runs later, in the event loop. *)
Inductive handler : Type :=
  Handler {
    h_is_coroutine : bool;                 (* [inspect.iscoroutinefunction(handler)] *)
    h_result : report -> handler_result;
    h_registers : report -> option (option handler)
  }.

Local Set Elimination Schemes.

Inductive delivery : Type :=
  | Called (error_info : report)     (* a blocking handler was called with the report *)
  | Scheduled (error_info : report). (* [asyncio.create_task] took the handler's coroutine *)

Inductive console_line : Type :=
  | EventRecovered
  | InternalFailure (f : failure)
  | HandlerFailure.

Record world : Type := {
  error_handler : option handler;   (* [ScanError._error_handler] *)
  loop_running : bool;              (* an asyncio event loop is running *)
  stdout_ok : bool;                 (* [sys.stdout] is open and can encode the
                                       engine's messages, which are not ASCII *)
  deliveries : list delivery;
  console : list console_line
}.

Definition deliver (d : delivery) (w : world) : world :=
  {| error_handler := error_handler w; loop_running := loop_running w;
     stdout_ok := stdout_ok w;
     deliveries := deliveries w ++ [d]; console := console w |}.

(** The world once [line] is on the console. *)
Definition logged (line : console_line) (w : world) : world :=
  {| error_handler := error_handler w; loop_running := loop_running w;
     stdout_ok := stdout_ok w;
     deliveries := deliveries w; console := console w ++ [line] |}.

Definition set_error_handler (h : option handler) (w : world) : world :=
  {| error_handler := h; loop_running := loop_running w;
     stdout_ok := stdout_ok w;
     deliveries := deliveries w; console := console w |}.

(** [print(text)] for a text that is already built: the write raises
    ([UnicodeEncodeError], [ValueError] on a closed stream, [OSError]) when
    [sys.stdout] does not take the text. *)
Definition print (line : console_line) (w : world) : option failure * world :=
  if stdout_ok w then (None, logged line w) else (Some PrintFailed, w).

(** [isinstance(f, Exception)], what [except Exception] catches.  The
    exceptions of the write, of the decoder and of [asyncio.create_task] are
    all of class [Exception]. *)
Definition is_Exception (env : interp) (f : failure) : bool :=
  match f with
  | UnicodeDecodeError | NoRunningLoop | PrintFailed => true
  | StrRaised r | HandlerRaised r => isinstance (heap env r) "Exception"
  end.

(** [str(f)], as the f-strings of the two [except] clauses apply it to the
    exception they caught: the exception that it raises, if it raises. *)
Definition str_failure (env : interp) (f : failure) : option failure :=
  match f with
  | UnicodeDecodeError | NoRunningLoop | PrintFailed => None
  | StrRaised r | HandlerRaised r =>
      match str_exc (heap env r) with
      | Ok _ => None
      | Raise f' => Some f'
      end
  end.

(** [print(f"...{error}")]: the text is built first, then written. *)
Definition print_error (env : interp) (line : console_line) (error : failure)
    (w : world) : option failure * world :=
  match str_failure env error with
  | Some f' => (Some f', w)
  | None => print line w
  end.

(** [_call_error_handler].  Without a running loop [asyncio.create_task]
    raises [RuntimeError], which the [except] clause prints like a failure of
    the handler itself.  An exception of the handler that is no [Exception],
    or an exception of the [print] in the [except] clause, leaves the call. *)
Definition _call_error_handler (env : interp) (error_info : report) (w : world)
    : option failure * world :=
  match error_handler w with
  | Some h =>
      if h_is_coroutine h then
        if loop_running w then (None, deliver (Scheduled error_info) w)
        else print_error env HandlerFailure NoRunningLoop w
      else
        let called := deliver (Called error_info) w in
        let w' := match h_registers h error_info with
                  | Some registered => set_error_handler registered called
                  | None => called
                  end in
        match h_result h error_info with
        | HandlerReturns => (None, w')
        | HandlerRaises e =>
            if is_Exception env (HandlerRaised e)
            then print_error env HandlerFailure (HandlerRaised e) w'
            else (Some (HandlerRaised e), w')
        end
  | None => (None, w)
  end.

(** ** The decorator *)

(** The keyword arguments of [error_decorator], one field per name the
    decorator reads and [dk_other] for every other name. *)
Record decorator_kwargs : Type := {
  dk_ignore_errors : option (list string);
  dk_propagate_errors : option (list string);
  dk_custom_context : option (gmap string pyobj);
  dk_capture_code_context : option bool;
  dk_error_level : option string;
  dk_capture_locals : option bool;
  dk_max_stack_depth : option Z;
  dk_other : gmap string pyobj
}.

Definition ignore_errors (dk : decorator_kwargs) : list string :=
  default [] (dk_ignore_errors dk).
Definition propagate_errors (dk : decorator_kwargs) : list string :=
  default [] (dk_propagate_errors dk).
Definition custom_context (dk : decorator_kwargs) : gmap string pyobj :=
  default ∅ (dk_custom_context dk).
Definition capture_code_context (dk : decorator_kwargs) : bool :=
  default true (dk_capture_code_context dk).
Definition error_level (dk : decorator_kwargs) : string :=
  default "DEBUG" (dk_error_level dk).
Definition capture_locals (dk : decorator_kwargs) : bool :=
  default false (dk_capture_locals dk).
Definition max_stack_depth (dk : decorator_kwargs) : Z :=
  default 10%Z (dk_max_stack_depth dk).

Definition set_if_given (key : string) (value : option pyobj)
    (d : gmap string pyobj) : gmap string pyobj :=
  match value with
  | Some v => <[key := v]> d
  | None => d
  end.

(** [decorator_kwargs.copy()] without [ignore_errors], [propagate_errors],
    [custom_context] and [capture_code_context]: the other three options stay
    in and reach the context like any other keyword. *)
Definition context_decorator_kwargs (dk : decorator_kwargs) : gmap string pyobj :=
  set_if_given "error_level" (PyStr <$> dk_error_level dk)
    (set_if_given "capture_locals" (PyBool <$> dk_capture_locals dk)
      (set_if_given "max_stack_depth" (PyInt <$> dk_max_stack_depth dk)
        (delete "ignore_errors"
          (delete "propagate_errors"
            (delete "custom_context"
              (delete "capture_code_context" (dk_other dk))))))).

(** What a call of the target does when the wrapper makes it: it returns, or
    it raises [e], and [tb] is [sys.exc_info()[2]] inside the wrapper's
    [except] clause (never [None] there: its first entry is the wrapper's own
    frame). *)
Inductive call_result : Type :=
  | Returned (v : pyobj)
  | Raised (e : exc_ref) (tb : traceback_obj).

Record target : Type := {
  fn_name : string;                        (* [fn.__name__] *)
  fn_module : option string;               (* [fn.__module__] *)
  fn_code : option (string * Z);           (* [co_filename], [co_firstlineno] *)
  fn_signature : option (list string);     (* the names in [inspect.signature(fn).parameters],
                                              [None] when it raises ValueError/TypeError *)
  fn_call : list pyobj -> gmap string pyobj -> world -> call_result * world
}.

(** [original_func_info], already through
    [str(value) if value is not None else "unknown"]. *)
Definition original_func_info (fn : target) : list (string * string) :=
  [ ("name", fn_name fn);
    ("module", default "unknown" (fn_module fn));
    ("filename", match fn_code fn with Some (f, _) => f | None => "unknown" end);
    ("lineno", match fn_code fn with Some (_, l) => pretty l | None => pretty 0%Z end) ].

(** [for key, value in original_func_info.items(): context_info[f"decorated_function_{key}"] = ...] *)
Definition add_decorated_function (info : list (string * string))
    (context_info : report) : report :=
  fold_left (fun acc kv => <["decorated_function_" ++ kv.1 := RStr kv.2]> acc)
            info context_info.

(** What the caller of a wrapped callable observes: a value, the exception
    of the target, or an exception of the engine or of the handler. *)
Inductive call_outcome : Type :=
  | Value (v : pyobj)
  | Propagated (e : exc_ref)
  | Escaped (f : failure).

(** [for error_type in errors: if isinstance(e, error_type): ...] *)
Fixpoint matches_any (e : exc) (errors : list string) : bool :=
  match errors with
  | [] => false
  | error_type :: rest => if isinstance e error_type then true else matches_any e rest
  end.

Section Decorator.

Variable env : interp.
Variable dk : decorator_kwargs.
Variable fn : target.

(** Lines 119-133: the call keywords, overridden by the decorator's, plus
    an [event] found among the locals of the wrapper's caller.  [caller] is
    the frame that called the wrapper. *)
Definition context_kwargs (caller : option frame_obj)
    (kwargs : gmap string pyobj) : gmap string pyobj :=
  let merged := context_decorator_kwargs dk ∪ kwargs in
  match merged !! "event", caller with
  | None, Some frame =>
      match f_locals frame !! "event" with
      | Some ev => <["event" := ev]> merged
      | None => merged
      end
  | _, _ => merged
  end.

Definition event_recovered (caller : option frame_obj)
    (kwargs : gmap string pyobj) : bool :=
  match (context_decorator_kwargs dk ∪ kwargs) !! "event", caller with
  | None, Some frame => bool_decide (is_Some (f_locals frame !! "event"))
  | _, _ => false
  end.

(** Lines 136-145: the context mapping. *)
Definition context_info (caller : option frame_obj) (args : list pyobj)
    (kwargs : gmap string pyobj) : report :=
  add_decorated_function (original_func_info fn)
    ((stored <$> custom_context dk)
     ∪ _extract_context_info (Some ("_handle_exception", this_file env, 136%Z))
         args (context_kwargs caller kwargs)).

(** The body of the [try] block of [_handle_exception] (lines 118-158). *)
Definition try_capture (caller : option frame_obj) (e : exc_ref) (tb : traceback_obj)
    (args : list pyobj) (kwargs : gmap string pyobj) (w : world)
    : option failure * world :=
  match (if event_recovered caller kwargs then print EventRecovered w else (None, w)) with
  | (Some f, w1) => (Some f, w1)
  | (None, w1) =>
      match _collect_error_info env (Some tb) e (capture_code_context dk)
              (error_level dk) (capture_locals dk) (max_stack_depth dk) with
      | Ok error_info =>
          _call_error_handler env (context_info caller args kwargs ∪ error_info) w1
      | Raise f => (Some f, w1)
      end
  end.

(** The [try] statement (lines 117-161): [except Exception] prints what it
    caught; anything else, and an exception of that [print], leaves it. *)
Definition capture (caller : option frame_obj) (e : exc_ref) (tb : traceback_obj)
    (args : list pyobj) (kwargs : gmap string pyobj) (w : world)
    : option failure * world :=
  match try_capture caller e tb args kwargs w with
  | (Some handler_error, w1) =>
      if is_Exception env handler_error
      then print_error env (InternalFailure handler_error) handler_error w1
      else (Some handler_error, w1)
  | (None, w1) => (None, w1)
  end.

Definition _handle_exception (caller : option frame_obj) (e : exc_ref)
    (tb : traceback_obj) (args : list pyobj) (kwargs : gmap string pyobj)
    (w : world) : call_outcome * world :=
  if matches_any (heap env e) (ignore_errors dk) then
    (Value (PyStr (exc_type (heap env e))), w)
  else if matches_any (heap env e) (propagate_errors dk) then
    (Propagated e, w)
  else
    match capture caller e tb args kwargs w with
    | (None, w') => (Value (PyStr (exc_type (heap env e))), w')
    | (Some f, w') => (Escaped f, w')
    end.

End Decorator.

(** The reserved context keys of [_filter_arguments]. *)
Definition context_keys : list string :=
  ["target_type"; "target_user_id"; "target_group_id"; "event";
   "error_context"; "custom_context"; "ignore_errors"; "propagate_errors"].

Definition _filter_arguments (signature : option (list string))
    (kwargs : gmap string pyobj) : gmap string pyobj :=
  match signature with
  | Some parameters =>
      filter (fun kv => kv.1 ∈ parameters ∨ kv.1 ∉ context_keys) kwargs
  | None =>
      filter (fun kv => kv.1 ∉ context_keys) kwargs
  end.

(** The inner [wrapper]; [async_wrapper] has the same body around an
    awaited call.  [except Exception] lets any other [BaseException] through. *)
Definition wrapper (env : interp) (dk : decorator_kwargs) (fn : target)
    (caller : option frame_obj) (args : list pyobj) (kwargs : gmap string pyobj)
    (w : world) : call_outcome * world :=
  let filtered_kwargs := _filter_arguments (fn_signature fn) kwargs in
  match fn_call fn args filtered_kwargs w with
  | (Returned v, w') => (Value v, w')
  | (Raised e tb, w') =>
      if isinstance (heap env e) "Exception"
      then _handle_exception env dk fn caller e tb args kwargs w'
      else (Propagated e, w')
  end.

(** Calling the target without the decorator. *)
Definition unwrapped (fn : target) (args : list pyobj) (kwargs : gmap string pyobj)
    (w : world) : call_outcome * world :=
  match fn_call fn args kwargs w with
  | (Returned v, w') => (Value v, w')
  | (Raised e _, w') => (Propagated e, w')
  end.

(** ** Manual reporting *)

(** An exception class as [report_error] uses it: [error_type(error_reason)]
    builds an instance that was never raised. *)
Record exc_class : Type := {
  cls_name : string;
  cls_bases : list string;
  cls_str : string -> option string;     (* [str] of an instance built from the reason *)
  cls_str_error : exc_ref;               (* what that [str] raises when it does *)
  cls_format : string -> list string     (* [traceback.format_exception] of that instance *)
}.

Definition instantiate (cls : exc_class) (error_reason : string) : exc :=
  {| exc_type := cls_name cls;
     exc_bases := cls_bases cls;
     exc_str := cls_str cls error_reason;
     exc_str_error := cls_str_error cls;
     exc_cause := None;
     exc_context := None;
     exc_suppress_context := false;
     exc_has_traceback := false;
     exc_format := cls_format cls error_reason |}.

(** The interpreter state once the new exception object sits at [ref]. *)
Definition allocate (env : interp) (ref : exc_ref) (e : exc) : interp :=
  {| heap := fun r => if Nat.eqb r ref then e else heap env r;
     read_file := read_file env;
     linecache_line := linecache_line env;
     now := now env;
     this_file := this_file env |}.

(** The keyword arguments of [report_error]: the three options it pops and
    every other name. *)
Record report_kwargs : Type := {
  rk_error_level : option string;
  rk_capture_locals : option bool;
  rk_max_stack_depth : option Z;
  rk_other : gmap string pyobj
}.

(** [kwargs] after the three [pop]s. *)
Definition remaining_kwargs (rk : report_kwargs) : gmap string pyobj :=
  delete "error_level" (delete "capture_locals" (delete "max_stack_depth" (rk_other rk))).

(** The dictionary [report_error] gets from [_collect_error_info], before the
    context is merged into it.  [active_tb] is [sys.exc_info()[2]] at the
    call: [None] when no exception is being handled. *)
Definition report_error_info (env : interp) (active_tb : option traceback_obj)
    (ref : exc_ref) (error_type : exc_class) (error_reason : string)
    (capture_code_context : bool) (rk : report_kwargs) : result report :=
  _collect_error_info (allocate env ref (instantiate error_type error_reason))
    active_tb ref capture_code_context
    (default "DEBUG" (rk_error_level rk))
    (default false (rk_capture_locals rk))
    (default 10%Z (rk_max_stack_depth rk)).

(** [report_error]: nothing here is guarded, an exception of the collection
    or of the dispatch reaches the caller. *)
Definition report_error (env : interp) (active_tb : option traceback_obj)
    (ref : exc_ref) (error_type : exc_class) (error_reason : string)
    (capture_code_context : bool) (rk : report_kwargs) (w : world)
    : option failure * world :=
  let context_info :=
    _extract_context_info (Some ("report_error", this_file env, 306%Z))
      [] (remaining_kwargs rk) in
  match report_error_info env active_tb ref error_type error_reason
          capture_code_context rk with
  | Ok error_info =>
      _call_error_handler (allocate env ref (instantiate error_type error_reason))
        (context_info ∪ error_info) w
  | Raise f => (Some f, w)
  end.

(** ** Vocabulary of the statements *)

(** The keys that the positional loop, the caller record and the
    decorated-function record write. *)
Definition is_arg_key (k : string) : Prop := exists i : nat, k = "arg_" ++ pretty i.

Definition caller_keys : list string :=
  ["caller_function"; "caller_filename"; "caller_line_number"].

Definition decorated_keys : list string :=
  ["decorated_function_name"; "decorated_function_module";
   "decorated_function_filename"; "decorated_function_lineno"].

(** The seven fields of the dictionary [_collect_error_info] builds. *)
Definition report_fields : list string :=
  ["error"; "location"; "code_context"; "stack_trace"; "raw_traceback";
   "highlighted_code"; "configuration"].

(** The reports the handler was given, in order. *)
Definition report_of (d : delivery) : report :=
  match d with
  | Called error_info | Scheduled error_info => error_info
  end.

Definition delivered_reports (w : world) : list report := map report_of (deliveries w).

(** A handler is registered and can take a report: it is blocking, or it is a
    coroutine function and an event loop is running. *)
Definition handler_ready (w : world) : bool :=
  match error_handler w with
  | Some h => negb (h_is_coroutine h) || loop_running w
  | None => false
  end.

(** An [except Exception] clause that prints what it caught gets past [f]:
    it catches [f], and [str(f)] returns. *)
Definition printable_Exception (env : interp) (f : failure) : bool :=
  match str_failure env f with
  | None => is_Exception env f
  | Some _ => false
  end.

(** In the frame records of report [r], every local variable whose name is
    sensitive shows the placeholder. *)
Definition locals_redacted (r : report) : Prop :=
  forall frames record local_vars name value,
    r !! "stack_trace" = Some (RStackTrace frames) ->
    record ∈ frames ->
    fr_local_variables record = Some local_vars ->
    local_vars !! name = Some value ->
    is_sensitive_local name = true ->
    value = filtered.

(** The entry of a traceback that lies deepest in the call stack: the place
    where the exception was raised. *)
Fixpoint innermost (tb : traceback_obj) : traceback_obj :=
  match tb with
  | Traceback _ _ (Some next) => innermost next
  | Traceback _ _ None => tb
  end.

(** A window entry is flagged as the error line. *)
Definition flagged (entry : CodeLine) : Prop := is_error_line entry = true.

(** The [i]-th exception reached from [e] by the links the chain loop
    follows. *)
Fixpoint nth_linked (env : interp) (e : exc_ref) (i : nat) : option exc_ref :=
  match i with
  | O => Some e
  | S j =>
      match chain_next (heap env e) with
      | Some (_, next) => nth_linked env next j
      | None => None
      end
  end.

(** [link] is the chain entry of exception [r], visited as number [start + i]. *)
Definition link_describes (env : interp) (start : Z) (i : nat) (r : exc_ref)
    (link : ChainLink) : Prop :=
  cl_type link = exc_type (heap env r)
  /\ exc_str (heap env r) = Some (cl_message link)
  /\ cl_index link = (start + Z.of_nat i)%Z
  /\ cl_is_original link = (if Z.eqb (start + Z.of_nat i) 0 then Some true else None)
  /\ cl_relation link = fst <$> chain_next (heap env r).

(** ** Concrete programs and interpreter states

    A small module [demo.py] that decorates [divide], as the first example of
    [example_usage.py] does, and the states in which its calls are handled. *)

Module Scenario.

Definition newline : string := String (ascii_of_nat 10) EmptyString.

Definition demo_file : string := "demo.py".

Definition demo_lines : list string :=
  map (fun l => l ++ newline)
    [ "from scan_error import error_decorator";
      "";
      "@error_decorator";
      "def divide(a, b):";
      "    return a / b";
      "";
      "divide(10, 0)" ].

Definition scan_error_file : string := "scan_error.py".

Definition exception_bases : list string := ["Exception"; "BaseException"; "object"].

(** [ZeroDivisionError('division by zero')], raised and caught. *)
Definition zero_division_error : exc :=
  {| exc_type := "ZeroDivisionError";
     exc_bases := "ArithmeticError" :: exception_bases;
     exc_str := Some "division by zero";
     exc_str_error := 0;
     exc_cause := None;
     exc_context := None;
     exc_suppress_context := false;
     exc_has_traceback := true;
     exc_format := ["Traceback (most recent call last):";
                    "ZeroDivisionError: division by zero"] |}.

(** [TypeError] for operands that [/] does not accept. *)
Definition unsupported_operands : exc :=
  {| exc_type := "TypeError";
     exc_bases := exception_bases;
     exc_str := Some "unsupported operand type(s) for /";
     exc_str_error := 0;
     exc_cause := None;
     exc_context := None;
     exc_suppress_context := false;
     exc_has_traceback := true;
     exc_format := ["Traceback (most recent call last):";
                    "TypeError: unsupported operand type(s) for /"] |}.

(** The exception objects a call of [divide] may raise: object 0 for a zero
    divisor, object 1 for operands that are not numbers. *)
Definition division_heap (r : exc_ref) : exc :=
  match r with
  | O => zero_division_error
  | _ => unsupported_operands
  end.

(** [KeyboardInterrupt], which does not derive from [Exception]. *)
Definition keyboard_interrupt : exc :=
  {| exc_type := "KeyboardInterrupt";
     exc_bases := ["BaseException"; "object"];
     exc_str := Some "";
     exc_str_error := 0;
     exc_cause := None;
     exc_context := None;
     exc_suppress_context := false;
     exc_has_traceback := true;
     exc_format := ["Traceback (most recent call last):"; "KeyboardInterrupt"] |}.

(** An exception whose [__str__] raises exception object [raised]. *)
Definition unprintable_error (raised : exc_ref) : exc :=
  {| exc_type := "Unprintable";
     exc_bases := exception_bases;
     exc_str := None;
     exc_str_error := raised;
     exc_cause := None;
     exc_context := None;
     exc_suppress_context := false;
     exc_has_traceback := true;
     exc_format := ["Traceback (most recent call last):";
                    "Unprintable: <exception str() failed>"] |}.

(** Object 0 is a fault whose [__str__] raises object 1, a [TypeError] that
    prints. *)
Definition unprintable_heap (r : exc_ref) : exc :=
  match r with
  | O => unprintable_error 1
  | _ => unsupported_operands
  end.

(** [raise RuntimeError('wrapper') from e] with [e = ValueError('original')],
    as in test 7 of [example_usage.py]: object 0 is the [RuntimeError], object
    1 its cause. *)
Definition chained_heap (r : exc_ref) : exc :=
  match r with
  | O =>
      {| exc_type := "RuntimeError"; exc_bases := exception_bases;
         exc_str := Some "wrapper"; exc_str_error := 0;
         exc_cause := Some 1; exc_context := Some 1;
         exc_suppress_context := true; exc_has_traceback := true;
         exc_format := ["RuntimeError: wrapper"] |}
  | _ =>
      {| exc_type := "ValueError"; exc_bases := exception_bases;
         exc_str := Some "original"; exc_str_error := 0;
         exc_cause := None; exc_context := None;
         exc_suppress_context := false; exc_has_traceback := true;
         exc_format := ["ValueError: original"] |}
  end.

(** Every exception object has the next one as its [__cause__]: a chain
    longer than any cap. *)
Definition endless_heap (r : exc_ref) : exc :=
  {| exc_type := "RuntimeError"; exc_bases := exception_bases;
     exc_str := Some "again"; exc_str_error := 0;
     exc_cause := Some (S r); exc_context := None;
     exc_suppress_context := true; exc_has_traceback := true;
     exc_format := ["RuntimeError: again"] |}.

Definition demo_env (h : exc_ref -> exc) (demo : file_read) : interp :=
  {| heap := h;
     read_file := fun name => if String.eqb name demo_file then demo else FileOSError;
     linecache_line := fun name lineno =>
       if String.eqb name demo_file
       then PyString.lstrip (PyString.rstrip (line_at demo_lines (lineno - 1)))
       else EmptyString;
     now := "2024-01-01 00:00:00";
     this_file := scan_error_file |}.

Definition module_frame : frame_obj :=
  {| f_co_filename := demo_file; f_co_name := "<module>"; f_lineno := 7;
     f_locals := ∅; f_back := None |}.

Definition wrapper_frame : frame_obj :=
  {| f_co_filename := scan_error_file; f_co_name := "wrapper"; f_lineno := 178;
     f_locals := ∅; f_back := Some module_frame |}.

Definition divide_frame : frame_obj :=
  {| f_co_filename := demo_file; f_co_name := "divide"; f_lineno := 5;
     f_locals := <["a" := PyInt 10]> (<["b" := PyInt 0]> ∅);
     f_back := Some wrapper_frame |}.

(** The traceback the wrapper sees: its own frame at the call of [fn], then
    the frame of [divide]. *)
Definition demo_traceback : traceback_obj :=
  {| tb_frame := wrapper_frame; tb_lineno := 175;
     tb_next := Some {| tb_frame := divide_frame; tb_lineno := 5; tb_next := None |} |}.

(** [divide(a, b) = a / b] on integers, in an interpreter whose exception
    objects are [division_heap]; [quotient] stands for float division. *)
Definition divide (quotient : Z -> Z -> pyobj) : target :=
  {| fn_name := "divide";
     fn_module := Some "__main__";
     fn_code := Some (demo_file, 3%Z);
     fn_signature := Some ["a"; "b"];
     fn_call := fun args kwargs w =>
       match args with
       | [PyInt a; PyInt b] =>
           if Z.eqb b 0 then (Raised 0 demo_traceback, w)
           else (Returned (quotient a b), w)
       | _ => (Raised 1 demo_traceback, w)
       end |}.

(** A target that raises exception object 0 whatever it is given. *)
Definition failing (parameters : list string) : target :=
  {| fn_name := "failing";
     fn_module := Some "__main__";
     fn_code := Some (demo_file, 3%Z);
     fn_signature := Some parameters;
     fn_call := fun args kwargs w => (Raised 0 demo_traceback, w) |}.

(** A target with a catch-all keyword parameter [kwargs] that returns
    [kwargs.get('event')]. *)
Definition show_event : target :=
  {| fn_name := "show_event";
     fn_module := Some "__main__";
     fn_code := Some (demo_file, 3%Z);
     fn_signature := Some ["kwargs"];
     fn_call := fun args kwargs w => (Returned (default PyNone (kwargs !! "event")), w) |}.

(** [def greet(event): return event] *)
Definition greet : target :=
  {| fn_name := "greet";
     fn_module := Some "__main__";
     fn_code := Some (demo_file, 3%Z);
     fn_signature := Some ["event"];
     fn_call := fun args kwargs w => (Returned (default PyNone (kwargs !! "event")), w) |}.

(** [@error_decorator] without arguments. *)
Definition no_kwargs : decorator_kwargs :=
  {| dk_ignore_errors := None; dk_propagate_errors := None;
     dk_custom_context := None; dk_capture_code_context := None;
     dk_error_level := None; dk_capture_locals := None;
     dk_max_stack_depth := None; dk_other := ∅ |}.

Definition with_ignore (classes : list string) : decorator_kwargs :=
  {| dk_ignore_errors := Some classes; dk_propagate_errors := None;
     dk_custom_context := None; dk_capture_code_context := None;
     dk_error_level := None; dk_capture_locals := None;
     dk_max_stack_depth := None; dk_other := ∅ |}.

Definition with_custom_context (custom : gmap string pyobj) : decorator_kwargs :=
  {| dk_ignore_errors := None; dk_propagate_errors := None;
     dk_custom_context := Some custom; dk_capture_code_context := None;
     dk_error_level := None; dk_capture_locals := None;
     dk_max_stack_depth := None; dk_other := ∅ |}.

Definition with_max_stack_depth (depth : Z) : decorator_kwargs :=
  {| dk_ignore_errors := None; dk_propagate_errors := None;
     dk_custom_context := None; dk_capture_code_context := None;
     dk_error_level := None; dk_capture_locals := None;
     dk_max_stack_depth := Some depth; dk_other := ∅ |}.

(** A blocking handler that returns normally. *)
Definition quiet_handler : handler :=
  {| h_is_coroutine := false;
     h_result := fun _ => HandlerReturns;
     h_registers := fun _ => None |}.

Definition listening : world :=
  {| error_handler := Some quiet_handler; loop_running := false;
     stdout_ok := true; deliveries := []; console := [] |}.

(** The same world with a [sys.stdout] that does not take the engine's
    messages. *)
Definition muted : world :=
  {| error_handler := Some quiet_handler; loop_running := false;
     stdout_ok := false; deliveries := []; console := [] |}.

(** Object 0 is the fault of [divide]; object 1 is a [KeyboardInterrupt]. *)
Definition interrupt_heap (r : exc_ref) : exc :=
  match r with
  | O => zero_division_error
  | _ => keyboard_interrupt
  end.

(** A blocking handler that is interrupted: it raises object 1. *)
Definition interrupted_handler : handler :=
  {| h_is_coroutine := false;
     h_result := fun _ => HandlerRaises 1;
     h_registers := fun _ => None |}.

Definition value_error_class : exc_class :=
  {| cls_name := "ValueError";
     cls_bases := exception_bases;
     cls_str := fun reason => Some reason;
     cls_str_error := 0;
     cls_format := fun reason => ["ValueError: " ++ reason] |}.

Definition no_report_kwargs : report_kwargs :=
  {| rk_error_level := None; rk_capture_locals := None;
     rk_max_stack_depth := None; rk_other := ∅ |}.

End Scenario.


(** * Properties *)

(** ** Dictionaries built by a loop *)

Section DictLoops.

Context {A B : Type}.
Implicit Types (g : string -> A -> B) (m : gmap string A) (init : gmap string B).

(** A loop [for k, v in m.items(): acc[k] = g(k, v)] overwrites exactly the
    keys of [m]. *)
Lemma lookup_items_loop g init m k :
  map_fold (fun key value acc => <[key := g key value]> acc) init m !! k
  = match m !! k with
    | Some v => Some (g k v)
    | None => init !! k
    end.
Proof.
  apply (map_fold_weak_ind
           (fun r m' => r !! k = match m' !! k with
                                 | Some v => Some (g k v)
                                 | None => init !! k
                                 end)).
  - by rewrite lookup_empty.
  - intros i x m' r Hi IH.
    destruct (decide (i = k)) as [->|Hne].
    + by rewrite !lookup_insert_eq.
    + by rewrite !lookup_insert_ne.
Qed.

End DictLoops.

Lemma lookup_extract_kwargs kwargs ctx k :
  extract_kwargs kwargs ctx !! k
  = match kwargs !! k with
    | Some v => Some (RStr (keyword_summary k v))
    | None => ctx !! k
    end.
Proof. apply (lookup_items_loop (fun key value => RStr (keyword_summary key value))). Qed.

Lemma lookup_capture_local_vars locals k :
  capture_local_vars locals !! k = local_summary k <$> locals !! k.
Proof.
  unfold capture_local_vars. rewrite lookup_items_loop.
  destruct (locals !! k); [done | by rewrite lookup_empty].
Qed.

Lemma lookup_extract_args_other args : forall i ctx k,
  ~ is_arg_key k -> extract_args i args ctx !! k = ctx !! k.
Proof.
  induction args as [|arg rest IH]; intros i ctx k Hk; simpl; [done|].
  rewrite IH by done. apply lookup_insert_ne.
  intros <-. apply Hk. by exists i.
Qed.

Lemma lookup_add_caller_other caller ctx k :
  k ∉ caller_keys -> add_caller caller ctx !! k = ctx !! k.
Proof.
  intros Hk. destruct caller as [[[name filename] lineno]|]; simpl; [|done].
  rewrite !lookup_insert_ne; [done | | |];
    intros <-; apply Hk; unfold caller_keys; set_solver.
Qed.

Lemma lookup_add_decorated_other fn ctx k :
  k ∉ decorated_keys ->
  add_decorated_function (original_func_info fn) ctx !! k = ctx !! k.
Proof.
  intros Hk. unfold add_decorated_function, original_func_info. simpl.
  rewrite !lookup_insert_ne; [done | | | |];
    intros <-; apply Hk; unfold decorated_keys; set_solver.
Qed.

(** ** The stack walk *)

Section StackWalk.

Variable env : interp.
Variables capture_cc capture_loc : bool.

(** The loop appends at most one record per allowed iteration. *)
Lemma walk_stack_length budget : forall cursor,
  length (walk_stack env capture_cc capture_loc budget cursor) <= budget.
Proof.
  induction budget as [|b IH]; intros [c|]; simpl; try lia.
  destruct (frame_attributes c) as [fr|]; simpl; [|lia].
  specialize (IH (AtFrame <$> f_back fr)). lia.
Qed.

(** On a frame object the loop emits the record of that frame and goes on
    with its caller. *)
Lemma walk_stack_frame budget frame :
  walk_stack env capture_cc capture_loc (S budget) (Some (AtFrame frame))
  = frame_info env capture_cc capture_loc frame
    :: walk_stack env capture_cc capture_loc budget (AtFrame <$> f_back frame).
Proof. reflexivity. Qed.

(** On a traceback object the first attribute access fails and the loop is
    left at once. *)
Lemma walk_stack_traceback budget tb :
  walk_stack env capture_cc capture_loc budget (Some (AtTraceback tb)) = [].
Proof. by destruct budget. Qed.

(** The loop variable starts as [exc_info[2]], so no frame is ever
    recorded. *)
Lemma collect_stack_trace_nil depth exc_tb :
  collect_stack_trace env capture_cc capture_loc depth exc_tb = [].
Proof.
  unfold collect_stack_trace. destruct exc_tb as [tb|]; simpl.
  - apply walk_stack_traceback.
  - by destruct (Z.to_nat depth).
Qed.

Lemma collect_stack_trace_length depth exc_tb :
  (Z.of_nat (length (collect_stack_trace env capture_cc capture_loc depth exc_tb))
   <= Z.max 0 depth)%Z.
Proof.
  unfold collect_stack_trace.
  pose proof (walk_stack_length (Z.to_nat depth) (AtTraceback <$> exc_tb)). lia.
Qed.

End StackWalk.

(** ** The exception chain *)

Section Chain.

Variable env : interp.

Local Abbreviation nth_linked := (nth_linked env).
Local Abbreviation link_describes := (link_describes env).

Lemma walk_chain_cases budget e idx chain :
  walk_chain env (S budget) e idx = Ok chain ->
  exists link rest,
    chain = link :: rest
    /\ link_describes idx 0 e link
    /\ match chain_next (heap env e) with
       | Some (_, next) => walk_chain env budget next (idx + 1) = Ok rest
       | None => rest = []
       end.
Proof.
  simpl. unfold str_exc, link_describes.
  destruct (exc_str (heap env e)) as [msg|]; simpl; [|done].
  rewrite Z.add_0_r.
  destruct (chain_next (heap env e)) as [[rel next]|]; simpl.
  - destruct (walk_chain env budget next (idx + 1)) as [rest|]; simpl; [|done].
    intros [= <-]. eexists _, _. by repeat split.
  - intros [= <-]. eexists _, _. by repeat split.
Qed.

Lemma walk_chain_length budget : forall e idx chain,
  walk_chain env budget e idx = Ok chain -> length chain <= budget.
Proof.
  induction budget as [|b IH]; intros e idx chain H.
  - injection H as <-. simpl. lia.
  - apply walk_chain_cases in H as (link & rest & -> & _ & H).
    destruct (chain_next (heap env e)) as [[rel next]|].
    + apply IH in H. simpl. lia.
    + subst rest. simpl. lia.
Qed.

(** Link [i] describes the [i]-th exception on the path. *)
Lemma walk_chain_lookup budget : forall e idx chain i link,
  walk_chain env budget e idx = Ok chain ->
  chain !! i = Some link ->
  exists r, nth_linked e i = Some r /\ link_describes idx i r link.
Proof.
  induction budget as [|b IH]; intros e idx chain i link H Hi.
  - injection H as <-. done.
  - apply walk_chain_cases in H as (link0 & rest & -> & Hd & H).
    destruct i as [|j]; simpl in Hi.
    + injection Hi as <-. by exists e.
    + destruct (chain_next (heap env e)) as [[rel next]|] eqn:Hnext.
      * destruct (IH _ _ _ _ _ H Hi) as (r & Hr & Hl).
        exists r. simpl. rewrite Hnext. split; [done|].
        unfold link_describes in *.
        replace (idx + Z.of_nat (S j))%Z with (idx + 1 + Z.of_nat j)%Z by lia.
        done.
      * subst rest. done.
Qed.

(** When the loop ends before the cap, the last link has no relation. *)
Lemma walk_chain_last budget : forall e idx chain,
  walk_chain env budget e idx = Ok chain ->
  length chain < budget ->
  exists link, last chain = Some link /\ cl_relation link = None.
Proof.
  induction budget as [|b IH]; intros e idx chain H Hlen; [lia|].
  apply walk_chain_cases in H as (link0 & rest & -> & Hd & H).
  destruct (chain_next (heap env e)) as [[rel next]|] eqn:Hnext.
  - simpl in Hlen. destruct (IH _ _ _ H) as (link & Hlast & Hrel); [lia|].
    exists link. split; [|done].
    destruct rest; [done|]. by rewrite last_cons_cons.
  - subst rest. exists link0. split; [done|].
    destruct Hd as (_ & _ & _ & _ & ->). by rewrite Hnext.
Qed.

Lemma walk_chain_nonempty budget e idx chain :
  walk_chain env (S budget) e idx = Ok chain -> chain <> [].
Proof. intros H. by apply walk_chain_cases in H as (? & ? & -> & _). Qed.

End Chain.

(** ** The assembled report *)

Section Assembled.

Variables (error : ErrorRecord) (location : option Location)
  (code_context : option CodeContext) (stack_trace : list FrameRecord)
  (raw_traceback : list string) (highlighted_code : option Highlighted)
  (configuration : Configuration).

Let info := build_error_info error location code_context stack_trace
              raw_traceback highlighted_code configuration.

Lemma build_error_info_error : info !! "error" = Some (RError error).
Proof. subst info. unfold build_error_info. by simplify_map_eq. Qed.

Lemma build_error_info_location : info !! "location" = Some (RLocation location).
Proof. subst info. unfold build_error_info. by simplify_map_eq. Qed.

Lemma build_error_info_code_context :
  info !! "code_context" = Some (RCodeContext code_context).
Proof. subst info. unfold build_error_info. by simplify_map_eq. Qed.

Lemma build_error_info_stack_trace :
  info !! "stack_trace" = Some (RStackTrace stack_trace).
Proof. subst info. unfold build_error_info. by simplify_map_eq. Qed.

End Assembled.

(** What a successful collection returns. *)
Lemma collect_error_info_Ok env exc_tb e capture_cc level capture_loc depth info :
  _collect_error_info env exc_tb e capture_cc level capture_loc depth = Ok info ->
  exists lines chain message location code_context highlighted,
    collect_code_context env capture_cc (extract_tb env exc_tb) = Ok lines
    /\ collect_exception_chain env e = Ok chain
    /\ exc_str (heap env e) = Some message
    /\ location = location_of <$> last (extract_tb env exc_tb)
    /\ (last (extract_tb env exc_tb) = None -> code_context = None)
    /\ info = build_error_info
                {| er_type := exc_type (heap env e);
                   er_message := message;
                   er_timestamp := now env;
                   er_exception_chain := chain;
                   er_level := level |}
                location code_context
                (collect_stack_trace env capture_cc capture_loc depth exc_tb)
                (exc_format (heap env e)) highlighted
                {| conf_capture_code_context := capture_cc;
                   conf_capture_locals := capture_loc;
                   conf_max_stack_depth := depth;
                   conf_error_level := level |}.
Proof.
  unfold _collect_error_info, str_exc.
  destruct (collect_code_context env capture_cc (extract_tb env exc_tb)) as [lines|];
    simpl; [|done].
  destruct (collect_exception_chain env e) as [chain|]; simpl; [|done].
  destruct (exc_str (heap env e)) as [message|]; simpl; [|done].
  intros [= <-]. eexists lines, chain, message, _, _, _.
  do 3 (split; [reflexivity|]). split; [reflexivity|].
  split; [|reflexivity].
  intros ->. by destruct capture_cc.
Qed.

(** Collection succeeds as soon as the error window can be computed and
    [str] works on every exception of the chain. *)
Lemma collect_error_info_total env exc_tb e capture_cc level capture_loc depth lines chain :
  collect_code_context env capture_cc (extract_tb env exc_tb) = Ok lines ->
  collect_exception_chain env e = Ok chain ->
  exists info,
    _collect_error_info env exc_tb e capture_cc level capture_loc depth = Ok info.
Proof.
  intros Hlines Hchain. unfold _collect_error_info. rewrite Hlines, Hchain. simpl.
  unfold collect_exception_chain in Hchain.
  apply walk_chain_cases in Hchain as (link & rest & _ & (_ & Hstr & _) & _).
  unfold str_exc. rewrite Hstr. simpl. by eexists.
Qed.

(** ** Bounds on the assembled report *)

Import Scenario.

(** C5, as stated, fails for a negative depth: [max_stack_depth=-1] is
    accepted, the loop body never runs, and the empty stack trace is longer
    than [-1]. *)
Lemma negative_depth_counterexample :
  exists info frames,
    _collect_error_info (demo_env (fun _ => zero_division_error) (FileLines demo_lines))
      (Some demo_traceback) 0 true "DEBUG" false
      (max_stack_depth (with_max_stack_depth (-1))) = Ok info
    /\ info !! "stack_trace" = Some (RStackTrace frames)
    /\ ~ (Z.of_nat (length frames) <= max_stack_depth (with_max_stack_depth (-1)))%Z.
Proof.
  eexists _, []. split; [vm_compute; reflexivity|].
  split; [vm_compute; reflexivity|].
  vm_compute. intros H. by apply H.
Qed.

(** C5, amended: in every assembled report the stack trace has at most
    [max(0, max_stack_depth)] entries, so at most [max_stack_depth] whenever
    that is not negative, and the exception chain has at most 10 links. *)
Theorem assembled_report_bounds env exc_tb e capture_cc level capture_loc depth info :
  _collect_error_info env exc_tb e capture_cc level capture_loc depth = Ok info ->
  exists er frames,
    info !! "error" = Some (RError er)
    /\ info !! "stack_trace" = Some (RStackTrace frames)
    /\ (Z.of_nat (length frames) <= Z.max 0 depth)%Z
    /\ ((0 <= depth)%Z -> (Z.of_nat (length frames) <= depth)%Z)
    /\ length (er_exception_chain er) <= 10.
Proof.
  intros H.
  apply collect_error_info_Ok in H
    as (lines & chain & message & location & code_context & highlighted
        & _ & Hchain & _ & _ & _ & ->).
  eexists _, _. split; [apply build_error_info_error|].
  split; [apply build_error_info_stack_trace|].
  pose proof (collect_stack_trace_length env capture_cc capture_loc depth exc_tb).
  split; [done|]. split; [lia|].
  simpl. by apply walk_chain_length in Hchain.
Qed.

Lemma assembled_report_bounds_witness :
  exists info,
    _collect_error_info (demo_env chained_heap (FileLines demo_lines))
      (Some demo_traceback) 0 true "DEBUG" false 10 = Ok info
    /\ exists er frames,
        info !! "error" = Some (RError er)
        /\ info !! "stack_trace" = Some (RStackTrace frames)
        /\ (Z.of_nat (length frames) <= Z.max 0 10)%Z
        /\ ((0 <= 10)%Z -> (Z.of_nat (length frames) <= 10)%Z)
        /\ length (er_exception_chain er) <= 10.
Proof.
  eexists. split.
  - reflexivity.
  - apply (assembled_report_bounds (demo_env chained_heap (FileLines demo_lines))
             (Some demo_traceback) 0 true "DEBUG" false 10).
    reflexivity.
Defined.

(** ** The stack trace of a captured fault *)

(** Whatever is being handled, the assembled report has no frame records. *)
Lemma assembled_stack_trace_nil env exc_tb e capture_cc level capture_loc depth info :
  _collect_error_info env exc_tb e capture_cc level capture_loc depth = Ok info ->
  info !! "stack_trace" = Some (RStackTrace []).
Proof.
  intros H.
  apply collect_error_info_Ok in H as (? & ? & ? & ? & ? & ? & _ & _ & _ & _ & _ & ->).
  rewrite build_error_info_stack_trace. by rewrite collect_stack_trace_nil.
Qed.

(** C3, at its scenario: the decorated [divide] called with [(10, 0)] under
    the default configuration returns ["ZeroDivisionError"], and the handler
    gets one report whose [error.type] is ["ZeroDivisionError"] and whose
    message is the division-by-zero text; but its [stack_trace] is empty,
    where the claim has it non-empty: the walk starts on the traceback object
    and stops at the first attribute it reads. *)
Theorem divide_by_zero_report (quotient : Z -> Z -> pyobj) :
  exists info er,
    wrapper (demo_env division_heap (FileLines demo_lines))
      no_kwargs (divide quotient) (Some module_frame) [PyInt 10; PyInt 0] ∅ listening
    = (Value (PyStr "ZeroDivisionError"), deliver (Called info) listening)
    /\ info !! "error" = Some (RError er)
    /\ er_type er = "ZeroDivisionError"
    /\ er_message er = "division by zero"
    /\ info !! "stack_trace" = Some (RStackTrace []).
Proof.
  eexists _, _. split; [vm_compute; reflexivity|].
  split; [vm_compute; reflexivity|].
  repeat split; vm_compute; reflexivity.
Qed.

(** ** The shape of the exception chain *)

(** [__cause__] is followed in preference to [__context__], and
    [__context__] only when it is not suppressed. *)
Lemma chain_next_spec (e : exc) :
  chain_next e
  = match exc_cause e, exc_context e with
    | Some c, _ => Some (caused_by, c)
    | None, Some c => if exc_suppress_context e then None else Some (context_for, c)
    | None, None => None
    end.
Proof. unfold chain_next. by destruct (exc_cause e), (exc_context e). Qed.

(** C6, as stated, fails at the cap: on a chain of more than ten exceptions
    the tenth link, the last one visited, carries the relation to an eleventh
    exception that is never visited. *)
Lemma capped_chain_counterexample :
  exists chain link,
    collect_exception_chain (demo_env endless_heap (FileLines demo_lines)) 0 = Ok chain
    /\ length chain = 10
    /\ last chain = Some link
    /\ cl_index link = 9%Z
    /\ cl_relation link = Some caused_by.
Proof.
  eexists _, _. split; [vm_compute; reflexivity|].
  repeat split; vm_compute; reflexivity.
Qed.

(** C6, amended: the chain starts at the thrown fault and has between one and
    ten links; link [i] describes the [i]-th exception reached by following
    [__cause__] first and an unsuppressed [__context__] otherwise, with index
    [i], [is_original] on index 0 only, and as [relation] the kind of link
    that leaves that exception, absent when none is followed.  So the last
    link has no relation when the walk ends by itself, before the cap; at the
    cap the tenth link keeps the relation to the exception that is not
    visited.  A fault with one explicit cause, itself without cause or
    context to follow, gives two links with [caused_by] on the first only. *)
Theorem exception_chain_shape env e chain :
  collect_exception_chain env e = Ok chain ->
  (1 <= length chain <= 10)
  /\ (forall i link, chain !! i = Some link ->
        exists r, nth_linked env e i = Some r /\ link_describes env 0 i r link)
  /\ (length chain < 10 ->
        exists link, last chain = Some link /\ cl_relation link = None)
  /\ (forall c, exc_cause (heap env e) = Some c ->
        chain_next (heap env c) = None ->
        exists first second,
          chain = [first; second]
          /\ cl_relation first = Some caused_by
          /\ cl_relation second = None).
Proof.
  unfold collect_exception_chain. intros H.
  split; [|split; [|split]].
  - pose proof (walk_chain_length _ _ _ _ _ H).
    pose proof (walk_chain_nonempty _ _ _ _ _ H).
    destruct chain; [done|]. simpl in *. lia.
  - intros i link Hi. by eapply walk_chain_lookup.
  - intros Hlen. by eapply walk_chain_last.
  - intros c Hcause Hstop.
    apply walk_chain_cases in H as (first & rest & -> & Hfirst & H).
    destruct Hfirst as (_ & _ & _ & _ & Hrel).
    rewrite chain_next_spec, Hcause in Hrel, H.
    apply walk_chain_cases in H as (second & rest' & -> & Hsecond & H).
    destruct Hsecond as (_ & _ & _ & _ & Hrel').
    rewrite Hstop in Hrel', H. subst rest'.
    by exists first, second.
Qed.

Lemma exception_chain_shape_witness :
  exists chain,
    collect_exception_chain (demo_env chained_heap (FileLines demo_lines)) 0 = Ok chain
    /\ (1 <= length chain <= 10)
    /\ (forall i link, chain !! i = Some link ->
          exists r, nth_linked (demo_env chained_heap (FileLines demo_lines)) 0 i = Some r
                    /\ link_describes (demo_env chained_heap (FileLines demo_lines)) 0 i r link)
    /\ (length chain < 10 ->
          exists link, last chain = Some link /\ cl_relation link = None)
    /\ (forall c,
          exc_cause (heap (demo_env chained_heap (FileLines demo_lines)) 0) = Some c ->
          chain_next (heap (demo_env chained_heap (FileLines demo_lines)) c) = None ->
          exists first second,
            chain = [first; second]
            /\ cl_relation first = Some caused_by
            /\ cl_relation second = None).
Proof.
  eexists. split.
  - vm_compute. reflexivity.
  - apply (exception_chain_shape (demo_env chained_heap (FileLines demo_lines)) 0).
    vm_compute. reflexivity.
Defined.

(** ** The source window of the error location *)

Lemma elem_of_window_range lines lineno back fwd i :
  i ∈ window_range lines lineno back fwd
  <-> (Z.max 0 (lineno - back) <= i < Z.min (Z.of_nat (length lines)) (lineno + fwd))%Z.
Proof. unfold window_range, py_range. rewrite elem_of_seqZ. lia. Qed.

Lemma length_window_range lines lineno back fwd :
  (0 <= back)%Z -> (0 <= fwd)%Z ->
  (Z.of_nat (length (window_range lines lineno back fwd)) <= back + fwd)%Z.
Proof. intros. unfold window_range, py_range. rewrite length_seqZ. lia. Qed.

(** The indices of the window lie inside the file, so [line_at] reads a real
    line. *)
Lemma line_at_window lines lineno back fwd i :
  i ∈ window_range lines lineno back fwd ->
  lines !! Z.to_nat i = Some (line_at lines i).
Proof.
  rewrite elem_of_window_range. intros Hi. unfold line_at.
  destruct (lines !! Z.to_nat i) eqn:Hl; [done|].
  apply lookup_ge_None in Hl. lia.
Qed.

(** For a file that can be read the window holds exactly the lines
    [lineno - 10 .. lineno + 10] that exist, at most 21, each with its number,
    its right-stripped text and the error flag on line [lineno] only. *)
Lemma error_window_readable env filename lineno known lines :
  read_file env filename = FileLines lines ->
  exists window,
    error_window env filename lineno known = Ok window
    /\ length window <= 21
    /\ (forall n, (exists entry, entry ∈ window /\ line_no entry = n)
                  <-> (Z.max 1 (lineno - 10) <= n
                       <= Z.min (Z.of_nat (length lines)) (lineno + 10))%Z)
    /\ (forall entry, entry ∈ window ->
          lines !! Z.to_nat (line_no entry - 1)
            = Some (line_at lines (line_no entry - 1))
          /\ code entry = PyString.rstrip (line_at lines (line_no entry - 1))
          /\ is_error_line entry = Z.eqb (line_no entry) lineno).
Proof.
  intros Hread. unfold error_window. rewrite Hread. eexists. split; [reflexivity|].
  split; [|split].
  - rewrite length_map.
    pose proof (length_window_range lines lineno 11 10). lia.
  - intros n. split.
    + intros (entry & Hin & <-).
      apply list_elem_of_In, in_map_iff in Hin as (i & <- & Hi).
      apply list_elem_of_In, elem_of_window_range in Hi. simpl. lia.
    + intros Hn. eexists. split.
      * apply list_elem_of_In, in_map_iff. exists (n - 1)%Z. split; [reflexivity|].
        apply list_elem_of_In, elem_of_window_range. lia.
      * simpl. lia.
  - intros entry Hin.
    apply list_elem_of_In, in_map_iff in Hin as (i & <- & Hi).
    apply list_elem_of_In in Hi. simpl.
    replace (i + 1 - 1)%Z with i by lia.
    split; [by eapply line_at_window|done].
Qed.

(** When the file cannot be opened the window is the one known line. *)
Lemma error_window_unopenable env filename lineno known :
  read_file env filename = FileOSError ->
  error_window env filename lineno known
  = Ok [ {| line_no := lineno; code := known; is_error_line := true |} ].
Proof. intros Hread. unfold error_window. by rewrite Hread. Qed.

(** C7, at a source file that is not valid UTF-8: reading it raises
    [UnicodeDecodeError], which the window's [except (IOError, OSError)] does
    not catch, so the window computation raises, where the claim has a
    single-entry window and no raise.  The per-frame window catches that very
    error; here it takes the whole collection down, and the wrapped call
    returns its sentinel without a report for the handler. *)
Theorem undecodable_source_window :
  let env := demo_env (fun _ => zero_division_error) FileDecodeError in
  error_window env demo_file 5 "return a / b" = Raise UnicodeDecodeError
  /\ frame_source_context env demo_file 5 = None
  /\ _collect_error_info env (Some demo_traceback) 0 true "DEBUG" false 10
     = Raise UnicodeDecodeError
  /\ wrapper env no_kwargs (failing []) (Some module_frame) [] ∅ listening
     = (Value (PyStr "ZeroDivisionError"),
        logged (InternalFailure UnicodeDecodeError) listening).
Proof.
  intros env.
  split; [vm_compute; reflexivity|]. split; [vm_compute; reflexivity|].
  split; vm_compute; reflexivity.
Qed.

(** ** Transparency of the wrapper *)

(** C8, as stated, fails for a reserved key that the target takes through a
    catch-all keyword parameter: [event] is not a name of the signature, the
    filter drops it, and the wrapped call returns something else than the
    direct call although neither faults. *)
Lemma catch_all_counterexample :
  let env := demo_env (fun _ => zero_division_error) (FileLines demo_lines) in
  let kwargs : gmap string pyobj := <["event" := PyStr "login"]> ∅ in
  wrapper env no_kwargs show_event None [] kwargs listening = (Value PyNone, listening)
  /\ unwrapped show_event [] kwargs listening = (Value (PyStr "login"), listening)
  /\ wrapper env no_kwargs show_event None [] kwargs listening
     <> unwrapped show_event [] kwargs listening.
Proof.
  intros env kwargs.
  split; [vm_compute; reflexivity|]. split; [vm_compute; reflexivity|].
  vm_compute. discriminate.
Qed.

(** The wrapper hands the target the filtered keywords and returns what it
    returns. *)
Lemma wrapper_returns env dk fn caller args kwargs w v w' :
  fn_call fn args (_filter_arguments (fn_signature fn) kwargs) w = (Returned v, w') ->
  wrapper env dk fn caller args kwargs w = (Value v, w').
Proof. intros H. unfold wrapper. by rewrite H. Qed.

(** The filter keeps a key that is a parameter name or is not reserved. *)
Lemma filter_arguments_lookup signature kwargs k :
  _filter_arguments signature kwargs !! k
  = match signature with
    | Some parameters =>
        if decide (k ∈ parameters \/ k ∉ context_keys) then kwargs !! k else None
    | None =>
        if decide (k ∉ context_keys) then kwargs !! k else None
    end.
Proof.
  unfold _filter_arguments. destruct signature as [parameters|];
    rewrite map_lookup_filter; destruct (kwargs !! k) as [v|]; simpl;
    case_decide; try done; by case_guard.
Qed.

(** C8, amended: a non-faulting call through the wrapper returns exactly what
    the target returns for the same positional and keyword arguments,
    provided every reserved context key among the keywords is the name of a
    parameter in the target's signature; such keys are then passed on.  (A
    reserved key the target could only take through a catch-all parameter, or
    any reserved key when the signature cannot be read, is removed before the
    call.) *)
Theorem wrapper_transparent env dk fn caller args kwargs w v w' :
  (forall k, k ∈ context_keys -> is_Some (kwargs !! k) ->
     exists parameters, fn_signature fn = Some parameters /\ k ∈ parameters) ->
  fn_call fn args kwargs w = (Returned v, w') ->
  _filter_arguments (fn_signature fn) kwargs = kwargs
  /\ wrapper env dk fn caller args kwargs w = (Value v, w')
  /\ wrapper env dk fn caller args kwargs w = unwrapped fn args kwargs w.
Proof.
  intros Hkeys Hcall.
  assert (Hid : _filter_arguments (fn_signature fn) kwargs = kwargs).
  { apply map_eq. intros k. rewrite filter_arguments_lookup.
    destruct (kwargs !! k) as [x|] eqn:Hk; [|by repeat case_match].
    destruct (decide (k ∈ context_keys)) as [Hin|Hout].
    - destruct (Hkeys k Hin) as (parameters & -> & Hp); [by rewrite Hk|].
      rewrite decide_True; [done | by left].
    - destruct (fn_signature fn); rewrite decide_True; auto. }
  split; [exact Hid|]. unfold unwrapped. rewrite Hcall.
  split; [|]; apply wrapper_returns; by rewrite Hid.
Qed.

Lemma wrapper_transparent_witness :
  let env := demo_env (fun _ => zero_division_error) (FileLines demo_lines) in
  let kwargs : gmap string pyobj := <["event" := PyStr "login"]> ∅ in
  (forall k, k ∈ context_keys -> is_Some (kwargs !! k) ->
     exists parameters, fn_signature greet = Some parameters /\ k ∈ parameters)
  /\ fn_call greet [] kwargs listening = (Returned (PyStr "login"), listening)
  /\ _filter_arguments (fn_signature greet) kwargs = kwargs
  /\ wrapper env no_kwargs greet None [] kwargs listening
     = (Value (PyStr "login"), listening)
  /\ wrapper env no_kwargs greet None [] kwargs listening
     = unwrapped greet [] kwargs listening.
Proof.
  intros env kwargs.
  assert (Hkeys : forall k, k ∈ context_keys -> is_Some (kwargs !! k) ->
            exists parameters, fn_signature greet = Some parameters /\ k ∈ parameters).
  { intros k _ Hk. exists ["event"]. split; [reflexivity|].
    destruct (decide (k = "event")) as [->|Hne]; [apply elem_of_cons; by left|].
    subst kwargs. rewrite lookup_insert_ne, lookup_empty in Hk by done.
    by destruct Hk. }
  assert (Hcall : fn_call greet [] kwargs listening
                  = (Returned (PyStr "login"), listening)) by (vm_compute; reflexivity).
  split; [exact Hkeys|]. split; [exact Hcall|].
  exact (wrapper_transparent env no_kwargs greet None [] kwargs listening
           (PyStr "login") listening Hkeys Hcall).
Defined.

(** ** Dispatch to the handler *)

Lemma print_deliveries line w : deliveries (print line w).2 = deliveries w.
Proof. unfold print. by destruct (stdout_ok w). Qed.

Lemma print_error_deliveries env line f w :
  deliveries (print_error env line f w).2 = deliveries w.
Proof.
  unfold print_error. destruct (str_failure env f); [done | apply print_deliveries].
Qed.

Lemma print_error_completes env line f w :
  stdout_ok w = true -> printable_Exception env f = true ->
  (print_error env line f w).1 = None.
Proof.
  unfold printable_Exception, print_error, print. intros ->.
  by destruct (str_failure env f).
Qed.

(** What a blocking handler leaves behind: the call is on record, and the
    registration is what the handler made it. *)
Lemma registered_deliveries (h : handler) error_info w :
  deliveries (match h_registers h error_info with
              | Some registered => set_error_handler registered (deliver (Called error_info) w)
              | None => deliver (Called error_info) w
              end)
  = (deliveries w ++ [Called error_info])%list.
Proof. by destruct (h_registers h error_info). Qed.

Lemma registered_stdout (h : handler) error_info w :
  stdout_ok (match h_registers h error_info with
             | Some registered => set_error_handler registered (deliver (Called error_info) w)
             | None => deliver (Called error_info) w
             end)
  = stdout_ok w.
Proof. by destruct (h_registers h error_info). Qed.

(** The dispatcher hands the report to a handler that is ready, whatever the
    handler then does, and to nobody otherwise. *)
Lemma call_error_handler_deliveries env error_info w :
  delivered_reports (_call_error_handler env error_info w).2
  = (delivered_reports w ++ (if handler_ready w then [error_info] else []))%list.
Proof.
  unfold handler_ready, _call_error_handler, delivered_reports.
  destruct (error_handler w) as [h|]; [|by rewrite app_nil_r].
  destruct (h_is_coroutine h); cbn [negb orb].
  - destruct (loop_running w); [simpl; by rewrite map_app|].
    by rewrite print_error_deliveries, app_nil_r.
  - pose proof (registered_deliveries h error_info w) as Hw.
    destruct (h_result h error_info) as [|r]; cbn [snd].
    + by rewrite Hw, map_app.
    + destruct (is_Exception env (HandlerRaised r)); cbn [snd];
        rewrite ?print_error_deliveries, Hw; by rewrite map_app.
Qed.

Lemma call_error_handler_ready env error_info w :
  handler_ready w = true ->
  delivered_reports (_call_error_handler env error_info w).2
  = (delivered_reports w ++ [error_info])%list.
Proof. intros Hready. by rewrite call_error_handler_deliveries, Hready. Qed.

(** No exception leaves the dispatcher when [sys.stdout] takes its message
    and the handler, if it raises, raises an [Exception] that prints. *)
Lemma call_error_handler_completes env error_info w :
  stdout_ok w = true ->
  (forall h r, error_handler w = Some h -> h_is_coroutine h = false ->
     h_result h error_info = HandlerRaises r ->
     printable_Exception env (HandlerRaised r) = true) ->
  (_call_error_handler env error_info w).1 = None.
Proof.
  intros Hout Hraises. unfold _call_error_handler.
  destruct (error_handler w) as [h|]; [|done].
  destruct (h_is_coroutine h) eqn:Hco.
  - destruct (loop_running w); [done|]. by apply print_error_completes.
  - destruct (h_result h error_info) as [|r] eqn:Hr; [done|].
    pose proof (Hraises h r eq_refl Hco Hr) as Hp.
    assert (Hexc : is_Exception env (HandlerRaised r) = true).
    { unfold printable_Exception in Hp. by destruct (str_failure env (HandlerRaised r)). }
    rewrite Hexc. apply print_error_completes; [|done].
    by rewrite registered_stdout.
Qed.

(** The reports a capture delivers: the assembled report with the context
    mapping merged over it, once, when the collection succeeds, a handler is
    ready and the message about a recovered [event] (if there is one) could
    be printed; none otherwise. *)
Lemma capture_deliveries env dk fn caller e tb args kwargs w :
  delivered_reports (capture env dk fn caller e tb args kwargs w).2
  = (delivered_reports w ++
     match _collect_error_info env (Some tb) e (capture_code_context dk) (error_level dk)
             (capture_locals dk) (max_stack_depth dk) with
     | Ok info =>
         if handler_ready w && (negb (event_recovered dk caller kwargs) || stdout_ok w)
         then [context_info env dk fn caller args kwargs ∪ info]
         else []
     | Raise _ => []
     end)%list.
Proof.
  assert (Htry : delivered_reports (try_capture env dk fn caller e tb args kwargs w).2
    = (delivered_reports w ++
       match _collect_error_info env (Some tb) e (capture_code_context dk) (error_level dk)
               (capture_locals dk) (max_stack_depth dk) with
       | Ok info =>
           if handler_ready w && (negb (event_recovered dk caller kwargs) || stdout_ok w)
           then [context_info env dk fn caller args kwargs ∪ info]
           else []
       | Raise _ => []
       end)%list).
  { unfold try_capture, print.
    destruct (event_recovered dk caller kwargs); cbn [negb orb].
    - destruct (stdout_ok w).
      + destruct (_collect_error_info _ _ _ _ _ _ _) as [info|f].
        * rewrite call_error_handler_deliveries.
          change (handler_ready (logged EventRecovered w)) with (handler_ready w).
          by rewrite andb_true_r.
        * cbn [snd]. by rewrite app_nil_r.
      + cbn [snd]. rewrite andb_false_r.
        destruct (_collect_error_info _ _ _ _ _ _ _); by rewrite app_nil_r.
    - destruct (_collect_error_info _ _ _ _ _ _ _) as [info|f].
      + rewrite call_error_handler_deliveries. by rewrite andb_true_r.
      + cbn [snd]. by rewrite app_nil_r. }
  rewrite <- Htry. unfold capture, delivered_reports.
  destruct (try_capture env dk fn caller e tb args kwargs w) as [[f|] w1]; [|done].
  destruct (is_Exception env f); [|done].
  cbn [snd]. by rewrite print_error_deliveries.
Qed.

(** A capture whose collection succeeds hands a ready handler the assembled
    report with the context mapping merged over it. *)
Lemma capture_delivers env dk fn caller e tb args kwargs w info :
  _collect_error_info env (Some tb) e (capture_code_context dk) (error_level dk)
    (capture_locals dk) (max_stack_depth dk) = Ok info ->
  handler_ready w = true ->
  (event_recovered dk caller kwargs = true -> stdout_ok w = true) ->
  delivered_reports (capture env dk fn caller e tb args kwargs w).2
  = (delivered_reports w ++ [context_info env dk fn caller args kwargs ∪ info])%list.
Proof.
  intros Hinfo Hready Hevent. rewrite capture_deliveries, Hinfo, Hready.
  destruct (event_recovered dk caller kwargs); [|done].
  by rewrite Hevent.
Qed.

(** A capture whose collection fails delivers nothing. *)
Lemma capture_internal_failure env dk fn caller e tb args kwargs w f :
  _collect_error_info env (Some tb) e (capture_code_context dk) (error_level dk)
    (capture_locals dk) (max_stack_depth dk) = Raise f ->
  delivered_reports (capture env dk fn caller e tb args kwargs w).2 = delivered_reports w.
Proof. intros Hinfo. by rewrite capture_deliveries, Hinfo, app_nil_r. Qed.

(** Whatever a capture delivers is the merged report of a collection that
    succeeded. *)
Lemma capture_delivered_report env dk fn caller e tb args kwargs w r :
  r ∈ delivered_reports (capture env dk fn caller e tb args kwargs w).2 ->
  r ∈ delivered_reports w
  \/ exists info,
       _collect_error_info env (Some tb) e (capture_code_context dk) (error_level dk)
         (capture_locals dk) (max_stack_depth dk) = Ok info
       /\ r = context_info env dk fn caller args kwargs ∪ info.
Proof.
  rewrite capture_deliveries. intros [Hr|Hr]%elem_of_app; [by left|right].
  destruct (_collect_error_info _ _ _ _ _ _ _) as [info|f];
    [|by apply elem_of_nil in Hr].
  destruct (handler_ready w && _); [|by apply elem_of_nil in Hr].
  apply elem_of_cons in Hr as [->|Hr]; [by exists info | by apply elem_of_nil in Hr].
Qed.

(** No exception leaves a capture when [sys.stdout] takes the engine's
    messages and every exception raised on the way, by the collection or by
    the handler, is an [Exception] that prints. *)
Lemma capture_completes env dk fn caller e tb args kwargs w :
  stdout_ok w = true ->
  (forall f,
     _collect_error_info env (Some tb) e (capture_code_context dk) (error_level dk)
       (capture_locals dk) (max_stack_depth dk) = Raise f ->
     printable_Exception env f = true) ->
  (forall h info r,
     error_handler w = Some h -> h_is_coroutine h = false ->
     _collect_error_info env (Some tb) e (capture_code_context dk) (error_level dk)
       (capture_locals dk) (max_stack_depth dk) = Ok info ->
     h_result h (context_info env dk fn caller args kwargs ∪ info) = HandlerRaises r ->
     printable_Exception env (HandlerRaised r) = true) ->
  (capture env dk fn caller e tb args kwargs w).1 = None.
Proof.
  intros Hout Hcollect Hhandler.
  assert (Htry :
    (try_capture env dk fn caller e tb args kwargs w).1 = None
    \/ exists f w1, try_capture env dk fn caller e tb args kwargs w = (Some f, w1)
                    /\ stdout_ok w1 = true /\ printable_Exception env f = true).
  { unfold try_capture, print. rewrite Hout.
    set (w1 := if event_recovered dk caller kwargs
               then logged EventRecovered w else w).
    assert (Hw1 : (if event_recovered dk caller kwargs
                   then (None, logged EventRecovered w) else (None, w))
                  = (@None failure, w1))
      by (subst w1; by destruct (event_recovered dk caller kwargs)).
    rewrite Hw1.
    assert (Hout1 : stdout_ok w1 = true)
      by (subst w1; by destruct (event_recovered dk caller kwargs)).
    assert (Hh1 : error_handler w1 = error_handler w)
      by (subst w1; by destruct (event_recovered dk caller kwargs)).
    destruct (_collect_error_info _ _ _ _ _ _ _) as [info|f] eqn:Hinfo.
    - left. apply call_error_handler_completes; [done|].
      intros h r Hh Hco Hres. rewrite Hh1 in Hh. by eapply Hhandler.
    - right. exists f, w1. split; [done|]. split; [done|]. by apply Hcollect. }
  unfold capture.
  destruct Htry as [Htry|(f & w1 & Htry & Hout1 & Hf)].
  - by destruct (try_capture env dk fn caller e tb args kwargs w) as [[f|] w1].
  - rewrite Htry.
    assert (Hexc : is_Exception env f = true).
    { unfold printable_Exception in Hf. by destruct (str_failure env f). }
    rewrite Hexc. by apply print_error_completes.
Qed.

(** A fault of class [Exception] that matches neither set is captured; the
    wrapped call returns its kind name unless an exception leaves the
    capture. *)
Lemma wrapper_captures env dk fn caller args kwargs w e tb w' :
  fn_call fn args (_filter_arguments (fn_signature fn) kwargs) w = (Raised e tb, w') ->
  isinstance (heap env e) "Exception" = true ->
  matches_any (heap env e) (ignore_errors dk) = false ->
  matches_any (heap env e) (propagate_errors dk) = false ->
  wrapper env dk fn caller args kwargs w
  = (match (capture env dk fn caller e tb args kwargs w').1 with
     | None => Value (PyStr (exc_type (heap env e)))
     | Some f => Escaped f
     end,
     (capture env dk fn caller e tb args kwargs w').2).
Proof.
  intros Hcall Hexc Hignore Hpropagate. unfold wrapper, _handle_exception.
  rewrite Hcall, Hexc, Hignore, Hpropagate.
  by destruct (capture env dk fn caller e tb args kwargs w') as [[f|] w''].
Qed.

(** ** Lookups in the context mapping *)

Lemma arg_key_head k :
  is_arg_key k -> exists rest, k = String "a" (String "r" (String "g" (String "_" rest))).
Proof. intros [i ->]. by eexists. Qed.

Lemma extract_context_info_lookup caller args kwargs k :
  k ∉ caller_keys -> ~ is_arg_key k ->
  _extract_context_info caller args kwargs !! k
  = (fun v => RStr (keyword_summary k v)) <$> kwargs !! k.
Proof.
  intros Hcaller Harg. unfold _extract_context_info.
  rewrite lookup_add_caller_other by done. rewrite lookup_extract_kwargs.
  destruct (kwargs !! k); [done|].
  rewrite lookup_extract_args_other by done. apply lookup_empty.
Qed.

(** A keyword always wins over a positional summary of the same name, and is
    only replaced by the caller record. *)
Lemma extract_context_info_keyword caller args kwargs k v :
  k ∉ caller_keys -> kwargs !! k = Some v ->
  _extract_context_info caller args kwargs !! k = Some (RStr (keyword_summary k v)).
Proof.
  intros Hcaller Hk. unfold _extract_context_info.
  rewrite lookup_add_caller_other by done. by rewrite lookup_extract_kwargs, Hk.
Qed.

Lemma context_info_lookup env dk fn caller args kwargs k :
  k ∉ decorated_keys ->
  context_info env dk fn caller args kwargs !! k
  = match custom_context dk !! k with
    | Some o => Some (stored o)
    | None =>
        _extract_context_info (Some ("_handle_exception", this_file env, 136%Z))
          args (context_kwargs dk caller kwargs) !! k
    end.
Proof.
  intros Hk. unfold context_info. rewrite lookup_add_decorated_other by done.
  destruct (custom_context dk !! k) as [o|] eqn:Hcustom.
  - apply lookup_union_Some_l. by rewrite lookup_fmap, Hcustom.
  - apply lookup_union_r. by rewrite lookup_fmap, Hcustom.
Qed.

Lemma context_info_decorated env dk fn caller args kwargs :
  let ctx := context_info env dk fn caller args kwargs in
  ctx !! "decorated_function_name" = Some (RStr (fn_name fn))
  /\ ctx !! "decorated_function_module" = Some (RStr (default "unknown" (fn_module fn)))
  /\ ctx !! "decorated_function_filename"
     = Some (RStr (match fn_code fn with Some (f, _) => f | None => "unknown" end))
  /\ ctx !! "decorated_function_lineno"
     = Some (RStr (match fn_code fn with Some (_, l) => pretty l | None => pretty 0%Z end)).
Proof.
  unfold context_info, add_decorated_function, original_func_info. simpl.
  repeat split; by simplify_map_eq.
Qed.

(** Sensitive names and report fields are none of the keys written by the
    caller record, the positional loop or the decorated-function record. *)
Lemma sensitive_key_free k :
  is_sensitive_key k = true ->
  (k ∉ caller_keys) /\ (k ∉ decorated_keys) /\ ~ is_arg_key k.
Proof.
  intros Hk. split; [|split].
  - intros Hin. unfold caller_keys in Hin.
    repeat (apply elem_of_cons in Hin as [->|Hin]); try done.
    by apply elem_of_nil in Hin.
  - intros Hin. unfold decorated_keys in Hin.
    repeat (apply elem_of_cons in Hin as [->|Hin]); try done.
    by apply elem_of_nil in Hin.
  - intros (rest & ->)%arg_key_head. done.
Qed.

Lemma report_field_free k :
  k ∈ report_fields ->
  (k ∉ caller_keys) /\ (k ∉ decorated_keys) /\ ~ is_arg_key k
  /\ is_sensitive_key k = false.
Proof.
  intros Hin. unfold report_fields in Hin.
  repeat (apply elem_of_cons in Hin as [->|Hin]);
    try (by apply elem_of_nil in Hin);
    (split; [by apply (bool_decide_unpack _)|];
     split; [by apply (bool_decide_unpack _)|];
     split; [by intros (rest & ?)%arg_key_head|done]).
Qed.

(** ** Classification of a thrown fault *)

(** Matching is by kind or ancestor kind. *)
Lemma matches_any_spec e classes :
  matches_any e classes = true
  <-> exists cls, cls ∈ classes /\ (cls = exc_type e \/ cls ∈ exc_bases e).
Proof.
  induction classes as [|c rest IH]; simpl.
  - split; [done|]. intros (cls & Hin & _). by apply elem_of_nil in Hin.
  - unfold isinstance at 1.
    destruct (bool_decide (c = exc_type e) || bool_decide (c ∈ exc_bases e)) eqn:Hc.
    + split; [|done]. intros _. exists c. split; [apply elem_of_cons; by left|].
      apply orb_true_iff in Hc as [Hc|Hc]; apply bool_decide_eq_true in Hc; auto.
    + rewrite IH. apply orb_false_iff in Hc as [Hc1 Hc2].
      apply bool_decide_eq_false in Hc1, Hc2.
      split.
      * intros (cls & Hin & Hcls). exists cls. split; [|done].
        apply elem_of_cons. by right.
      * intros (cls & Hin & Hcls). exists cls. split; [|done].
        apply elem_of_cons in Hin as [->|Hin]; [|done].
        destruct Hcls; done.
Qed.

(** C2, as stated, fails for a fault that is no [Exception]: the wrapper's
    [except Exception] does not catch it, so it is never classified.  A
    [KeyboardInterrupt] that matches neither set reaches the caller as
    raised, where the claim sends it on to report assembly; and with its
    class in the ignore-set it still reaches the caller, where the claim has
    the wrapped call return its kind name. *)
Lemma base_exception_counterexample :
  let env := demo_env (fun _ => keyboard_interrupt) (FileLines demo_lines) in
  let ignoring := with_ignore ["KeyboardInterrupt"] in
  fn_call (failing []) [] (_filter_arguments (fn_signature (failing [])) ∅) listening
    = (Raised 0 demo_traceback, listening)
  /\ matches_any (heap env 0) (ignore_errors no_kwargs) = false
  /\ matches_any (heap env 0) (propagate_errors no_kwargs) = false
  /\ wrapper env no_kwargs (failing []) (Some module_frame) [] ∅ listening
     = (Propagated 0, listening)
  /\ delivered_reports listening = []
  /\ matches_any (heap env 0) (ignore_errors ignoring) = true
  /\ wrapper env ignoring (failing []) (Some module_frame) [] ∅ listening
     = (Propagated 0, listening).
Proof.
  intros env ignoring.
  split; [reflexivity|]. split; [reflexivity|]. split; [reflexivity|].
  split; [vm_compute; reflexivity|]. split; [reflexivity|].
  split; vm_compute; reflexivity.
Qed.

(** C2, amended: a fault that is no [Exception] passes through the wrapper
    unclassified.  For a fault that is an [Exception] the ignore-set is
    consulted first and the propagate-set second, both by kind or ancestor
    kind.  An ignored fault yields its kind name and leaves the world as the
    target left it (no report, no handler call, also when the propagate-set
    matches too); a propagated one is re-raised as the same exception object,
    the world again untouched; any other fault goes on to report assembly:
    the collection is run, and when it succeeds (and the message about a
    recovered [event], if any, could be printed) a ready handler is handed
    the assembled report with the context mapping merged over it, once. *)
Theorem classification_precedence env dk fn caller args kwargs w e tb w' :
  fn_call fn args (_filter_arguments (fn_signature fn) kwargs) w = (Raised e tb, w') ->
  let kind_in (classes : list string) :=
    exists cls, cls ∈ classes
                /\ (cls = exc_type (heap env e) \/ cls ∈ exc_bases (heap env e)) in
  let name := Value (PyStr (exc_type (heap env e))) in
  let run := wrapper env dk fn caller args kwargs w in
  let assembled :=
    _collect_error_info env (Some tb) e (capture_code_context dk) (error_level dk)
      (capture_locals dk) (max_stack_depth dk) in
  (isinstance (heap env e) "Exception" = false -> run = (Propagated e, w'))
  /\ (isinstance (heap env e) "Exception" = true ->
      (kind_in (ignore_errors dk) -> run = (name, w'))
      /\ (~ kind_in (ignore_errors dk) -> kind_in (propagate_errors dk) ->
          run = (Propagated e, w'))
      /\ (~ kind_in (ignore_errors dk) -> ~ kind_in (propagate_errors dk) ->
          (run.1 = name \/ exists f, run.1 = Escaped f)
          /\ (forall f, assembled = Raise f ->
                delivered_reports run.2 = delivered_reports w')
          /\ (forall info, assembled = Ok info ->
                (event_recovered dk caller kwargs = true -> stdout_ok w' = true) ->
                delivered_reports run.2
                = (delivered_reports w'
                   ++ if handler_ready w'
                      then [context_info env dk fn caller args kwargs ∪ info]
                      else [])%list))).
Proof.
  intros Hcall kind_in name run assembled. subst kind_in name run assembled. cbv beta.
  rewrite <- !matches_any_spec.
  split.
  - intros Hexc. unfold wrapper. by rewrite Hcall, Hexc.
  - intros Hexc.
    destruct (matches_any (heap env e) (ignore_errors dk)) eqn:Hignore.
    { split; [|split]; [|done|done].
      intros _. unfold wrapper, _handle_exception. by rewrite Hcall, Hexc, Hignore. }
    destruct (matches_any (heap env e) (propagate_errors dk)) eqn:Hpropagate.
    { split; [done|]. split; [|intros _ Hno; by destruct Hno].
      intros _ _. unfold wrapper, _handle_exception.
      by rewrite Hcall, Hexc, Hignore, Hpropagate. }
    split; [done|]. split; [done|]. intros _ _.
    rewrite (wrapper_captures env dk fn caller args kwargs w e tb w') by done.
    cbn [fst snd]. split; [|split].
    + destruct (capture env dk fn caller e tb args kwargs w').1 as [f|]; eauto.
    + intros f Hf. by eapply capture_internal_failure.
    + intros info Hinfo Hevent. rewrite capture_deliveries, Hinfo.
      destruct (event_recovered dk caller kwargs).
      * rewrite Hevent by done. by rewrite orb_true_r, andb_true_r.
      * by rewrite andb_true_r.
Qed.

Lemma classification_precedence_witness :
  let env := demo_env (fun _ => zero_division_error) (FileLines demo_lines) in
  let dk := with_ignore ["ArithmeticError"] in
  let kind_in (classes : list string) :=
    exists cls, cls ∈ classes
                /\ (cls = exc_type (heap env 0) \/ cls ∈ exc_bases (heap env 0)) in
  fn_call (failing []) [] (_filter_arguments (fn_signature (failing [])) ∅) listening
    = (Raised 0 demo_traceback, listening)
  /\ isinstance (heap env 0) "Exception" = true
  /\ kind_in (ignore_errors dk)
  /\ wrapper env dk (failing []) None [] ∅ listening
     = (Value (PyStr "ZeroDivisionError"), listening).
Proof.
  intros env dk kind_in.
  assert (Hcall : fn_call (failing []) []
                    (_filter_arguments (fn_signature (failing [])) ∅) listening
                  = (Raised 0 demo_traceback, listening)) by reflexivity.
  assert (Hexc : isinstance (heap env 0) "Exception" = true) by (vm_compute; reflexivity).
  assert (Hkind : kind_in (ignore_errors dk)).
  { exists "ArithmeticError". split; [apply elem_of_cons; by left|].
    right. simpl. apply elem_of_cons. by left. }
  split; [exact Hcall|]. split; [exact Hexc|]. split; [exact Hkind|].
  exact (proj1 (proj2 (classification_precedence env dk (failing []) None [] ∅
                         listening 0 demo_traceback listening Hcall) Hexc) Hkind).
Defined.

(** ** Manual reporting without an active exception *)

Lemma heap_allocate env ref e : heap (allocate env ref e) ref = e.
Proof. unfold allocate. simpl. by rewrite Nat.eqb_refl. Qed.

Lemma chain_next_instantiate cls reason : chain_next (instantiate cls reason) = None.
Proof. reflexivity. Qed.

Lemma report_context_field rk field :
  field ∈ report_fields ->
  remaining_kwargs rk !! field = None ->
  forall caller, _extract_context_info caller [] (remaining_kwargs rk) !! field = None.
Proof.
  intros Hfield Hnone caller. unfold _extract_context_info.
  rewrite lookup_add_caller_other.
  - rewrite lookup_extract_kwargs, Hnone. simpl. apply lookup_empty.
  - clear Hnone. unfold report_fields in Hfield.
    repeat (apply elem_of_cons in Hfield as [->|Hfield]);
      try (by apply elem_of_nil in Hfield);
      by apply (bool_decide_unpack _).
Qed.

(** What [report_error] hands to the dispatcher. *)
Lemma report_error_dispatch env active_tb ref cls reason capture_cc rk w info :
  report_error_info env active_tb ref cls reason capture_cc rk = Ok info ->
  report_error env active_tb ref cls reason capture_cc rk w
  = _call_error_handler (allocate env ref (instantiate cls reason))
      (_extract_context_info (Some ("report_error", this_file env, 306%Z))
         [] (remaining_kwargs rk) ∪ info) w.
Proof. intros Hinfo. unfold report_error. by rewrite Hinfo. Qed.

(** C10, as stated, fails for the report that is handed to the handler when
    a keyword argument carries the name of one of the fields:
    [report_error(ValueError, 'bad input', location='here')], called while no
    exception is being handled, delivers a report whose [location] is the
    string ['here'], not [None]. *)
Lemma location_keyword_counterexample :
  let env := demo_env (fun _ => zero_division_error) (FileLines demo_lines) in
  let rk := {| rk_error_level := None; rk_capture_locals := None;
               rk_max_stack_depth := None;
               rk_other := <["location" := PyStr "here"]> ∅ |} in
  exists delivered,
    report_error env None 7 value_error_class "bad input" true rk listening
    = (None, deliver (Called delivered) listening)
    /\ delivered !! "location" = Some (RStr "here")
    /\ delivered !! "location" <> Some (RLocation None).
Proof.
  intros env rk. eexists. split; [vm_compute; reflexivity|].
  split; [vm_compute; reflexivity|]. vm_compute. discriminate.
Qed.

(** C10, amended: when [report_error] runs while no exception is being
    handled (and [str] of the synthesized fault returns), the report it
    assembles has [location] and [code_context] equal to [None], an empty
    [stack_trace], and an exception chain of exactly one link, which
    describes the synthesized fault: index 0, [is_original] set, no
    [relation].  What a ready handler is handed, once, is this report with
    the context mapping merged over it: each of the fields is there as
    assembled unless a keyword argument of that very name was passed, whose
    string summary then stands in its place. *)
Theorem report_error_without_active_exception
    env ref cls reason capture_cc rk message :
  cls_str cls reason = Some message ->
  exists info er link,
    report_error_info env None ref cls reason capture_cc rk = Ok info
    /\ info !! "location" = Some (RLocation None)
    /\ info !! "code_context" = Some (RCodeContext None)
    /\ info !! "stack_trace" = Some (RStackTrace [])
    /\ info !! "error" = Some (RError er)
    /\ er_type er = cls_name cls
    /\ er_message er = message
    /\ er_exception_chain er = [link]
    /\ cl_type link = cls_name cls
    /\ cl_message link = message
    /\ cl_index link = 0%Z
    /\ cl_is_original link = Some true
    /\ cl_relation link = None
    /\ let delivered :=
         _extract_context_info (Some ("report_error", this_file env, 306%Z))
           [] (remaining_kwargs rk) ∪ info in
       (forall w,
          delivered_reports (report_error env None ref cls reason capture_cc rk w).2
          = (delivered_reports w ++ if handler_ready w then [delivered] else [])%list)
       /\ (forall field, field ∈ report_fields ->
             remaining_kwargs rk !! field = None ->
             delivered !! field = info !! field)
       /\ (forall field value, field ∈ report_fields ->
             remaining_kwargs rk !! field = Some value ->
             delivered !! field = Some (RStr (summarize 100 value))).
Proof.
  intros Hstr.
  assert (Hchain : collect_exception_chain
                     (allocate env ref (instantiate cls reason)) ref
                   = Ok [ {| cl_type := cls_name cls; cl_message := message;
                             cl_index := 0; cl_is_original := Some true;
                             cl_traceback := None; cl_relation := None |} ]).
  { unfold collect_exception_chain. cbn [walk_chain].
    rewrite heap_allocate, chain_next_instantiate.
    unfold str_exc. cbn [exc_str instantiate]. rewrite Hstr. reflexivity. }
  assert (Hinfo : exists info,
    report_error_info env None ref cls reason capture_cc rk = Ok info).
  { unfold report_error_info.
    eapply collect_error_info_total; [|exact Hchain].
    unfold collect_code_context. simpl. by destruct capture_cc. }
  destruct Hinfo as [info Hinfo].
  pose proof Hinfo as Hshape. unfold report_error_info in Hshape.
  apply collect_error_info_Ok in Hshape
    as (lines & chain & msg & location & code_context & highlighted
        & _ & Hchain' & Hmsg & Hloc & Hcc & Hshape).
  rewrite Hchain in Hchain'. injection Hchain' as <-.
  rewrite heap_allocate in Hmsg. cbn [exc_str instantiate] in Hmsg.
  rewrite Hstr in Hmsg. injection Hmsg as <-.
  simpl in Hloc. subst location. rewrite (Hcc eq_refl) in Hshape.
  rewrite heap_allocate in Hshape. cbn [exc_type instantiate] in Hshape.
  eexists info, _, _.
  split; [exact Hinfo|].
  split; [subst info; apply build_error_info_location|].
  split; [subst info; apply build_error_info_code_context|].
  split; [subst info; rewrite build_error_info_stack_trace;
          by rewrite collect_stack_trace_nil|].
  split; [subst info; apply build_error_info_error|].
  do 8 (split; [reflexivity|]).
  cbv zeta. split; [|split].
  - intros w. rewrite (report_error_dispatch _ _ _ _ _ _ _ _ _ Hinfo).
    apply call_error_handler_deliveries.
  - intros field Hfield Hnone. apply lookup_union_r.
    by apply report_context_field.
  - intros field value Hfield Hvalue.
    destruct (report_field_free field Hfield) as (Hc & _ & _ & Hs).
    apply lookup_union_Some_l.
    rewrite (extract_context_info_keyword _ _ _ _ value) by done.
    unfold keyword_summary. by rewrite Hs.
Qed.

Lemma report_error_without_active_exception_witness :
  let env := demo_env (fun _ => zero_division_error) (FileLines demo_lines) in
  cls_str value_error_class "bad input" = Some "bad input"
  /\ exists info er link,
    report_error_info env None 7 value_error_class "bad input" true no_report_kwargs
    = Ok info
    /\ info !! "location" = Some (RLocation None)
    /\ info !! "code_context" = Some (RCodeContext None)
    /\ info !! "stack_trace" = Some (RStackTrace [])
    /\ info !! "error" = Some (RError er)
    /\ er_type er = cls_name value_error_class
    /\ er_message er = "bad input"
    /\ er_exception_chain er = [link]
    /\ cl_type link = cls_name value_error_class
    /\ cl_message link = "bad input"
    /\ cl_index link = 0%Z
    /\ cl_is_original link = Some true
    /\ cl_relation link = None
    /\ let delivered :=
         _extract_context_info (Some ("report_error", this_file env, 306%Z))
           [] (remaining_kwargs no_report_kwargs) ∪ info in
       (forall w,
          delivered_reports
            (report_error env None 7 value_error_class "bad input" true
               no_report_kwargs w).2
          = (delivered_reports w ++ if handler_ready w then [delivered] else [])%list)
       /\ (forall field, field ∈ report_fields ->
             remaining_kwargs no_report_kwargs !! field = None ->
             delivered !! field = info !! field)
       /\ (forall field value, field ∈ report_fields ->
             remaining_kwargs no_report_kwargs !! field = Some value ->
             delivered !! field = Some (RStr (summarize 100 value))).
Proof.
  intros env.
  split; [reflexivity|].
  apply (report_error_without_active_exception env
           7 value_error_class "bad input" true no_report_kwargs "bad input").
  reflexivity.
Defined.

(** ** Redaction *)

Lemma sensitive_key_is_sensitive_local k :
  is_sensitive_key k = true -> is_sensitive_local k = true.
Proof.
  unfold is_sensitive_key, is_sensitive_local.
  intros [H|H]%orb_true_iff; apply orb_true_iff; [by left|right].
  apply bool_decide_eq_true in H. apply bool_decide_eq_true.
  unfold sensitive_keys in H. unfold sensitive_locals.
  repeat (apply elem_of_cons in H as [->|H]);
    try (by apply elem_of_nil in H); by apply (bool_decide_unpack _).
Qed.

(** The extractor redacts every keyword whose name is sensitive. *)
Lemma extract_context_info_redacts caller args kwargs k v :
  kwargs !! k = Some v ->
  is_sensitive_key k = true ->
  _extract_context_info caller args kwargs !! k = Some (RStr filtered).
Proof.
  intros Hk Hs. destruct (sensitive_key_free k Hs) as (Hc & _ & _).
  rewrite (extract_context_info_keyword _ _ _ _ v) by done.
  unfold keyword_summary. by rewrite Hs.
Qed.

(** The locals capture redacts every variable whose name is sensitive. *)
Lemma frame_info_redacts env frame name value :
  f_locals frame !! name = Some value ->
  is_sensitive_local name = true ->
  exists local_vars,
    fr_local_variables (frame_info env true true frame) = Some local_vars
    /\ local_vars !! name = Some filtered.
Proof.
  intros Hname Hs.
  assert (Hl : capture_local_vars (f_locals frame) !! name = Some filtered).
  { rewrite lookup_capture_local_vars, Hname. simpl.
    unfold local_summary. by rewrite Hs. }
  exists (capture_local_vars (f_locals frame)). split; [|done].
  simpl. case_bool_decide as Hempty; [|done].
  rewrite Hempty in Hl. by rewrite lookup_empty in Hl.
Qed.

(** No record of a frame shows a local variable with a sensitive name as
    anything but the placeholder. *)
Lemma frame_info_never_reveals env capture_cc capture_loc frame local_vars name value :
  fr_local_variables (frame_info env capture_cc capture_loc frame) = Some local_vars ->
  local_vars !! name = Some value ->
  is_sensitive_local name = true ->
  value = filtered.
Proof.
  cbn [fr_local_variables frame_info]. intros Hvars Hname Hs.
  destruct (capture_cc && capture_loc); [|done].
  case_bool_decide; [done|]. injection Hvars as <-.
  rewrite lookup_capture_local_vars in Hname.
  destruct (f_locals frame !! name) as [v|]; [|done].
  simpl in Hname. injection Hname as <-.
  unfold local_summary. by rewrite Hs.
Qed.

(** The same for every record the stack loop emits, wherever it starts. *)
Lemma walk_stack_redacts env capture_cc capture_loc budget :
  forall cursor record local_vars name value,
    record ∈ walk_stack env capture_cc capture_loc budget cursor ->
    fr_local_variables record = Some local_vars ->
    local_vars !! name = Some value ->
    is_sensitive_local name = true ->
    value = filtered.
Proof.
  induction budget as [|b IH]; intros [c|] record local_vars name value; simpl;
    try (intros Hin; by apply elem_of_nil in Hin).
  destruct (frame_attributes c) as [fr|]; [|intros Hin; by apply elem_of_nil in Hin].
  intros [->|Hin]%elem_of_cons.
  - apply frame_info_never_reveals.
  - by eapply IH.
Qed.

(** A report assembled by the collection, with a context mapping merged over
    it that has no stack trace of its own, redacts the locals of its frame
    records. *)
Lemma assembled_locals_redacted env exc_tb e capture_cc level capture_loc depth
    info (ctx : report) :
  _collect_error_info env exc_tb e capture_cc level capture_loc depth = Ok info ->
  (forall frames, ctx !! "stack_trace" <> Some (RStackTrace frames)) ->
  locals_redacted (ctx ∪ info).
Proof.
  intros Hinfo Hctx frames record local_vars name value Hframes.
  apply collect_error_info_Ok in Hinfo
    as (? & ? & ? & ? & ? & ? & _ & _ & _ & _ & _ & ->).
  destruct (ctx !! "stack_trace") as [entry|] eqn:Hx.
  - rewrite (lookup_union_Some_l _ _ _ _ Hx) in Hframes.
    injection Hframes as ->. by destruct (Hctx frames).
  - rewrite lookup_union_r, build_error_info_stack_trace in Hframes by done.
    injection Hframes as <-. unfold collect_stack_trace.
    apply walk_stack_redacts.
Qed.

Lemma stored_no_stack_trace o frames : stored o <> RStackTrace frames.
Proof. by destruct o. Qed.

Lemma context_info_no_stack_trace env dk fn caller args kwargs frames :
  context_info env dk fn caller args kwargs !! "stack_trace" <> Some (RStackTrace frames).
Proof.
  assert (Hfield : "stack_trace" ∈ report_fields)
    by (by apply (bool_decide_unpack _)).
  destruct (report_field_free _ Hfield) as (Hc & Hd & Ha & _).
  rewrite context_info_lookup by done.
  destruct (custom_context dk !! "stack_trace") as [o|].
  - intros [= H]. by apply stored_no_stack_trace in H.
  - rewrite extract_context_info_lookup by done.
    by destruct (context_kwargs dk caller kwargs !! "stack_trace").
Qed.

Lemma extract_context_info_no_stack_trace caller args kwargs frames :
  _extract_context_info caller args kwargs !! "stack_trace" <> Some (RStackTrace frames).
Proof.
  assert (Hfield : "stack_trace" ∈ report_fields)
    by (by apply (bool_decide_unpack _)).
  destruct (report_field_free _ Hfield) as (Hc & Hd & Ha & _).
  rewrite extract_context_info_lookup by done.
  by destruct (kwargs !! "stack_trace").
Qed.

(** Whatever a wrapped call delivers beyond what its target did is the
    merged report of a collection that succeeded. *)
Lemma wrapper_delivered_report env dk fn caller args kwargs w r :
  r ∈ delivered_reports (wrapper env dk fn caller args kwargs w).2 ->
  r ∈ delivered_reports (fn_call fn args (_filter_arguments (fn_signature fn) kwargs) w).2
  \/ exists e tb info,
       _collect_error_info env (Some tb) e (capture_code_context dk) (error_level dk)
         (capture_locals dk) (max_stack_depth dk) = Ok info
       /\ r = context_info env dk fn caller args kwargs ∪ info.
Proof.
  unfold wrapper, _handle_exception.
  destruct (fn_call fn args (_filter_arguments (fn_signature fn) kwargs) w)
    as [[v|e tb] w']; [by left|].
  destruct (isinstance (heap env e) "Exception"); [|by left].
  destruct (matches_any (heap env e) (ignore_errors dk)); [by left|].
  destruct (matches_any (heap env e) (propagate_errors dk)); [by left|].
  intros Hin.
  assert (Hcapture : r ∈ delivered_reports (capture env dk fn caller e tb args kwargs w').2)
    by (by destruct (capture env dk fn caller e tb args kwargs w') as [[f|] w'']).
  apply capture_delivered_report in Hcapture as [Hold|(info & Hinfo & ->)]; [by left|].
  right. by exists e, tb, info.
Qed.

(** C4, as stated, fails when the decorator's [custom_context] has an entry
    under the same sensitive name: it is merged over the extracted context as
    it is, so the report shows the value and not the placeholder. *)
Lemma custom_context_counterexample :
  let env := demo_env (fun _ => zero_division_error) (FileLines demo_lines) in
  let dk := with_custom_context (<["token" := PyStr "abc"]> ∅) in
  let kwargs : gmap string pyobj := <["token" := PyStr "abc"]> ∅ in
  exists info,
    wrapper env dk (failing ["token"]) (Some module_frame) [] kwargs listening
    = (Value (PyStr "ZeroDivisionError"), deliver (Called info) listening)
    /\ is_sensitive_key "token" = true
    /\ kwargs !! "token" = Some (PyStr "abc")
    /\ info !! "token" = Some (RStr "abc")
    /\ info !! "token" <> Some (RStr filtered).
Proof.
  intros env dk kwargs. eexists.
  split; [vm_compute; reflexivity|].
  split; [reflexivity|]. split; [reflexivity|].
  split; [vm_compute; reflexivity|].
  vm_compute. discriminate.
Qed.

(** C4, amended: every report that reaches the handler, from a wrapped call
    or from [report_error], shows the placeholder for every keyword-context
    entry whose name is sensitive ([password], [token], [secret], [key],
    [api_key], [auth_token], or a leading underscore), whatever its value and
    length; the one exception is a wrapped call whose decorator has a
    [custom_context] entry of that name, which then stands there as given.
    In the frame records of such a report, and in every record the stack
    loop can emit, a local variable with a sensitive name shows the
    placeholder, nothing else; a frame that is recorded with its locals shows
    it that way. *)
Theorem sensitive_values_redacted env :
  (forall dk fn caller args kwargs w delivered,
     delivered ∈ delivered_reports (wrapper env dk fn caller args kwargs w).2 ->
     delivered ∈ delivered_reports
                   (fn_call fn args (_filter_arguments (fn_signature fn) kwargs) w).2
     \/ (forall k v,
           context_kwargs dk caller kwargs !! k = Some v ->
           is_sensitive_key k = true ->
           custom_context dk !! k = None ->
           delivered !! k = Some (RStr filtered))
        /\ locals_redacted delivered)
  /\ (forall active_tb ref cls reason capture_cc rk w delivered,
        delivered ∈ delivered_reports
                      (report_error env active_tb ref cls reason capture_cc rk w).2 ->
        delivered ∈ delivered_reports w
        \/ (forall k v,
              remaining_kwargs rk !! k = Some v ->
              is_sensitive_key k = true ->
              delivered !! k = Some (RStr filtered))
           /\ locals_redacted delivered)
  /\ (forall k, is_sensitive_key k = true -> is_sensitive_local k = true)
  /\ (forall capture_cc capture_loc budget cursor record local_vars name value,
        record ∈ walk_stack env capture_cc capture_loc budget cursor ->
        fr_local_variables record = Some local_vars ->
        local_vars !! name = Some value ->
        is_sensitive_local name = true ->
        value = filtered)
  /\ (forall budget frame name value,
        f_locals frame !! name = Some value ->
        is_sensitive_local name = true ->
        exists record rest local_vars,
          walk_stack env true true (S budget) (Some (AtFrame frame)) = record :: rest
          /\ fr_local_variables record = Some local_vars
          /\ local_vars !! name = Some filtered).
Proof.
  split; [|split; [|split; [|split]]].
  - intros dk fn caller args kwargs w delivered Hin.
    apply wrapper_delivered_report in Hin as [Hin|(e & tb & info & Hinfo & ->)];
      [by left|right].
    split.
    + intros k v Hk Hs Hcustom.
      destruct (sensitive_key_free k Hs) as (_ & Hd & _).
      apply lookup_union_Some_l.
      rewrite context_info_lookup, Hcustom by done.
      by eapply extract_context_info_redacts.
    + eapply assembled_locals_redacted; [exact Hinfo|].
      apply context_info_no_stack_trace.
  - intros active_tb ref cls reason capture_cc rk w delivered Hin.
    destruct (report_error_info env active_tb ref cls reason capture_cc rk)
      as [info|f] eqn:Hinfo.
    + rewrite (report_error_dispatch _ _ _ _ _ _ _ _ _ Hinfo) in Hin.
      rewrite call_error_handler_deliveries in Hin.
      apply elem_of_app in Hin as [Hin|Hin]; [by left|right].
      destruct (handler_ready w); [|by apply elem_of_nil in Hin].
      apply elem_of_cons in Hin as [->|Hin]; [|by apply elem_of_nil in Hin].
      split.
      * intros k v Hk Hs. apply lookup_union_Some_l.
        by eapply extract_context_info_redacts.
      * eapply assembled_locals_redacted; [exact Hinfo|].
        apply extract_context_info_no_stack_trace.
    + left. unfold report_error in Hin. by rewrite Hinfo in Hin.
  - apply sensitive_key_is_sensitive_local.
  - intros capture_cc capture_loc budget. apply walk_stack_redacts.
  - intros budget frame name value Hname Hs.
    destruct (frame_info_redacts env frame name value Hname Hs) as (local_vars & Hv & Hl).
    eexists _, _, local_vars. split; [apply walk_stack_frame|]. by split.
Qed.

Lemma sensitive_values_redacted_witness :
  let env := demo_env (fun _ => zero_division_error) (FileLines demo_lines) in
  let kwargs : gmap string pyobj := <["password" := PyStr "hunter2"]> ∅ in
  exists delivered,
    wrapper env no_kwargs (failing []) None [] kwargs listening
    = (Value (PyStr "ZeroDivisionError"), deliver (Called delivered) listening)
    /\ context_kwargs no_kwargs None kwargs !! "password" = Some (PyStr "hunter2")
    /\ is_sensitive_key "password" = true
    /\ custom_context no_kwargs !! "password" = None
    /\ delivered !! "password" = Some (RStr filtered)
    /\ locals_redacted delivered.
Proof.
  intros env kwargs. eexists. split; [reflexivity|].
  assert (Hredacted := fun delivered =>
    proj1 (sensitive_values_redacted env) no_kwargs (failing []) None []
      kwargs listening delivered).
  split; [vm_compute; reflexivity|]. split; [reflexivity|]. split; [reflexivity|].
  edestruct Hredacted as [Hold|[Hkeys Hlocals]].
  - apply elem_of_cons. left. reflexivity.
  - by apply elem_of_nil in Hold.
  - split; [|exact Hlocals].
    apply (Hkeys "password" (PyStr "hunter2")); [vm_compute; reflexivity | reflexivity..].
Defined.

(** ** The context mapping merged over the report *)

(** C9, as stated, fails for a custom-context entry: its value goes into the
    report as it is, not as a string summary.  With
    [custom_context={"error": 42}] the report's [error] is the integer 42, not
    the string ["42"]. *)
Lemma custom_value_counterexample :
  let env := demo_env (fun _ => zero_division_error) (FileLines demo_lines) in
  let dk := with_custom_context (<["error" := PyInt 42]> ∅) in
  exists info,
    wrapper env dk (failing []) (Some module_frame) [] ∅ listening
    = (Value (PyStr "ZeroDivisionError"), deliver (Called info) listening)
    /\ info !! "error" = Some (RInt 42)
    /\ info !! "error" <> Some (RStr (summarize 100 (PyInt 42))).
Proof.
  intros env dk. eexists.
  split; [vm_compute; reflexivity|].
  split; [vm_compute; reflexivity|].
  vm_compute. discriminate.
Qed.

(** C9, amended: the context mapping is merged into the report after the
    seven structured fields are built, so an entry of the context mapping
    whose name is that of a field takes the field's place in the report given
    to the handler: the string summary of a keyword argument, or the value of
    a custom-context entry as it was given (neither turned into a string nor
    truncated).  Inside the context mapping a custom-context entry overrides a
    keyword argument of the same name, and the [decorated_function_*] keys
    override both.  The merged report is the only report the capture ever
    delivers, and it is delivered, once, to a ready handler when the message
    about a recovered [event], if there is one, could be printed. *)
Theorem context_overrides_report env dk fn caller e tb args kwargs w info :
  _collect_error_info env (Some tb) e (capture_code_context dk) (error_level dk)
    (capture_locals dk) (max_stack_depth dk) = Ok info ->
  handler_ready w = true ->
  let ctx := context_info env dk fn caller args kwargs in
  let delivered := ctx ∪ info in
  ((event_recovered dk caller kwargs = true -> stdout_ok w = true) ->
   delivered_reports (capture env dk fn caller e tb args kwargs w).2
   = (delivered_reports w ++ [delivered])%list)
  /\ (forall r, r ∈ delivered_reports (capture env dk fn caller e tb args kwargs w).2 ->
        r ∈ delivered_reports w \/ r = delivered)
  /\ (forall k x, ctx !! k = Some x -> delivered !! k = Some x)
  /\ (forall k, ctx !! k = None -> delivered !! k = info !! k)
  /\ (forall k, k ∈ report_fields ->
        ctx !! k = match custom_context dk !! k with
                   | Some o => Some (stored o)
                   | None => (fun v => RStr (summarize 100 v))
                               <$> context_kwargs dk caller kwargs !! k
                   end)
  /\ (forall k o, k ∉ decorated_keys -> custom_context dk !! k = Some o ->
        ctx !! k = Some (stored o))
  /\ (forall key value, (key, value) ∈ original_func_info fn ->
        ctx !! ("decorated_function_" ++ key) = Some (RStr value)).
Proof.
  intros Hinfo Hready ctx delivered.
  split; [intros Hevent; by apply capture_delivers|].
  split.
  { intros r [Hr|(info' & Hinfo' & ->)]%capture_delivered_report; [by left|right].
    rewrite Hinfo in Hinfo'. by injection Hinfo' as <-. }
  split; [intros k x Hk; by apply lookup_union_Some_l|].
  split; [intros k Hk; by apply lookup_union_r|].
  split; [|split].
  - intros k Hfield.
    destruct (report_field_free k Hfield) as (Hc & Hd & Ha & Hs).
    subst ctx. rewrite context_info_lookup by done.
    destruct (custom_context dk !! k); [done|].
    rewrite extract_context_info_lookup by done.
    unfold keyword_summary. by rewrite Hs.
  - intros k o Hd Hcustom. subst ctx.
    by rewrite context_info_lookup, Hcustom.
  - intros key value Hin.
    destruct (context_info_decorated env dk fn caller args kwargs)
      as (Hname & Hmodule & Hfile & Hline).
    unfold original_func_info in Hin.
    repeat (apply elem_of_cons in Hin as [[= -> ->]|Hin]); try done.
    by apply elem_of_nil in Hin.
Qed.

Lemma context_overrides_report_witness :
  let env := demo_env (fun _ => zero_division_error) (FileLines demo_lines) in
  let dk := with_custom_context (<["location" := PyStr "checkout"]> ∅) in
  let kwargs : gmap string pyobj := <["location" := PyStr "cart"]> ∅ in
  let ctx := context_info env dk (failing ["location"]) None [] kwargs in
  exists info,
    _collect_error_info env (Some demo_traceback) 0 (capture_code_context dk)
      (error_level dk) (capture_locals dk) (max_stack_depth dk) = Ok info
    /\ handler_ready listening = true
    /\ delivered_reports
         (capture env dk (failing ["location"]) None 0 demo_traceback [] kwargs
            listening).2
       = (delivered_reports listening ++ [ctx ∪ info])%list
    /\ (ctx ∪ info) !! "location" = Some (RStr "checkout").
Proof.
  intros env dk kwargs ctx. eexists.
  split; [reflexivity|]. split; [reflexivity|].
  assert (H := fun info Hinfo =>
    context_overrides_report env dk (failing ["location"]) None 0 demo_traceback
      [] kwargs listening info Hinfo eq_refl).
  edestruct H as (Hdelivered & _ & Hctx & _); [reflexivity|].
  split; [apply Hdelivered; reflexivity|].
  apply Hctx. vm_compute. reflexivity.
Defined.

(** ** A captured fault *)

(** C1, as stated, fails when the collection itself fails: for a fault whose
    [__str__] raises, the unguarded [str(current_error)] of the chain loop
    takes the collection down, the failure is printed, the sentinel is
    returned, and the registered handler is never called. *)
Lemma unprintable_fault_counterexample :
  let env := demo_env unprintable_heap (FileLines demo_lines) in
  isinstance (heap env 0) "Exception" = true
  /\ matches_any (heap env 0) (ignore_errors no_kwargs) = false
  /\ matches_any (heap env 0) (propagate_errors no_kwargs) = false
  /\ handler_ready listening = true
  /\ wrapper env no_kwargs (failing []) (Some module_frame) [] ∅ listening
     = (Value (PyStr "Unprintable"), logged (InternalFailure (StrRaised 1)) listening)
  /\ delivered_reports (logged (InternalFailure (StrRaised 1)) listening) = [].
Proof.
  intros env. repeat (split; [vm_compute; reflexivity|]). reflexivity.
Qed.

(** The same, as stated, fails for a keyword argument named [error]: the
    handler is called once, but the [error] entry of its report is the
    summary of that argument, not the error record. *)
Lemma error_keyword_replaces_record :
  let env := demo_env (fun _ => zero_division_error) (FileLines demo_lines) in
  let kwargs : gmap string pyobj := <["error" := PyStr "oops"]> ∅ in
  exists info,
    wrapper env no_kwargs (failing ["error"]) (Some module_frame) [] kwargs listening
    = (Value (PyStr "ZeroDivisionError"), deliver (Called info) listening)
    /\ info !! "error" = Some (RStr "oops").
Proof.
  intros env kwargs. eexists. split; vm_compute; reflexivity.
Qed.

(** C1, amended: a wrapped call whose target raises an [Exception] matching
    neither set returns the fault-kind name, also when the collection fails
    internally, provided that [sys.stdout] takes the engine's messages and
    that every exception raised during the capture, by the collection or by
    a blocking handler, is an [Exception] whose [str] returns; whatever
    leaves the wrapped call otherwise is an exception of the capture, never
    the fault.  When the collection fails nothing is delivered.  When it
    succeeds, a handler is registered and ready, and the message about a
    recovered [event] (if there is one) could be printed, the handler is
    handed exactly one report, the assembled one with the context mapping
    merged over it; its [error] entry is the error record with [type] equal
    to the fault-kind name unless a keyword or custom-context entry named
    [error] has replaced it. *)
Theorem captured_fault_sentinel env dk fn caller args kwargs w e tb w' :
  fn_call fn args (_filter_arguments (fn_signature fn) kwargs) w = (Raised e tb, w') ->
  isinstance (heap env e) "Exception" = true ->
  matches_any (heap env e) (ignore_errors dk) = false ->
  matches_any (heap env e) (propagate_errors dk) = false ->
  let name := Value (PyStr (exc_type (heap env e))) in
  let assembled :=
    _collect_error_info env (Some tb) e (capture_code_context dk) (error_level dk)
      (capture_locals dk) (max_stack_depth dk) in
  let merged (info : report) := context_info env dk fn caller args kwargs ∪ info in
  exists outcome w'',
    wrapper env dk fn caller args kwargs w = (outcome, w'')
    /\ (outcome = name \/ exists f, outcome = Escaped f)
    /\ (stdout_ok w' = true ->
        (forall f, assembled = Raise f -> printable_Exception env f = true) ->
        (forall h info r,
           error_handler w' = Some h -> h_is_coroutine h = false ->
           assembled = Ok info ->
           h_result h (merged info) = HandlerRaises r ->
           printable_Exception env (HandlerRaised r) = true) ->
        outcome = name)
    /\ (forall f, assembled = Raise f -> delivered_reports w'' = delivered_reports w')
    /\ (forall info,
          assembled = Ok info ->
          handler_ready w' = true ->
          (event_recovered dk caller kwargs = true -> stdout_ok w' = true) ->
          delivered_reports w'' = (delivered_reports w' ++ [merged info])%list
          /\ (context_kwargs dk caller kwargs !! "error" = None ->
              custom_context dk !! "error" = None ->
              exists er,
                merged info !! "error" = Some (RError er)
                /\ er_type er = exc_type (heap env e))).
Proof.
  intros Hcall Hexc Hignore Hpropagate name assembled merged.
  eexists _, _. split; [by apply wrapper_captures|].
  split; [|split; [|split]].
  - destruct (capture env dk fn caller e tb args kwargs w').1 as [f|]; eauto.
  - intros Hout Hcollect Hhandler.
    by rewrite (capture_completes env dk fn caller e tb args kwargs w' Hout Hcollect Hhandler).
  - intros f Hf. by eapply capture_internal_failure.
  - intros info Hinfo Hready Hevent.
    split; [by apply capture_delivers|].
    intros Hkw Hcustom.
    assert (Hfield : "error" ∈ report_fields) by (apply elem_of_cons; by left).
    destruct (report_field_free "error" Hfield) as (Hc & Hd & Ha & _).
    subst merged. cbv beta. rewrite lookup_union_r.
    + apply collect_error_info_Ok in Hinfo
        as (? & ? & ? & ? & ? & ? & _ & _ & _ & _ & _ & ->).
      eexists. split; [apply build_error_info_error|reflexivity].
    + rewrite context_info_lookup, Hcustom by done.
      rewrite extract_context_info_lookup by done. by rewrite Hkw.
Qed.

Lemma captured_fault_sentinel_witness :
  let env := demo_env (fun _ => zero_division_error) (FileLines demo_lines) in
  let assembled :=
    _collect_error_info env (Some demo_traceback) 0
      (capture_code_context no_kwargs) (error_level no_kwargs)
      (capture_locals no_kwargs) (max_stack_depth no_kwargs) in
  let merged (info : report) :=
    context_info env no_kwargs (failing []) None [PyInt 10; PyInt 0] ∅ ∪ info in
  fn_call (failing []) [PyInt 10; PyInt 0]
    (_filter_arguments (fn_signature (failing [])) ∅) listening
    = (Raised 0 demo_traceback, listening)
  /\ isinstance (heap env 0) "Exception" = true
  /\ matches_any (heap env 0) (ignore_errors no_kwargs) = false
  /\ matches_any (heap env 0) (propagate_errors no_kwargs) = false
  /\ exists outcome w'',
      wrapper env no_kwargs (failing []) None [PyInt 10; PyInt 0] ∅ listening
      = (outcome, w'')
      /\ (outcome = Value (PyStr (exc_type (heap env 0))) \/ exists f, outcome = Escaped f)
      /\ (stdout_ok listening = true ->
          (forall f, assembled = Raise f -> printable_Exception env f = true) ->
          (forall h info r,
             error_handler listening = Some h -> h_is_coroutine h = false ->
             assembled = Ok info ->
             h_result h (merged info) = HandlerRaises r ->
             printable_Exception env (HandlerRaised r) = true) ->
          outcome = Value (PyStr (exc_type (heap env 0))))
      /\ (forall f, assembled = Raise f ->
            delivered_reports w'' = delivered_reports listening)
      /\ (forall info,
            assembled = Ok info ->
            handler_ready listening = true ->
            (event_recovered no_kwargs None ∅ = true -> stdout_ok listening = true) ->
            delivered_reports w'' = (delivered_reports listening ++ [merged info])%list
            /\ (context_kwargs no_kwargs None ∅ !! "error" = None ->
                custom_context no_kwargs !! "error" = None ->
                exists er,
                  merged info !! "error" = Some (RError er)
                  /\ er_type er = exc_type (heap env 0))).
Proof.
  intros env assembled merged.
  split; [reflexivity|]. split; [vm_compute; reflexivity|].
  split; [reflexivity|]. split; [reflexivity|].
  apply (captured_fault_sentinel env no_kwargs (failing []) None
           [PyInt 10; PyInt 0] ∅ listening 0 demo_traceback listening).
  - reflexivity.
  - vm_compute. reflexivity.
  - reflexivity.
  - reflexivity.
Defined.


(** * Further properties of the engine *)

(** ** String summaries *)

Lemma length_append (s1 s2 : string) :
  String.length (s1 ++ s2) = String.length s1 + String.length s2.
Proof. induction s1 as [|c s1 IH]; simpl; [done | by rewrite IH]. Qed.

Lemma length_prefix n (s : string) :
  String.length (PyString.prefix n s) = Nat.min n (String.length s).
Proof.
  unfold PyString.prefix. revert s.
  induction n as [|n IH]; intros [|c s]; simpl; try done. by rewrite IH.
Qed.

Lemma prefix_append n (s : string) :
  n <= String.length s ->
  exists rest, s = PyString.prefix n s ++ rest.
Proof.
  unfold PyString.prefix. revert s.
  induction n as [|n IH]; intros s Hn.
  - exists s. by destruct s.
  - destruct s as [|c s]; simpl in *; [lia|].
    destruct (IH s) as [rest Hrest]; [lia|].
    exists rest. change (String c s = String c (substring 0 n s ++ rest)).
    by f_equal.
Qed.

(** X1: truncation leaves a string of at most [limit] characters as it is, and
    cuts a longer one to its first [limit] characters followed by ["..."], so a
    truncated string never has more than [limit + 3] characters. *)
Theorem truncate_spec limit (s : string) :
  (String.length s <= limit -> PyString.truncate limit s = s)
  /\ (limit < String.length s ->
        exists rest, s = PyString.prefix limit s ++ rest
                     /\ PyString.truncate limit s = PyString.prefix limit s ++ "..."
                     /\ String.length (PyString.truncate limit s) = limit + 3)
  /\ String.length (PyString.truncate limit s) <= limit + 3.
Proof.
  unfold PyString.truncate.
  destruct (Nat.ltb limit (String.length s)) eqn:Hlt.
  - apply Nat.ltb_lt in Hlt.
    assert (Hlen : String.length (PyString.prefix limit s ++ "...") = limit + 3).
    { rewrite length_append, length_prefix. simpl. lia. }
    split; [lia|]. split; [|lia].
    intros _. destruct (prefix_append limit s) as [rest Hrest]; [lia|].
    by exists rest.
  - apply Nat.ltb_ge in Hlt. split; [done|]. split; lia.
Qed.

Lemma truncate_spec_witness :
  String.length "division" <= 50
  /\ PyString.truncate 50 "division" = "division".
Proof.
  split; [simpl; lia|].
  apply (proj1 (truncate_spec 50 "division")). simpl. lia.
Defined.

(** X2: every summary the extractor writes is short: a positional argument
    takes at most 53 characters, a keyword at most 103 and a captured local at
    most 153, whatever [str] returns for the value and also when it raises or
    the name is redacted. *)
Theorem summaries_are_bounded (v : pyobj) (name : string) :
  String.length (summarize 50 v) <= 53
  /\ String.length (keyword_summary name v) <= 103
  /\ String.length (local_summary name v) <= 153.
Proof.
  assert (Hs : forall limit, 18 <= limit -> String.length (summarize limit v) <= limit + 3).
  { intros limit Hl. unfold summarize. destruct (py_str v) as [s|].
    - apply truncate_spec.
    - simpl. lia. }
  split; [apply (Hs 50); lia|]. split.
  - unfold keyword_summary. destruct (is_sensitive_key name); [simpl; lia|].
    apply (Hs 100). lia.
  - unfold local_summary. destruct (is_sensitive_local name); [simpl; lia|].
    apply (Hs 150). lia.
Qed.

(** ** The module name of a file *)

Lemma split_nonempty c s : PyString.split c s <> [].
Proof.
  destruct s as [|a s]; simpl; [done|].
  destruct (Ascii.eqb a c); [done|]. by destruct (PyString.split c s).
Qed.

Lemma split_pieces c s piece :
  piece ∈ PyString.split c s -> PyString.contains c piece = false.
Proof.
  revert piece. induction s as [|a s IH]; intros piece; simpl.
  - intros [->|Hin]%elem_of_cons; [done | by apply elem_of_nil in Hin].
  - destruct (Ascii.eqb a c) eqn:Hac.
    + intros [->|Hin]%elem_of_cons; [done | by apply IH].
    + pose proof (split_nonempty c s).
      destruct (PyString.split c s) as [|h t]; [done|].
      intros [->|Hin]%elem_of_cons.
      * simpl. rewrite Hac. simpl. apply IH, elem_of_cons. by left.
      * apply IH, elem_of_cons. by right.
Qed.

Lemma split_append c (d n : string) :
  PyString.contains c n = false ->
  exists h t, PyString.split c (d ++ String c n) = ((h :: t) ++ [n])%list.
Proof.
  intros Hn.
  assert (Hsplit : PyString.split c n = [n]).
  { clear d. induction n as [|a n IH]; simpl in *; [done|].
    apply orb_false_iff in Hn as [Ha Hn]. rewrite Ha. by rewrite IH. }
  induction d as [|a d IH].
  - exists EmptyString, []. change (EmptyString ++ String c n) with (String c n).
    simpl. by rewrite Ascii.eqb_refl, Hsplit.
  - destruct IH as (h & t & IH).
    change (String a d ++ String c n) with (String a (d ++ String c n)).
    simpl. rewrite IH. destruct (Ascii.eqb a c).
    + by exists EmptyString, (h :: t).
    + by exists (String a h), t.
Qed.

Lemma contains_append c (d n : string) :
  PyString.contains c (d ++ String c n) = true.
Proof.
  induction d as [|a d IH].
  - change (EmptyString ++ String c n) with (String c n). simpl.
    by rewrite Ascii.eqb_refl.
  - change (String a d ++ String c n) with (String a (d ++ String c n)).
    simpl. rewrite IH. apply orb_true_r.
Qed.

Lemma last_elem_of (l : list string) (d : string) : l <> [] -> List.last l d ∈ l.
Proof.
  induction l as [|x l IH]; [done|]. intros _.
  destruct l as [|y l]; simpl; [apply elem_of_cons; by left|].
  apply elem_of_cons. right. by apply IH.
Qed.

(** X3: the [module] of a location or frame is the part of the file name after
    its last backslash: it never contains a backslash, a name of the form
    [dir\name] gives [name], and a name without backslash (any POSIX path,
    slashes included) is its own module. *)
Theorem module_of_spec (filename : string) :
  PyString.contains PyString.backslash (PyString.module_of filename) = false
  /\ (PyString.contains PyString.backslash filename = false ->
        PyString.module_of filename = filename)
  /\ (forall dir name,
        PyString.contains PyString.backslash name = false ->
        PyString.module_of (dir ++ String PyString.backslash name) = name).
Proof.
  split; [|split].
  - unfold PyString.module_of.
    destruct (PyString.contains PyString.backslash filename) eqn:Hc; [|done].
    eapply split_pieces, last_elem_of, split_nonempty.
  - intros Hc. unfold PyString.module_of. by rewrite Hc.
  - intros dir name Hname. unfold PyString.module_of.
    rewrite contains_append.
    destruct (split_append PyString.backslash dir name Hname) as (h & t & ->).
    apply last_last.
Qed.

(** ** Filtering the keyword arguments *)

(** X4: the filter only ever removes reserved context keys.  A keyword that
    is not reserved reaches the target with its value; what the target gets is
    a sub-dictionary of what the caller passed; filtering twice changes
    nothing more; and when the signature cannot be read no reserved key is
    left. *)
Theorem filter_arguments_spec signature (kwargs : gmap string pyobj) :
  (forall k, k ∉ context_keys ->
     _filter_arguments signature kwargs !! k = kwargs !! k)
  /\ _filter_arguments signature kwargs ⊆ kwargs
  /\ _filter_arguments signature (_filter_arguments signature kwargs)
     = _filter_arguments signature kwargs
  /\ (forall k, k ∈ context_keys -> _filter_arguments None kwargs !! k = None).
Proof.
  split; [|split; [|split]].
  - intros k Hk. rewrite filter_arguments_lookup.
    destruct signature; rewrite decide_True; auto.
  - destruct signature; apply map_filter_subseteq.
  - apply map_eq. intros k. rewrite !filter_arguments_lookup.
    destruct signature; by case_decide.
  - intros k Hk. rewrite filter_arguments_lookup.
    rewrite decide_False; [done | auto].
Qed.

(** ** Dispatch *)

(** X5: the dispatcher hands the report over exactly when a handler is
    registered and ready (blocking, or a coroutine function under a running
    loop), whatever a blocking handler then does: return, raise, or register
    another handler.  An exception leaves the dispatcher in three ways only:
    a blocking handler raised something that is no [Exception], which leaves
    as raised; [str] of the [Exception] it raised has raised in turn; or
    [sys.stdout] did not take the message about the handler's [Exception] or
    about the coroutine that could not be scheduled. *)
Theorem dispatch_spec env error_info w :
  delivered_reports (_call_error_handler env error_info w).2
  = (delivered_reports w ++ if handler_ready w then [error_info] else [])%list
  /\ forall f,
       (_call_error_handler env error_info w).1 = Some f ->
       exists h,
         error_handler w = Some h
         /\ ((h_is_coroutine h = true /\ loop_running w = false
              /\ stdout_ok w = false /\ f = PrintFailed)
             \/ exists r,
                  h_is_coroutine h = false
                  /\ h_result h error_info = HandlerRaises r
                  /\ ((isinstance (heap env r) "Exception" = false /\ f = HandlerRaised r)
                      \/ (isinstance (heap env r) "Exception" = true
                          /\ exc_str (heap env r) = None
                          /\ f = StrRaised (exc_str_error (heap env r)))
                      \/ (isinstance (heap env r) "Exception" = true
                          /\ is_Some (exc_str (heap env r))
                          /\ stdout_ok w = false /\ f = PrintFailed))).
Proof.
  split; [apply call_error_handler_deliveries|].
  intros f. unfold _call_error_handler.
  destruct (error_handler w) as [h|]; [|done].
  intros Hf. exists h. split; [done|].
  destruct (h_is_coroutine h).
  - left. destruct (loop_running w); [done|].
    unfold print_error, print in Hf. cbn [str_failure] in Hf.
    destruct (stdout_ok w); [done|]. by injection Hf as <-.
  - right. destruct (h_result h error_info) as [|r]; [done|].
    exists r. split; [done|]. split; [done|].
    cbn [is_Exception] in Hf.
    destruct (isinstance (heap env r) "Exception"); [|left; by injection Hf as <-].
    right. unfold print_error, print in Hf. cbn [str_failure] in Hf.
    unfold str_exc in Hf.
    destruct (exc_str (heap env r)) as [text|].
    + right. rewrite registered_stdout in Hf.
      destruct (stdout_ok w); [done|]. injection Hf as <-. by eauto.
    + left. by injection Hf as <-.
Qed.

Lemma print_error_unregistered env line f w :
  error_handler (print_error env line f w).2 = error_handler w.
Proof.
  unfold print_error, print.
  destruct (str_failure env f); [done|]. by destruct (stdout_ok w).
Qed.

Lemma capture_unregistered env dk fn caller e tb args kwargs w :
  error_handler w = None ->
  deliveries (capture env dk fn caller e tb args kwargs w).2 = deliveries w
  /\ error_handler (capture env dk fn caller e tb args kwargs w).2 = None.
Proof.
  intros Hnone.
  assert (Htry :
    deliveries (try_capture env dk fn caller e tb args kwargs w).2 = deliveries w
    /\ error_handler (try_capture env dk fn caller e tb args kwargs w).2 = None).
  { unfold try_capture, print, _call_error_handler.
    destruct (event_recovered dk caller kwargs); [destruct (stdout_ok w)|];
      cbn [error_handler logged]; rewrite ?Hnone;
      try destruct (_collect_error_info _ _ _ _ _ _ _); done. }
  unfold capture.
  destruct (try_capture env dk fn caller e tb args kwargs w) as [[f|] w1];
    cbn [snd] in Htry; [|done].
  destruct (is_Exception env f); [|done].
  by rewrite print_error_deliveries, print_error_unregistered.
Qed.

(** X6: when no handler is registered at the time a fault is caught (after
    [set_error_handler(None)], say), nothing is delivered, whether the
    collection succeeds or not, and no handler appears; the fault is still
    turned into the sentinel, provided that [sys.stdout] takes the engine's
    messages and that a failure of the collection is an [Exception] that
    prints. *)
Theorem unregistered_handler_gets_nothing
    env dk fn caller args kwargs w e tb w' :
  fn_call fn args (_filter_arguments (fn_signature fn) kwargs) w = (Raised e tb, w') ->
  error_handler w' = None ->
  isinstance (heap env e) "Exception" = true ->
  matches_any (heap env e) (propagate_errors dk) = false ->
  exists outcome w'',
    wrapper env dk fn caller args kwargs w = (outcome, w'')
    /\ deliveries w'' = deliveries w'
    /\ error_handler w'' = None
    /\ (stdout_ok w' = true ->
        (forall f,
           _collect_error_info env (Some tb) e (capture_code_context dk) (error_level dk)
             (capture_locals dk) (max_stack_depth dk) = Raise f ->
           printable_Exception env f = true) ->
        outcome = Value (PyStr (exc_type (heap env e)))).
Proof.
  intros Hcall Hnone Hexc Hprop.
  destruct (matches_any (heap env e) (ignore_errors dk)) eqn:Hignore.
  - eexists _, _. unfold wrapper, _handle_exception.
    rewrite Hcall, Hexc, Hignore. by repeat split.
  - eexists _, _. split; [by apply wrapper_captures|].
    destruct (capture_unregistered env dk fn caller e tb args kwargs w' Hnone) as [Hd Hh].
    split; [done|]. split; [done|].
    intros Hout Hcollect.
    rewrite (capture_completes env dk fn caller e tb args kwargs w' Hout Hcollect);
      [done|].
    intros h info r Hsome. by rewrite Hnone in Hsome.
Qed.

Lemma unregistered_handler_gets_nothing_witness :
  let env := demo_env (fun _ => zero_division_error) (FileLines demo_lines) in
  let silent := set_error_handler None listening in
  fn_call (failing []) [] (_filter_arguments (fn_signature (failing [])) ∅) silent
    = (Raised 0 demo_traceback, silent)
  /\ error_handler silent = None
  /\ isinstance (heap env 0) "Exception" = true
  /\ matches_any (heap env 0) (propagate_errors no_kwargs) = false
  /\ exists outcome w'',
      wrapper env no_kwargs (failing []) None [] ∅ silent = (outcome, w'')
      /\ deliveries w'' = deliveries silent
      /\ error_handler w'' = None
      /\ (stdout_ok silent = true ->
          (forall f,
             _collect_error_info env (Some demo_traceback) 0
               (capture_code_context no_kwargs) (error_level no_kwargs)
               (capture_locals no_kwargs) (max_stack_depth no_kwargs) = Raise f ->
             printable_Exception env f = true) ->
          outcome = Value (PyStr (exc_type (heap env 0)))).
Proof.
  intros env silent.
  split; [reflexivity|]. split; [reflexivity|].
  split; [vm_compute; reflexivity|]. split; [reflexivity|].
  apply (unregistered_handler_gets_nothing env no_kwargs (failing []) None [] ∅
           silent 0 demo_traceback silent).
  - reflexivity.
  - reflexivity.
  - vm_compute. reflexivity.
  - reflexivity.
Defined.

(** X7: what a wrapped call does can depend on the handler.  When a blocking
    handler raises an exception that is no [Exception] (a [SystemExit] or a
    [KeyboardInterrupt], say), neither [except Exception] clause catches it:
    the wrapped call raises that exception instead of returning the
    sentinel, after the handler was handed the report. *)
Theorem handler_interrupt_escapes
    env dk fn caller args kwargs w e tb w' h info r :
  fn_call fn args (_filter_arguments (fn_signature fn) kwargs) w = (Raised e tb, w') ->
  isinstance (heap env e) "Exception" = true ->
  matches_any (heap env e) (ignore_errors dk) = false ->
  matches_any (heap env e) (propagate_errors dk) = false ->
  _collect_error_info env (Some tb) e (capture_code_context dk) (error_level dk)
    (capture_locals dk) (max_stack_depth dk) = Ok info ->
  (event_recovered dk caller kwargs = true -> stdout_ok w' = true) ->
  error_handler w' = Some h ->
  h_is_coroutine h = false ->
  h_result h (context_info env dk fn caller args kwargs ∪ info) = HandlerRaises r ->
  isinstance (heap env r) "Exception" = false ->
  exists w'',
    wrapper env dk fn caller args kwargs w = (Escaped (HandlerRaised r), w'')
    /\ delivered_reports w''
       = (delivered_reports w' ++ [context_info env dk fn caller args kwargs ∪ info])%list.
Proof.
  intros Hcall Hexc Hignore Hpropagate Hinfo Hevent Hh Hco Hres Hbase.
  eexists. rewrite (wrapper_captures env dk fn caller args kwargs w e tb w') by done.
  assert (Hready : handler_ready w' = true)
    by (unfold handler_ready; by rewrite Hh, Hco).
  rewrite (capture_delivers env dk fn caller e tb args kwargs w' info) by done.
  assert (Hescape : (capture env dk fn caller e tb args kwargs w').1
                    = Some (HandlerRaised r)).
  { unfold capture, try_capture, print. rewrite Hinfo.
    assert (Hdispatch : forall w1, error_handler w1 = Some h ->
      exists w2, _call_error_handler env
                   (context_info env dk fn caller args kwargs ∪ info) w1
                 = (Some (HandlerRaised r), w2)).
    { intros w1 Hw1. unfold _call_error_handler. rewrite Hw1, Hco, Hres.
      cbn [is_Exception]. rewrite Hbase. by eexists. }
    destruct (event_recovered dk caller kwargs).
    - rewrite Hevent by done.
      destruct (Hdispatch (logged EventRecovered w') Hh) as [w2 ->].
      cbn [is_Exception]. by rewrite Hbase.
    - destruct (Hdispatch w' Hh) as [w2 ->].
      cbn [is_Exception]. by rewrite Hbase. }
  rewrite Hescape. by split.
Qed.

Lemma handler_interrupt_escapes_witness :
  let env := demo_env interrupt_heap (FileLines demo_lines) in
  let interrupted := set_error_handler (Some interrupted_handler) listening in
  exists info w'',
    _collect_error_info env (Some demo_traceback) 0 (capture_code_context no_kwargs)
      (error_level no_kwargs) (capture_locals no_kwargs) (max_stack_depth no_kwargs)
    = Ok info
    /\ isinstance (heap env 1) "Exception" = false
    /\ wrapper env no_kwargs (failing []) None [] ∅ interrupted
       = (Escaped (HandlerRaised 1), w'')
    /\ delivered_reports w''
       = (delivered_reports interrupted
          ++ [context_info env no_kwargs (failing []) None [] ∅ ∪ info])%list.
Proof.
  intros env interrupted. eexists.
  assert (H := fun info Hinfo =>
    handler_interrupt_escapes env no_kwargs (failing []) None [] ∅ interrupted 0
      demo_traceback interrupted interrupted_handler info 1
      eq_refl eq_refl eq_refl eq_refl Hinfo (fun _ => eq_refl) eq_refl eq_refl
      eq_refl eq_refl).
  edestruct H as (w'' & Hrun & Hdelivered); [reflexivity|].
  exists w''. split; [reflexivity|]. split; [reflexivity|]. by split.
Defined.

(** X22: the [print] of the [except] clause is itself unguarded.  When
    [sys.stdout] does not take the engine's messages and the collection
    fails, the wrapped call raises the exception of the [print] instead of
    returning the sentinel. *)
Theorem unwritable_log_escapes env dk fn caller args kwargs w e tb w' f :
  fn_call fn args (_filter_arguments (fn_signature fn) kwargs) w = (Raised e tb, w') ->
  isinstance (heap env e) "Exception" = true ->
  matches_any (heap env e) (ignore_errors dk) = false ->
  matches_any (heap env e) (propagate_errors dk) = false ->
  _collect_error_info env (Some tb) e (capture_code_context dk) (error_level dk)
    (capture_locals dk) (max_stack_depth dk) = Raise f ->
  printable_Exception env f = true ->
  stdout_ok w' = false ->
  wrapper env dk fn caller args kwargs w = (Escaped PrintFailed, w').
Proof.
  intros Hcall Hexc Hignore Hpropagate Hinfo Hf Hout.
  rewrite (wrapper_captures env dk fn caller args kwargs w e tb w') by done.
  assert (Hcapture : capture env dk fn caller e tb args kwargs w'
                     = (Some PrintFailed, w')).
  { unfold capture, try_capture, print. rewrite Hout, Hinfo.
    unfold printable_Exception in Hf.
    destruct (event_recovered dk caller kwargs).
    - unfold print_error, print. cbn [is_Exception str_failure]. by rewrite Hout.
    - unfold print_error, print.
      destruct (str_failure env f); [done|]. by rewrite Hf, Hout. }
  by rewrite Hcapture.
Qed.

Lemma unwritable_log_escapes_witness :
  let env := demo_env (fun _ => zero_division_error) FileDecodeError in
  fn_call (failing []) [] (_filter_arguments (fn_signature (failing [])) ∅) muted
    = (Raised 0 demo_traceback, muted)
  /\ _collect_error_info env (Some demo_traceback) 0 (capture_code_context no_kwargs)
       (error_level no_kwargs) (capture_locals no_kwargs) (max_stack_depth no_kwargs)
     = Raise UnicodeDecodeError
  /\ stdout_ok muted = false
  /\ wrapper env no_kwargs (failing []) None [] ∅ muted = (Escaped PrintFailed, muted).
Proof.
  intros env. split; [reflexivity|]. split; [reflexivity|]. split; [reflexivity|].
  apply (unwritable_log_escapes env no_kwargs (failing []) None [] ∅ muted 0
           demo_traceback muted UnicodeDecodeError);
    reflexivity.
Defined.

(** ** Layers of the extracted context *)

Lemma arg_key_inj (i j : nat) : "arg_" ++ pretty i = "arg_" ++ pretty j -> i = j.
Proof. intros H. injection H as H. by apply (inj pretty). Qed.

Lemma arg_key_not_caller (i : nat) : "arg_" ++ pretty i ∉ caller_keys.
Proof.
  intros Hin. unfold caller_keys in Hin.
  repeat (apply elem_of_cons in Hin as [Hin|Hin]); try discriminate Hin.
  by apply elem_of_nil in Hin.
Qed.

Lemma lookup_extract_args args : forall first ctx i,
  extract_args first args ctx !! ("arg_" ++ pretty i)
  = if decide (first <= i < first + length args)
    then (fun arg => RStr (summarize 50 arg)) <$> args !! (i - first)
    else ctx !! ("arg_" ++ pretty i).
Proof.
  induction args as [|arg rest IH]; intros first ctx i; simpl.
  - rewrite decide_False by lia. done.
  - rewrite IH. destruct (decide (first = i)) as [->|Hne].
    + rewrite decide_False by lia. rewrite decide_True by lia.
      rewrite lookup_insert_eq. by rewrite Nat.sub_diag.
    + rewrite lookup_insert_ne by (intros ?%arg_key_inj; done).
      destruct (decide (S first <= i < S first + length rest)).
      * rewrite decide_True by lia.
        replace (i - first) with (S (i - S first)) by lia. done.
      * by rewrite decide_False by lia.
Qed.

(** X8: the context mapping is written in three layers.  Position [i] goes
    under [arg_i] as a 50-character summary; a keyword of any name is written
    over that, so a keyword called [arg_0] hides the first positional
    argument; and the caller's function, file and line are written last, so
    keywords called [caller_function], [caller_filename] or
    [caller_line_number] never reach the report. *)
Theorem extract_context_info_layers
    name filename lineno (args : list pyobj) (kwargs : gmap string pyobj) :
  let ctx := _extract_context_info (Some (name, filename, lineno)) args kwargs in
  (forall i, ctx !! ("arg_" ++ pretty i)
             = match kwargs !! ("arg_" ++ pretty i) with
               | Some v => Some (RStr (keyword_summary ("arg_" ++ pretty i) v))
               | None => (fun arg => RStr (summarize 50 arg)) <$> args !! i
               end)
  /\ (forall k v, k ∉ caller_keys -> kwargs !! k = Some v ->
        ctx !! k = Some (RStr (keyword_summary k v)))
  /\ ctx !! "caller_function" = Some (RStr name)
  /\ ctx !! "caller_filename" = Some (RStr filename)
  /\ ctx !! "caller_line_number" = Some (RInt lineno).
Proof.
  intros ctx. subst ctx. split; [|split].
  - intros i. unfold _extract_context_info.
    rewrite lookup_add_caller_other by apply arg_key_not_caller.
    rewrite lookup_extract_kwargs.
    destruct (kwargs !! ("arg_" ++ pretty i)); [done|].
    rewrite lookup_extract_args, lookup_empty, Nat.sub_0_r.
    case_decide as Hi; [done|].
    rewrite lookup_ge_None_2 by lia. done.
  - intros k v Hk Hv. by apply extract_context_info_keyword.
  - unfold _extract_context_info, add_caller. repeat split; by simplify_map_eq.
Qed.

(** ** The keyword context of a captured fault *)

Lemma lookup_set_if_given key value (d : gmap string pyobj) k :
  set_if_given key value d !! k
  = if decide (key = k) then (match value with Some v => Some v | None => d !! k end)
    else d !! k.
Proof.
  unfold set_if_given. destruct value as [v|].
  - rewrite lookup_insert. by case_decide.
  - by case_decide.
Qed.

(** X9: the keyword context of a captured fault gives precedence to the
    decorator: a keyword passed to [error_decorator] hides a keyword of the
    same name passed to the call, and an [event] found among the locals of
    the wrapper's caller is only used when neither of the two supplies one. *)
Theorem context_kwargs_precedence dk caller (kwargs : gmap string pyobj) k :
  context_kwargs dk caller kwargs !! k
  = match context_decorator_kwargs dk !! k with
    | Some v => Some v
    | None =>
        match kwargs !! k with
        | Some v => Some v
        | None =>
            if decide (k = "event")
            then caller ≫= (fun frame => f_locals frame !! "event")
            else None
        end
    end.
Proof.
  assert (Hmerged : forall j,
    (context_decorator_kwargs dk ∪ kwargs) !! j
    = match context_decorator_kwargs dk !! j with
      | Some v => Some v
      | None => kwargs !! j
      end).
  { intros j. rewrite lookup_union.
    destruct (context_decorator_kwargs dk !! j), (kwargs !! j); done. }
  unfold context_kwargs.
  destruct ((context_decorator_kwargs dk ∪ kwargs) !! "event") as [ev|] eqn:Hev.
  - rewrite Hmerged. case_decide as Hk; [subst k|].
    + rewrite Hmerged in Hev.
      destruct (context_decorator_kwargs dk !! "event"); [done|].
      by rewrite Hev.
    + by destruct (context_decorator_kwargs dk !! k), (kwargs !! k).
  - rewrite Hmerged in Hev.
    destruct caller as [frame|]; simpl.
    + destruct (f_locals frame !! "event") as [ev|] eqn:Hlocal.
      * destruct (decide (k = "event")) as [->|Hk].
        -- rewrite lookup_insert_eq.
           destruct (context_decorator_kwargs dk !! "event"); [done|].
           by rewrite Hev.
        -- rewrite lookup_insert_ne by done. rewrite Hmerged.
           by destruct (context_decorator_kwargs dk !! k), (kwargs !! k).
      * rewrite Hmerged. destruct (decide (k = "event")) as [->|Hk].
        -- destruct (context_decorator_kwargs dk !! "event"); [done|].
           by rewrite Hev.
        -- by destruct (context_decorator_kwargs dk !! k), (kwargs !! k).
    + rewrite Hmerged. destruct (decide (k = "event")) as [->|Hk].
      * destruct (context_decorator_kwargs dk !! "event"); [done|].
        by rewrite Hev.
      * by destruct (context_decorator_kwargs dk !! k), (kwargs !! k).
Qed.

(** The decorator's own options in the keyword context: the three that are
    not removed from the copy. *)
Lemma context_decorator_kwargs_options dk :
  context_decorator_kwargs dk !! "error_level"
    = match dk_error_level dk with
      | Some level => Some (PyStr level)
      | None => dk_other dk !! "error_level"
      end
  /\ context_decorator_kwargs dk !! "capture_locals"
    = match dk_capture_locals dk with
      | Some b => Some (PyBool b)
      | None => dk_other dk !! "capture_locals"
      end
  /\ context_decorator_kwargs dk !! "max_stack_depth"
    = match dk_max_stack_depth dk with
      | Some depth => Some (PyInt depth)
      | None => dk_other dk !! "max_stack_depth"
      end
  /\ (forall k, k ∈ ["ignore_errors"; "propagate_errors"; "custom_context";
                     "capture_code_context"] ->
        context_decorator_kwargs dk !! k = None).
Proof.
  unfold context_decorator_kwargs.
  split; [|split; [|split]].
  - rewrite !lookup_set_if_given. simpl.
    destruct (dk_error_level dk); [done|]. by simplify_map_eq.
  - rewrite !lookup_set_if_given. simpl.
    destruct (dk_capture_locals dk); [done|]. by simplify_map_eq.
  - rewrite !lookup_set_if_given. simpl.
    destruct (dk_max_stack_depth dk); [done|]. by simplify_map_eq.
  - intros k Hk. rewrite !lookup_set_if_given.
    repeat (apply elem_of_cons in Hk as [->|Hk]);
      try (by apply elem_of_nil in Hk); simpl; by simplify_map_eq.
Qed.

Lemma option_key_free k :
  k ∈ ["error_level"; "capture_locals"; "max_stack_depth"] ->
  (k ∉ caller_keys) /\ (k ∉ decorated_keys) /\ ~ is_arg_key k
  /\ is_sensitive_key k = false /\ (k ∉ report_fields).
Proof.
  intros Hin.
  repeat (apply elem_of_cons in Hin as [->|Hin]);
    try (by apply elem_of_nil in Hin);
    (split; [by apply (bool_decide_unpack _)|];
     split; [by apply (bool_decide_unpack _)|];
     split; [by intros (rest & ?)%arg_key_head|];
     split; [done|by apply (bool_decide_unpack _)]).
Qed.

(** X10: [error_level], [capture_locals] and [max_stack_depth] given to the
    decorator are read as options and also stay in the keyword context: unless
    [custom_context] has an entry of the same name, the context mapping of
    every captured fault carries their string summaries, and a keyword of
    that name passed to the call cannot change them. *)
Theorem decorator_options_reach_context env dk fn caller args kwargs :
  let ctx := context_info env dk fn caller args kwargs in
  (forall level, dk_error_level dk = Some level ->
     custom_context dk !! "error_level" = None ->
     ctx !! "error_level" = Some (RStr (PyString.truncate 100 level)))
  /\ (forall b, dk_capture_locals dk = Some b ->
     custom_context dk !! "capture_locals" = None ->
     ctx !! "capture_locals" = Some (RStr (if b then "True" else "False")))
  /\ (forall depth, dk_max_stack_depth dk = Some depth ->
     custom_context dk !! "max_stack_depth" = None ->
     ctx !! "max_stack_depth" = Some (RStr (PyString.truncate 100 (pretty depth)))).
Proof.
  intros ctx. subst ctx.
  destruct (context_decorator_kwargs_options dk) as (Hlevel & Hlocals & Hdepth & _).
  assert (Hlookup : forall k v,
    k ∈ ["error_level"; "capture_locals"; "max_stack_depth"] ->
    custom_context dk !! k = None ->
    context_decorator_kwargs dk !! k = Some v ->
    context_info env dk fn caller args kwargs !! k = Some (RStr (summarize 100 v))).
  { intros k v Hk Hcustom Hdk.
    destruct (option_key_free k Hk) as (Hc & Hd & Ha & Hs & _).
    rewrite context_info_lookup, Hcustom by done.
    rewrite extract_context_info_lookup by done.
    rewrite context_kwargs_precedence, Hdk. simpl.
    unfold keyword_summary. by rewrite Hs. }
  split; [|split].
  - intros level Hgiven Hcustom. rewrite Hgiven in Hlevel.
    rewrite (Hlookup "error_level" (PyStr level)); [done | set_solver | done | done].
  - intros b Hgiven Hcustom. rewrite Hgiven in Hlocals.
    rewrite (Hlookup "capture_locals" (PyBool b)); [by destruct b | set_solver | done | done].
  - intros depth Hgiven Hcustom. rewrite Hgiven in Hdepth.
    rewrite (Hlookup "max_stack_depth" (PyInt depth)); [done | set_solver | done | done].
Qed.

(** ** Manual reporting *)

Lemma build_error_info_other error location code_context stack_trace
    raw_traceback highlighted_code configuration k :
  k ∉ report_fields ->
  build_error_info error location code_context stack_trace raw_traceback
    highlighted_code configuration !! k = None.
Proof.
  intros Hk. unfold build_error_info.
  rewrite !lookup_insert_ne; [apply lookup_empty | | | | | | |];
    intros <-; apply Hk; unfold report_fields; set_solver.
Qed.

Lemma collect_error_info_other env exc_tb e capture_cc level capture_loc depth info k :
  _collect_error_info env exc_tb e capture_cc level capture_loc depth = Ok info ->
  k ∉ report_fields -> info !! k = None.
Proof.
  intros H Hk.
  apply collect_error_info_Ok in H as (? & ? & ? & ? & ? & ? & _ & _ & _ & _ & _ & ->).
  by apply build_error_info_other.
Qed.

(** X11: [report_error] pops [error_level], [capture_locals] and
    [max_stack_depth] from its keywords before it extracts the context, so,
    unlike for a decorated call, the report it hands to the handler has no
    entries of these names; the options only show in [configuration]. *)
Theorem report_error_options_stay_out
    env active_tb ref cls reason capture_cc rk info w :
  report_error_info env active_tb ref cls reason capture_cc rk = Ok info ->
  exists delivered,
    report_error env active_tb ref cls reason capture_cc rk w
    = _call_error_handler (allocate env ref (instantiate cls reason)) delivered w
    /\ delivered !! "error_level" = None
    /\ delivered !! "capture_locals" = None
    /\ delivered !! "max_stack_depth" = None
    /\ (remaining_kwargs rk !! "configuration" = None ->
        delivered !! "configuration"
        = Some (RConfiguration
                  {| conf_capture_code_context := capture_cc;
                     conf_capture_locals := default false (rk_capture_locals rk);
                     conf_max_stack_depth := default 10%Z (rk_max_stack_depth rk);
                     conf_error_level := default "DEBUG" (rk_error_level rk) |})).
Proof.
  intros Hinfo. eexists. split.
  { unfold report_error. rewrite Hinfo. reflexivity. }
  assert (Hout : forall k,
    k ∈ ["error_level"; "capture_locals"; "max_stack_depth"] ->
    (_extract_context_info (Some ("report_error", this_file env, 306%Z)) []
       (remaining_kwargs rk) ∪ info) !! k = None).
  { intros k Hk. destruct (option_key_free k Hk) as (Hc & _ & Ha & _ & Hf).
    apply lookup_union_None. split.
    - rewrite extract_context_info_lookup by done.
      unfold remaining_kwargs.
      repeat (apply elem_of_cons in Hk as [->|Hk]);
        try (by apply elem_of_nil in Hk); by simplify_map_eq.
    - unfold report_error_info in Hinfo. by eapply collect_error_info_other. }
  split; [apply Hout; set_solver|]. split; [apply Hout; set_solver|].
  split; [apply Hout; set_solver|].
  intros Hconf. rewrite lookup_union_r.
  - unfold report_error_info in Hinfo.
    apply collect_error_info_Ok in Hinfo
      as (? & ? & ? & ? & ? & ? & _ & _ & _ & _ & _ & ->).
    unfold build_error_info. by simplify_map_eq.
  - apply report_context_field; [|done]. unfold report_fields. set_solver.
Qed.

Lemma report_error_options_stay_out_witness :
  let env := demo_env (fun _ => zero_division_error) (FileLines demo_lines) in
  let rk := {| rk_error_level := Some "ERROR"; rk_capture_locals := None;
               rk_max_stack_depth := Some 3%Z; rk_other := ∅ |} in
  exists info,
    report_error_info env None 7 value_error_class "bad input" true rk = Ok info
    /\ exists delivered,
        report_error env None 7 value_error_class "bad input" true rk listening
        = _call_error_handler (allocate env 7 (instantiate value_error_class "bad input"))
            delivered listening
        /\ delivered !! "error_level" = None
        /\ delivered !! "capture_locals" = None
        /\ delivered !! "max_stack_depth" = None
        /\ (remaining_kwargs rk !! "configuration" = None ->
            delivered !! "configuration"
            = Some (RConfiguration
                      {| conf_capture_code_context := true;
                         conf_capture_locals := default false (rk_capture_locals rk);
                         conf_max_stack_depth := default 10%Z (rk_max_stack_depth rk);
                         conf_error_level := default "DEBUG" (rk_error_level rk) |})).
Proof.
  intros env rk. eexists. split.
  - reflexivity.
  - eapply (report_error_options_stay_out env None 7 value_error_class "bad input"
              true rk).
    reflexivity.
Defined.

(** ** The location of a fault *)

Lemma extract_tb_from_cons env tb :
  exists rest,
    extract_tb_from env tb
    = {| fs_filename := f_co_filename (tb_frame tb);
         fs_lineno := tb_lineno tb;
         fs_name := f_co_name (tb_frame tb);
         fs_line := linecache_line env (f_co_filename (tb_frame tb)) (tb_lineno tb) |}
      :: rest.
Proof. destruct tb as [fr lineno next]. simpl. by eexists. Qed.

Lemma last_extract_tb env : forall tb,
  last (extract_tb_from env tb)
  = Some {| fs_filename := f_co_filename (tb_frame (innermost tb));
            fs_lineno := tb_lineno (innermost tb);
            fs_name := f_co_name (tb_frame (innermost tb));
            fs_line := linecache_line env (f_co_filename (tb_frame (innermost tb)))
                         (tb_lineno (innermost tb)) |}.
Proof.
  fix IH 1. intros [fr lineno [next|]]; [|reflexivity].
  change (extract_tb_from env (Traceback fr lineno (Some next)))
    with ({| fs_filename := f_co_filename fr; fs_lineno := lineno;
             fs_name := f_co_name fr;
             fs_line := linecache_line env (f_co_filename fr) lineno |}
          :: extract_tb_from env next).
  change (innermost (Traceback fr lineno (Some next))) with (innermost next).
  rewrite <- (IH next).
  destruct (extract_tb_from_cons env next) as [rest ->]. reflexivity.
Qed.

(** X12: for a fault caught by the wrapper the report always has a
    [location], and it describes the innermost entry of the traceback (the
    frame that raised), not the wrapper's own frame at the head of the
    traceback; with [capture_code_context] the [code_context] names the same
    line as its [error_line]. *)
Theorem location_is_innermost env tb e capture_cc level capture_loc depth info :
  _collect_error_info env (Some tb) e capture_cc level capture_loc depth = Ok info ->
  let raised := innermost tb in
  info !! "location"
  = Some (RLocation (Some
      {| loc_filename := f_co_filename (tb_frame raised);
         loc_line_number := tb_lineno raised;
         loc_function_name := f_co_name (tb_frame raised);
         loc_source_code :=
           linecache_line env (f_co_filename (tb_frame raised)) (tb_lineno raised);
         loc_module := PyString.module_of (f_co_filename (tb_frame raised)) |}))
  /\ (capture_cc = true ->
      exists lines,
        info !! "code_context"
        = Some (RCodeContext (Some {| cc_lines := lines;
                                      cc_error_line := tb_lineno raised |})))
  /\ (capture_cc = false -> info !! "code_context" = Some (RCodeContext None)).
Proof.
  intros H raised. unfold _collect_error_info in H.
  change (extract_tb env (Some tb)) with (extract_tb_from env tb) in H.
  rewrite last_extract_tb in H. fold raised in H.
  destruct (collect_code_context _ _ _) as [lines|]; simpl in H; [|done].
  destruct (collect_exception_chain env e) as [chain|]; simpl in H; [|done].
  destruct (str_exc (heap env e)) as [message|]; simpl in H; [|done].
  injection H as <-.
  split; [by rewrite build_error_info_location|].
  rewrite build_error_info_code_context.
  split; intros ->; [by eexists | done].
Qed.

Lemma location_is_innermost_witness :
  let env := demo_env (fun _ => zero_division_error) (FileLines demo_lines) in
  exists info,
    _collect_error_info env (Some demo_traceback) 0 true "DEBUG" false 10 = Ok info
    /\ info !! "location"
       = Some (RLocation (Some
           {| loc_filename := demo_file;
              loc_line_number := 5;
              loc_function_name := "divide";
              loc_source_code := linecache_line env demo_file 5;
              loc_module := PyString.module_of demo_file |})).
Proof.
  intros env. eexists. split; [reflexivity|].
  apply (location_is_innermost env demo_traceback 0 true "DEBUG" false 10).
  reflexivity.
Defined.



(** X14: [report_error] called while another exception is being handled
    mixes two faults: [error] and its one-link chain describe the synthesized
    instance (which has no traceback text of its own), while [location]
    describes the place where the exception being handled was raised. *)
Theorem report_error_inside_handler
    env tb ref cls reason capture_cc rk info :
  report_error_info env (Some tb) ref cls reason capture_cc rk = Ok info ->
  exists er link message,
    info !! "error" = Some (RError er)
    /\ cls_str cls reason = Some message
    /\ er_type er = cls_name cls
    /\ er_message er = message
    /\ er_exception_chain er = [link]
    /\ cl_traceback link = None
    /\ cl_relation link = None
    /\ info !! "location"
       = Some (RLocation (Some
           {| loc_filename := f_co_filename (tb_frame (innermost tb));
              loc_line_number := tb_lineno (innermost tb);
              loc_function_name := f_co_name (tb_frame (innermost tb));
              loc_source_code :=
                linecache_line env (f_co_filename (tb_frame (innermost tb)))
                  (tb_lineno (innermost tb));
              loc_module := PyString.module_of (f_co_filename (tb_frame (innermost tb))) |})).
Proof.
  intros Hinfo. unfold report_error_info in Hinfo.
  pose proof (location_is_innermost _ _ _ _ _ _ _ _ Hinfo) as (Hloc & _).
  apply collect_error_info_Ok in Hinfo
    as (lines & chain & message & location & code_context & highlighted
        & _ & Hchain & Hmsg & _ & _ & ->).
  rewrite heap_allocate in Hmsg. cbn [exc_str instantiate] in Hmsg.
  unfold collect_exception_chain in Hchain. cbn [walk_chain] in Hchain.
  rewrite heap_allocate, chain_next_instantiate in Hchain.
  unfold str_exc in Hchain. cbn [exc_str instantiate] in Hchain.
  rewrite Hmsg in Hchain. injection Hchain as <-.
  eexists _, _, message. split; [apply build_error_info_error|].
  rewrite heap_allocate. by repeat split.
Qed.

Lemma report_error_inside_handler_witness :
  let env := demo_env (fun _ => zero_division_error) (FileLines demo_lines) in
  exists info,
    report_error_info env (Some demo_traceback) 7 value_error_class "bad input"
      true no_report_kwargs = Ok info
    /\ exists er link message,
        info !! "error" = Some (RError er)
        /\ cls_str value_error_class "bad input" = Some message
        /\ er_type er = cls_name value_error_class
        /\ er_message er = message
        /\ er_exception_chain er = [link]
        /\ cl_traceback link = None
        /\ cl_relation link = None
        /\ info !! "location"
           = Some (RLocation (Some
               {| loc_filename := f_co_filename (tb_frame (innermost demo_traceback));
                  loc_line_number := tb_lineno (innermost demo_traceback);
                  loc_function_name := f_co_name (tb_frame (innermost demo_traceback));
                  loc_source_code :=
                    linecache_line env
                      (f_co_filename (tb_frame (innermost demo_traceback)))
                      (tb_lineno (innermost demo_traceback));
                  loc_module :=
                    PyString.module_of
                      (f_co_filename (tb_frame (innermost demo_traceback))) |})).
Proof.
  intros env. eexists. split; [reflexivity|].
  apply (report_error_inside_handler env demo_traceback 7 value_error_class
           "bad input" true no_report_kwargs).
  reflexivity.
Defined.

(** ** Collection without code context *)

(** X15: with [capture_code_context=False] neither window is computed, so
    the collection never fails with a decode error: it fails only when [str]
    raises on an exception of the chain, with what [str] raised; and when it
    succeeds [code_context] and [highlighted_code] are [None]. *)
Theorem collection_without_code_context env exc_tb e level capture_loc depth :
  match _collect_error_info env exc_tb e false level capture_loc depth with
  | Ok info =>
      info !! "code_context" = Some (RCodeContext None)
      /\ info !! "highlighted_code" = Some (RHighlighted None)
  | Raise f =>
      exists i r, i < 10
                  /\ nth_linked env e i = Some r
                  /\ exc_str (heap env r) = None
                  /\ f = StrRaised (exc_str_error (heap env r))
  end.
Proof.
  unfold _collect_error_info. simpl.
  assert (Hfail : forall budget r idx f,
            walk_chain env budget r idx = Raise f ->
            exists i r', i < budget
                         /\ nth_linked env r i = Some r'
                         /\ exc_str (heap env r') = None
                         /\ f = StrRaised (exc_str_error (heap env r'))).
  { induction budget as [|b IH]; intros r idx f; simpl; [done|].
    unfold str_exc. destruct (exc_str (heap env r)) eqn:Hr; simpl.
    - destruct (chain_next (heap env r)) as [[rel next]|] eqn:Hnext; [|done].
      destruct (walk_chain env b next (idx + 1)) eqn:Hw; simpl; [done|].
      intros [= <-]. destruct (IH _ _ _ Hw) as (i & r' & Hi & Hlinked & Hstr & Hf).
      exists (S i), r'. split; [lia|]. split; [|done].
      simpl. by rewrite Hnext.
    - intros [= <-]. exists 0, r. split; [lia|]. by split. }
  destruct (collect_exception_chain env e) as [chain|f] eqn:Hchain; simpl.
  - unfold str_exc. destruct (exc_str (heap env e)) eqn:He; simpl.
    + split; unfold build_error_info; by simplify_map_eq.
    + exists 0, e. split; [lia|]. by split.
  - by eapply Hfail.
Qed.

(** ** Highlighted code *)

Lemma error_line_index_none code_context : forall i found,
  (forall entry, entry ∈ code_context -> ~ flagged entry) ->
  error_line_index i code_context found = found.
Proof.
  unfold flagged.
  induction code_context as [|x rest IH]; intros i found Hnone; simpl; [done|].
  rewrite IH.
  - destruct (is_error_line x) eqn:Hx; [|done].
    exfalso. apply (Hnone x); [apply elem_of_cons; by left | done].
  - intros entry Hin. apply Hnone, elem_of_cons. by right.
Qed.

Lemma error_line_index_last code_context : forall i found p entry,
  code_context !! p = Some entry ->
  flagged entry ->
  (forall q later, p < q -> code_context !! q = Some later -> ~ flagged later) ->
  error_line_index i code_context found = (i + Z.of_nat p)%Z.
Proof.
  unfold flagged.
  induction code_context as [|x rest IH]; intros i found p entry Hp Hflag Hlater;
    [done|].
  destruct p as [|p]; simpl in *.
  - injection Hp as ->. rewrite Hflag. rewrite error_line_index_none; [lia|].
    intros later [q Hq]%list_elem_of_lookup. apply (Hlater (S q)); [lia | done].
  - rewrite (IH _ _ p entry Hp Hflag); [lia|].
    intros q later Hq Hl. apply (Hlater (S q)); [lia | done].
Qed.

Lemma length_lstrip (s : string) :
  String.length (PyString.lstrip s) <= String.length s.
Proof.
  induction s as [|c s IH]; simpl; [done|].
  destruct (PyString.is_space c); simpl; lia.
Qed.

(** X16: the highlighted view is [None] exactly for an empty window.
    Otherwise it has one line per window entry, in order, with the same number
    and text, typed [error] exactly on the flagged entries, [before] on
    unflagged lines above the error line and [after] on the others, and an
    indent level between 0 and the length of the text; [error_line_index] is
    [-1] when no entry is flagged and else the position of the last flagged
    entry. *)
Theorem highlighted_code_spec (code_context : list CodeLine) (error_line : Z) :
  (_generate_highlighted_code code_context error_line = None <-> code_context = [])
  /\ forall h, _generate_highlighted_code code_context error_line = Some h ->
       hl_error_line h = error_line
       /\ length (hl_lines h) = length code_context
       /\ (forall i entry, code_context !! i = Some entry ->
             exists line,
               hl_lines h !! i = Some line
               /\ hl_line_no line = line_no entry
               /\ hl_code line = code entry
               /\ (hl_type line = lt_error <-> flagged entry)
               /\ (hl_type line = lt_before
                   <-> ~ flagged entry /\ (line_no entry < error_line)%Z)
               /\ (0 <= hl_indent_level line <= Z.of_nat (String.length (code entry)))%Z)
       /\ ((forall entry, entry ∈ code_context -> ~ flagged entry) ->
             hl_error_line_index h = (-1)%Z)
       /\ (forall p entry,
             code_context !! p = Some entry -> flagged entry ->
             (forall q later, p < q -> code_context !! q = Some later -> ~ flagged later) ->
             hl_error_line_index h = Z.of_nat p).
Proof.
  split.
  - by destruct code_context.
  - intros h Hh.
    assert (Hh' : h = {| hl_lines :=
                           map (fun line_info =>
                                  {| hl_line_no := line_no line_info;
                                     hl_code := code line_info;
                                     hl_type := highlight_type error_line line_info;
                                     hl_indent_level := indent_level (code line_info) |})
                               code_context;
                         hl_error_line := error_line;
                         hl_error_line_index := error_line_index 0 code_context (-1) |}).
    { destruct code_context; [done|]. by injection Hh as <-. }
    subst h. clear Hh. simpl.
    split; [done|]. split; [apply length_map|].
    split; [|split].
    + intros i entry Hi. eexists. split.
      { change (map ?f code_context) with (f <$> code_context).
        by rewrite list_lookup_fmap, Hi. }
      simpl. split; [done|]. split; [done|].
      unfold highlight_type, flagged, indent_level.
      pose proof (length_lstrip (code entry)).
      destruct (is_error_line entry);
        [intuition (try congruence; try lia)|].
      destruct (Z.ltb (line_no entry) error_line) eqn:Hlt.
      * apply Z.ltb_lt in Hlt. intuition (try congruence; try lia).
      * apply Z.ltb_ge in Hlt. intuition (try congruence; try lia).
    + intros Hnone. by apply error_line_index_none.
    + intros p entry Hp Hflag Hlater.
      by rewrite (error_line_index_last _ _ _ p entry Hp Hflag Hlater).
Qed.

Lemma lookup_error_window env filename lineno known lines i :
  read_file env filename = FileLines lines ->
  exists window,
    error_window env filename lineno known = Ok window
    /\ window !! i
       = if decide (Z.max 0 (lineno - 11) + Z.of_nat i
                    < Z.min (Z.of_nat (length lines)) (lineno + 10))%Z
         then Some {| line_no := Z.max 0 (lineno - 11) + Z.of_nat i + 1;
                      code := PyString.rstrip
                                (line_at lines (Z.max 0 (lineno - 11) + Z.of_nat i));
                      is_error_line :=
                        Z.eqb (Z.max 0 (lineno - 11) + Z.of_nat i + 1) lineno |}
         else None.
Proof.
  intros Hread. unfold error_window. rewrite Hread. eexists. split; [reflexivity|].
  change (map ?f ?l) with (f <$> l). rewrite list_lookup_fmap.
  unfold window_range, py_range. case_decide as Hi.
  - rewrite lookup_seqZ_lt by lia. done.
  - rewrite lookup_seqZ_ge by lia. done.
Qed.

(** X17: when the source file can be read and the error line lies inside it,
    the window flags exactly one entry, the one at position
    [min(lineno - 1, 10)], and the highlighted view reports that position as
    its [error_line_index]: 10 for an error on line 11 or later, [lineno - 1]
    nearer to the top of the file. *)
Theorem error_line_position env filename lineno known lines :
  read_file env filename = FileLines lines ->
  (1 <= lineno <= Z.of_nat (length lines))%Z ->
  exists window h,
    error_window env filename lineno known = Ok window
    /\ _generate_highlighted_code window lineno = Some h
    /\ hl_error_line_index h = Z.min (lineno - 1) 10
    /\ (forall i entry, window !! i = Some entry ->
          (flagged entry <-> Z.of_nat i = Z.min (lineno - 1) 10)
          /\ (flagged entry -> line_no entry = lineno)).
Proof.
  intros Hread Hline.
  destruct (lookup_error_window env filename lineno known lines 0 Hread)
    as (window & Hwindow & _).
  assert (Hlookup : forall i,
    window !! i
    = if decide (Z.max 0 (lineno - 11) + Z.of_nat i
                 < Z.min (Z.of_nat (length lines)) (lineno + 10))%Z
      then Some {| line_no := Z.max 0 (lineno - 11) + Z.of_nat i + 1;
                   code := PyString.rstrip
                             (line_at lines (Z.max 0 (lineno - 11) + Z.of_nat i));
                   is_error_line :=
                     Z.eqb (Z.max 0 (lineno - 11) + Z.of_nat i + 1) lineno |}
      else None).
  { intros i.
    destruct (lookup_error_window env filename lineno known lines i Hread)
      as (window' & Hwindow' & Hi).
    rewrite Hwindow in Hwindow'. by injection Hwindow' as <-. }
  assert (Hflag : forall i entry, window !! i = Some entry ->
            (flagged entry <-> Z.of_nat i = Z.min (lineno - 1) 10)
            /\ (flagged entry -> line_no entry = lineno)).
  { intros i entry Hi. rewrite Hlookup in Hi. case_decide; [|done].
    injection Hi as <-. unfold flagged. cbn [is_error_line line_no].
    rewrite Z.eqb_eq. split; [split; lia | done]. }
  set (p := Z.to_nat (Z.min (lineno - 1) 10)).
  assert (Hp : exists entry, window !! p = Some entry /\ flagged entry).
  { rewrite Hlookup. rewrite decide_True by lia. eexists. split; [done|].
    unfold flagged. cbn [is_error_line]. apply Z.eqb_eq. lia. }
  destruct Hp as (entry & Hp & Hentry).
  destruct (_generate_highlighted_code window lineno) as [h|] eqn:Hh.
  - exists window, h. split; [done|]. split; [done|]. split; [|done].
    destruct (highlighted_code_spec window lineno) as (_ & Hspec).
    destruct (Hspec h Hh) as (_ & _ & _ & _ & Hidx).
    rewrite (Hidx p entry Hp Hentry); [lia|].
    intros q later Hq Hlater Hflagged.
    destruct (Hflag q later Hlater) as [Hiff _].
    apply Hiff in Hflagged. subst p. lia.
  - apply (proj1 (highlighted_code_spec window lineno)) in Hh.
    by rewrite Hh in Hp.
Qed.

Lemma error_line_position_witness :
  let env := demo_env (fun _ => zero_division_error) (FileLines demo_lines) in
  read_file env demo_file = FileLines demo_lines
  /\ (1 <= 5 <= Z.of_nat (length demo_lines))%Z
  /\ exists window h,
      error_window env demo_file 5 "return a / b" = Ok window
      /\ _generate_highlighted_code window 5 = Some h
      /\ hl_error_line_index h = Z.min (5 - 1) 10
      /\ (forall i entry, window !! i = Some entry ->
            (flagged entry <-> Z.of_nat i = Z.min (5 - 1) 10)
            /\ (flagged entry -> line_no entry = 5%Z)).
Proof.
  intros env. split; [reflexivity|]. split; [simpl; lia|].
  apply (error_line_position env demo_file 5 "return a / b" demo_lines).
  - reflexivity.
  - simpl. lia.
Defined.

(** ** The source window of a frame *)

(** X18: the per-frame source window of a readable file holds exactly the
    lines [lineno - 5 .. lineno + 5] that exist, at most 11, each with its
    number, its right-stripped text and the current-line flag on line
    [lineno] only. *)
Theorem frame_source_context_readable env filename lineno lines :
  read_file env filename = FileLines lines ->
  exists window,
    frame_source_context env filename lineno = Some window
    /\ length window <= 11
    /\ (forall n, (exists entry, entry ∈ window /\ sc_line_no entry = n)
                  <-> (Z.max 1 (lineno - 5) <= n
                       <= Z.min (Z.of_nat (length lines)) (lineno + 5))%Z)
    /\ (forall entry, entry ∈ window ->
          lines !! Z.to_nat (sc_line_no entry - 1)
            = Some (line_at lines (sc_line_no entry - 1))
          /\ sc_code entry = PyString.rstrip (line_at lines (sc_line_no entry - 1))
          /\ sc_is_current_line entry = Z.eqb (sc_line_no entry) lineno).
Proof.
  intros Hread. unfold frame_source_context. rewrite Hread.
  eexists. split; [reflexivity|]. split; [|split].
  - rewrite length_map.
    pose proof (length_window_range lines lineno 6 5). lia.
  - intros n. split.
    + intros (entry & Hin & <-).
      apply list_elem_of_In, in_map_iff in Hin as (i & <- & Hi).
      apply list_elem_of_In, elem_of_window_range in Hi. simpl. lia.
    + intros Hn. eexists. split.
      * apply list_elem_of_In, in_map_iff. exists (n - 1)%Z. split; [reflexivity|].
        apply list_elem_of_In, elem_of_window_range. lia.
      * simpl. lia.
  - intros entry Hin.
    apply list_elem_of_In, in_map_iff in Hin as (i & <- & Hi).
    apply list_elem_of_In in Hi. simpl.
    replace (i + 1 - 1)%Z with i by lia.
    split; [by eapply line_at_window|done].
Qed.

Lemma frame_source_context_readable_witness :
  let env := demo_env (fun _ => zero_division_error) (FileLines demo_lines) in
  read_file env demo_file = FileLines demo_lines
  /\ exists window,
      frame_source_context env demo_file 5 = Some window
      /\ length window <= 11
      /\ (forall n, (exists entry, entry ∈ window /\ sc_line_no entry = n)
                    <-> (Z.max 1 (5 - 5) <= n
                         <= Z.min (Z.of_nat (length demo_lines)) (5 + 5))%Z)
      /\ (forall entry, entry ∈ window ->
            demo_lines !! Z.to_nat (sc_line_no entry - 1)
              = Some (line_at demo_lines (sc_line_no entry - 1))
            /\ sc_code entry = PyString.rstrip (line_at demo_lines (sc_line_no entry - 1))
            /\ sc_is_current_line entry = Z.eqb (sc_line_no entry) 5).
Proof.
  intros env. split; [reflexivity|].
  apply (frame_source_context_readable env demo_file 5 demo_lines). reflexivity.
Defined.

(** ** The error record and its chain *)

(** X19: in every assembled report the first link of [exception_chain]
    repeats the [type] and [message] of the error record, with index 0 and
    [is_original] set, and no later link is marked original. *)
Theorem chain_head_is_error env exc_tb e capture_cc level capture_loc depth info :
  _collect_error_info env exc_tb e capture_cc level capture_loc depth = Ok info ->
  exists er head rest,
    info !! "error" = Some (RError er)
    /\ er_level er = level
    /\ er_exception_chain er = head :: rest
    /\ cl_type head = er_type er
    /\ cl_message head = er_message er
    /\ cl_index head = 0%Z
    /\ cl_is_original head = Some true
    /\ (forall link, link ∈ rest -> cl_is_original link = None).
Proof.
  intros H.
  apply collect_error_info_Ok in H
    as (lines & chain & message & location & code_context & highlighted
        & _ & Hchain & Hmsg & _ & _ & ->).
  unfold collect_exception_chain in Hchain.
  pose proof (fun i link => walk_chain_lookup env _ _ _ _ i link Hchain) as Hlinks.
  apply walk_chain_cases in Hchain as (head & rest & -> & Hhead & _).
  destruct Hhead as (Htype & Hstr & Hidx & Horig & _).
  eexists _, head, rest. split; [apply build_error_info_error|].
  simpl. rewrite Hmsg in Hstr. injection Hstr as ->.
  repeat (split; [done|]).
  intros link [i Hi]%list_elem_of_lookup.
  destruct (Hlinks (S i) link Hi) as (r & _ & _ & _ & _ & Horig' & _).
  rewrite Horig'. done.
Qed.

Lemma chain_head_is_error_witness :
  let env := demo_env chained_heap (FileLines demo_lines) in
  exists info,
    _collect_error_info env (Some demo_traceback) 0 true "DEBUG" false 10 = Ok info
    /\ exists er head rest,
        info !! "error" = Some (RError er)
        /\ er_level er = "DEBUG"
        /\ er_exception_chain er = head :: rest
        /\ cl_type head = er_type er
        /\ cl_message head = er_message er
        /\ cl_index head = 0%Z
        /\ cl_is_original head = Some true
        /\ (forall link, link ∈ rest -> cl_is_original link = None).
Proof.
  intros env. eexists. split; [reflexivity|].
  apply (chain_head_is_error env (Some demo_traceback) 0 true "DEBUG" false 10).
  reflexivity.
Defined.

(** ** Captured locals of a frame *)

(** X20: a frame record carries [local_variables] only when both
    [capture_code_context] and [capture_locals] are on and the frame has at
    least one local; the mapping then has exactly the names of the frame's
    locals, each with the placeholder or a summary of at most 153
    characters. *)
Theorem frame_info_locals env capture_cc capture_loc frame :
  (fr_local_variables (frame_info env capture_cc capture_loc frame) = None
   <-> capture_cc && capture_loc = false \/ f_locals frame = ∅)
  /\ forall local_vars,
       fr_local_variables (frame_info env capture_cc capture_loc frame) = Some local_vars ->
       forall name,
         local_vars !! name = local_summary name <$> f_locals frame !! name.
Proof.
  assert (Hempty : capture_local_vars (f_locals frame) = ∅ <-> f_locals frame = ∅).
  { split; intros H.
    - apply map_eq. intros name. rewrite lookup_empty.
      pose proof (lookup_capture_local_vars (f_locals frame) name) as Hl.
      rewrite H, lookup_empty in Hl. by destruct (f_locals frame !! name).
    - apply map_eq. intros name.
      by rewrite lookup_capture_local_vars, H, !lookup_empty. }
  simpl. destruct (capture_cc && capture_loc).
  - case_bool_decide as Hd; split.
    + split; [intros _; right; by apply Hempty | done].
    + done.
    + split; [done|]. intros [?|?]; [done|]. by apply Hempty in H.
    + intros local_vars [= <-] name. apply lookup_capture_local_vars.
  - split; [split; auto | done].
Qed.

(** ** The keys of a delivered report *)

(** X21: the report merged for a captured fault always has the seven
    structured field names, the three caller keys and the four
    [decorated_function_*] keys, whatever the arguments and the configuration
    (the values under the first two groups may come from the context, see
    C9). *)
Theorem delivered_report_keys env dk fn caller e tb args kwargs info k :
  _collect_error_info env (Some tb) e (capture_code_context dk) (error_level dk)
    (capture_locals dk) (max_stack_depth dk) = Ok info ->
  k ∈ report_fields \/ k ∈ caller_keys \/ k ∈ decorated_keys ->
  is_Some ((context_info env dk fn caller args kwargs ∪ info) !! k).
Proof.
  intros Hinfo Hk. apply lookup_union_is_Some.
  destruct Hk as [Hk|[Hk|Hk]].
  - right.
    apply collect_error_info_Ok in Hinfo
      as (? & ? & ? & ? & ? & ? & _ & _ & _ & _ & _ & ->).
    unfold report_fields in Hk. unfold build_error_info.
    repeat (apply elem_of_cons in Hk as [->|Hk]);
      try (by apply elem_of_nil in Hk); by simplify_map_eq.
  - left.
    assert (Hd : k ∉ decorated_keys).
    { unfold caller_keys in Hk.
      repeat (apply elem_of_cons in Hk as [->|Hk]);
        try (by apply elem_of_nil in Hk); by apply (bool_decide_unpack _). }
    rewrite context_info_lookup by done.
    destruct (custom_context dk !! k); [done|].
    destruct (extract_context_info_layers "_handle_exception" (this_file env) 136%Z
                args (context_kwargs dk caller kwargs)) as (_ & _ & H1 & H2 & H3).
    unfold caller_keys in Hk.
    repeat (apply elem_of_cons in Hk as [->|Hk]);
      try (by apply elem_of_nil in Hk); by eexists.
  - left.
    destruct (context_info_decorated env dk fn caller args kwargs)
      as (H1 & H2 & H3 & H4).
    unfold decorated_keys in Hk.
    repeat (apply elem_of_cons in Hk as [->|Hk]);
      try (by apply elem_of_nil in Hk); by eexists.
Qed.

Lemma delivered_report_keys_witness :
  let env := demo_env (fun _ => zero_division_error) (FileLines demo_lines) in
  exists info,
    _collect_error_info env (Some demo_traceback) 0 (capture_code_context no_kwargs)
      (error_level no_kwargs) (capture_locals no_kwargs) (max_stack_depth no_kwargs)
    = Ok info
    /\ ("error" ∈ report_fields \/ "error" ∈ caller_keys \/ "error" ∈ decorated_keys)
    /\ is_Some ((context_info env no_kwargs (failing []) None [] ∅ ∪ info) !! "error").
Proof.
  intros env. eexists. split; [reflexivity|].
  assert (Hk : "error" ∈ report_fields \/ "error" ∈ caller_keys
               \/ "error" ∈ decorated_keys).
  { left. apply elem_of_cons. by left. }
  split; [exact Hk|].
  apply (delivered_report_keys env no_kwargs (failing []) None 0 demo_traceback [] ∅).
  - reflexivity.
  - exact Hk.
Defined.
